(** * Mandi platform: product model and product search orchestrator

    A shallow embedding of
    - [src/mandi_platform/models/enums.py] (the enumerations used below),
    - [src/mandi_platform/models/product.py] (class [Product], its setters),
    - [src/mandi_platform/search/product_search.py]
      ([ProductRecommendationEngine] and [ProductSearchService]),
    together with the properties of these functions.

    Conventions.  Python dictionaries are [gmap]s with string keys, Python
    lists are lists, [None]-able attributes are [option]s.  A [Decimal] stock
    quantity and a float score are finite numbers, embedded as rationals [Q].
    Python integers are [Z].  Code that can raise returns [Exn + A]; code
    that talks to the document store runs in the monad [M] of module
    [Search], which threads the log of the requests sent to the store. *)

From Stdlib Require Import ZArith QArith Qround Qabs Lia.
From stdpp Require Import base option list strings gmap.

Local Open Scope Z_scope.

(** ** Enumerations ([models/enums.py]) *)

Module Enums.

Inductive LanguageCode :=
  | HINDI | ENGLISH | TAMIL | TELUGU | BENGALI
  | MARATHI | GUJARATI | KANNADA | MALAYALAM | PUNJABI.

Definition LanguageCode_value (l : LanguageCode) : string :=
  match l with
  | HINDI => "hi" | ENGLISH => "en" | TAMIL => "ta" | TELUGU => "te"
  | BENGALI => "bn" | MARATHI => "mr" | GUJARATI => "gu" | KANNADA => "kn"
  | MALAYALAM => "ml" | PUNJABI => "pa"
  end.

Inductive QualityGrade := PREMIUM | STANDARD | ECONOMY | ORGANIC | FAIR_TRADE.

Definition QualityGrade_value (g : QualityGrade) : string :=
  match g with
  | PREMIUM => "premium" | STANDARD => "standard" | ECONOMY => "economy"
  | ORGANIC => "organic" | FAIR_TRADE => "fair_trade"
  end.

Inductive AvailabilityStatus :=
  | AVAILABLE | LIMITED_STOCK | OUT_OF_STOCK | SEASONAL | DISCONTINUED | PRE_ORDER.

Definition AvailabilityStatus_value (a : AvailabilityStatus) : string :=
  match a with
  | AVAILABLE => "available" | LIMITED_STOCK => "limited_stock"
  | OUT_OF_STOCK => "out_of_stock" | SEASONAL => "seasonal"
  | DISCONTINUED => "discontinued" | PRE_ORDER => "pre_order"
  end.

End Enums.

(** ** JSON-like values stored in documents and attribute maps *)

#[local] Unset Elimination Schemes.
Inductive JValue :=
  | JNull
  | JBool (b : bool)
  | JNum (q : Q)
  | JStr (s : string)
  | JArr (xs : list JValue)
  | JObj (kvs : list (string * JValue)).
#[local] Set Elimination Schemes.

(** ** Python-level operations on these values *)

Module Py.

(** Exceptions ([Exception] subclasses) that the embedded code can raise.
    [Raised msg] stands for any other exception, for instance one raised by
    the document-store client or by the query builder. *)
Inductive Exn :=
  | KeyError (key : string)
  | TypeError
  | AttributeError
  | ZeroDivisionError
  | Raised (msg : string).

(** A computation that returns a value or raises. *)
Definition Result (A : Type) : Type := Exn + A.

#[export] Instance Result_ret : MRet Result := λ A x, inr x.
#[export] Instance Result_bind : MBind Result :=
  λ A B f m, match m with inl e => inl e | inr x => f x end.

Definition raise {A : Type} (e : Exn) : Result A := inl e.

Definition num (z : Z) : JValue := JNum (inject_Z z).

(** Truth value of an object ([bool(v)]). *)
Definition truthy (v : JValue) : bool :=
  match v with
  | JNull => false
  | JBool b => b
  | JNum q => negb (Qeq_bool q 0)
  | JStr s => negb (String.eqb s "")
  | JArr xs => match xs with [] => false | _ :: _ => true end
  | JObj kvs => match kvs with [] => false | _ :: _ => true end
  end.

(** The numeric value of an [int], [float] or [bool]; [None] for the rest. *)
Definition as_number (v : JValue) : option Q :=
  match v with
  | JNum q => Some q
  | JBool b => Some (if b then 1%Q else 0%Q)
  | _ => None
  end.

Definition Qlt_bool (x y : Q) : bool := negb (Qle_bool y x).

(** [a > n] for an integer literal [n]: objects that are not numbers are
    not ordered against an [int] and raise [TypeError]. *)
Definition py_gt_int (a : JValue) (n : Z) : Result bool :=
  match as_number a with
  | Some q => mret (Qlt_bool (inject_Z n) q)
  | None => raise TypeError
  end.

(** [a < b] where one operand is known to be a number (the embedded code
    compares prices after multiplying the source price by a float): the
    other operand is a number too, or the comparison raises [TypeError]. *)
Definition py_lt (a b : JValue) : Result bool :=
  match as_number a, as_number b with
  | Some x, Some y => mret (Qlt_bool x y)
  | _, _ => raise TypeError
  end.

(** [a * f] for a float literal [f]. *)
Definition py_mul_float (a : JValue) (f : Q) : Result JValue :=
  match as_number a with
  | Some q => mret (JNum (q * f)%Q)
  | None => raise TypeError
  end.

(** Integer floor division [a // b]. *)
Definition py_floordiv (a b : Z) : Result Z :=
  if b =? 0 then raise ZeroDivisionError else mret (a / b).

(** [d[key]] on a dictionary. *)
Definition getitem (d : gmap string JValue) (key : string) : Result JValue :=
  match d !! key with
  | Some v => mret v
  | None => raise (KeyError key)
  end.

(** Lookup in a nested object given as its list of items (keys distinct). *)
Fixpoint items_get (kvs : list (string * JValue)) (key : string) : option JValue :=
  match kvs with
  | [] => None
  | (k, v) :: rest => if String.eqb k key then Some v else items_get rest key
  end.

(** [a == b]: numbers (and booleans) compare by value, strings and [None]
    with their like, lists element by element, dictionaries key by key. *)
Fixpoint py_eq (a b : JValue) : bool :=
  match a, b with
  | JNull, JNull => true
  | JStr s, JStr t => String.eqb s t
  | JArr xs, JArr ys =>
      (fix go (xs ys : list JValue) : bool :=
         match xs, ys with
         | [], [] => true
         | x :: xs', y :: ys' => py_eq x y && go xs' ys'
         | _, _ => false
         end) xs ys
  | JObj kvs, JObj kvs' =>
      Nat.eqb (length kvs) (length kvs')
      && (fix go (kvs : list (string * JValue)) : bool :=
            match kvs with
            | [] => true
            | (k, v) :: rest =>
                match items_get kvs' k with
                | Some v' => py_eq v v'
                | None => false
                end && go rest
            end) kvs
  | _, _ =>
      match as_number a, as_number b with
      | Some x, Some y => Qeq_bool x y
      | _, _ => false
      end
  end.

(** [d1.get(key) == d2.get(key)]; an absent key reads as [None]. *)
Definition get_eq (d1 d2 : gmap string JValue) (key : string) : bool :=
  py_eq (default JNull (d1 !! key)) (default JNull (d2 !! key)).

(** [v == s] for a string literal [s]. *)
Definition eq_str (v : JValue) (s : string) : bool :=
  match v with
  | JStr t => String.eqb t s
  | _ => false
  end.

(** [sep.join(l)]. *)
Fixpoint join (sep : string) (l : list string) : string :=
  match l with
  | [] => ""
  | [x] => x
  | x :: rest => x +:+ sep +:+ join sep rest
  end.

(** [l[:n]]. *)
Definition slice_to {A : Type} (n : Z) (l : list A) : list A :=
  if 0 <=? n then take (Z.to_nat n) l
  else take (length l - Z.to_nat (- n)) l.

End Py.

(** ** The product model ([models/product.py], class [Product]) *)

Module ProductModel.
Import Enums.

(** The columns read or written by the methods embedded here.  JSON columns
    may hold [None] (the methods test for it), hence the options. *)
Record Product := mkProduct {
  names : option (gmap string string);
  descriptions : option (gmap string string);
  images : option (list string);
  attributes : option (gmap string JValue);
  search_keywords : option (list string);
  tags : option (list string);
  availability_status : AvailabilityStatus;
  stock_quantity : option Q;
  elasticsearch_synced_at : option Z;
  elasticsearch_sync_version : Z
}.

Definition with_names (v : option (gmap string string)) (p : Product) : Product :=
  mkProduct v (descriptions p) (images p) (attributes p) (search_keywords p)
    (tags p) (availability_status p) (stock_quantity p)
    (elasticsearch_synced_at p) (elasticsearch_sync_version p).

Definition with_descriptions (v : option (gmap string string)) (p : Product) : Product :=
  mkProduct (names p) v (images p) (attributes p) (search_keywords p)
    (tags p) (availability_status p) (stock_quantity p)
    (elasticsearch_synced_at p) (elasticsearch_sync_version p).

Definition with_images (v : option (list string)) (p : Product) : Product :=
  mkProduct (names p) (descriptions p) v (attributes p) (search_keywords p)
    (tags p) (availability_status p) (stock_quantity p)
    (elasticsearch_synced_at p) (elasticsearch_sync_version p).

Definition with_attributes (v : option (gmap string JValue)) (p : Product) : Product :=
  mkProduct (names p) (descriptions p) (images p) v (search_keywords p)
    (tags p) (availability_status p) (stock_quantity p)
    (elasticsearch_synced_at p) (elasticsearch_sync_version p).

Definition with_search_keywords (v : option (list string)) (p : Product) : Product :=
  mkProduct (names p) (descriptions p) (images p) (attributes p) v
    (tags p) (availability_status p) (stock_quantity p)
    (elasticsearch_synced_at p) (elasticsearch_sync_version p).

Definition with_tags (v : option (list string)) (p : Product) : Product :=
  mkProduct (names p) (descriptions p) (images p) (attributes p)
    (search_keywords p) v (availability_status p) (stock_quantity p)
    (elasticsearch_synced_at p) (elasticsearch_sync_version p).

Definition with_availability_status (v : AvailabilityStatus) (p : Product) : Product :=
  mkProduct (names p) (descriptions p) (images p) (attributes p)
    (search_keywords p) (tags p) v (stock_quantity p)
    (elasticsearch_synced_at p) (elasticsearch_sync_version p).

Definition with_stock_quantity (v : option Q) (p : Product) : Product :=
  mkProduct (names p) (descriptions p) (images p) (attributes p)
    (search_keywords p) (tags p) (availability_status p) v
    (elasticsearch_synced_at p) (elasticsearch_sync_version p).

(** [Product._mark_for_elasticsearch_sync]:
    [self.elasticsearch_sync_version += 1; self.elasticsearch_synced_at = None]. *)
Definition _mark_for_elasticsearch_sync (p : Product) : Product :=
  mkProduct (names p) (descriptions p) (images p) (attributes p)
    (search_keywords p) (tags p) (availability_status p) (stock_quantity p)
    None (elasticsearch_sync_version p + 1).

(** [Product.set_name]. *)
Definition set_name (p : Product) (language : LanguageCode) (name : string) : Product :=
  let p1 := match names p with None => with_names (Some ∅) p | Some _ => p end in
  let p2 := with_names
              (Some (<[LanguageCode_value language := name]> (default ∅ (names p1)))) p1 in
  _mark_for_elasticsearch_sync p2.

(** [Product.set_description]. *)
Definition set_description
    (p : Product) (language : LanguageCode) (description : string) : Product :=
  let p1 := match descriptions p with None => with_descriptions (Some ∅) p | Some _ => p end in
  let p2 := with_descriptions
              (Some (<[LanguageCode_value language := description]>
                       (default ∅ (descriptions p1)))) p1 in
  _mark_for_elasticsearch_sync p2.

(** [Product.add_image]: the append and the sync mark are both under the
    guard [if image_url not in self.images]. *)
Definition add_image (p : Product) (image_url : string) : Product :=
  let p1 := match images p with None => with_images (Some []) p | Some _ => p end in
  let l := default [] (images p1) in
  if decide (image_url ∈ l) then p1
  else _mark_for_elasticsearch_sync (with_images (Some (l ++ [image_url])) p1).

(** [Product.add_tag]. *)
Definition add_tag (p : Product) (tag : string) : Product :=
  let p1 := match tags p with None => with_tags (Some []) p | Some _ => p end in
  let l := default [] (tags p1) in
  if decide (tag ∈ l) then p1
  else _mark_for_elasticsearch_sync (with_tags (Some (l ++ [tag])) p1).

(** [Product.add_search_keyword]. *)
Definition add_search_keyword (p : Product) (keyword : string) : Product :=
  let p1 := match search_keywords p with
            | None => with_search_keywords (Some []) p | Some _ => p end in
  let l := default [] (search_keywords p1) in
  if decide (keyword ∈ l) then p1
  else _mark_for_elasticsearch_sync (with_search_keywords (Some (l ++ [keyword])) p1).

(** [Product.set_attribute]. *)
Definition set_attribute (p : Product) (key : string) (value : JValue) : Product :=
  let p1 := match attributes p with None => with_attributes (Some ∅) p | Some _ => p end in
  let p2 := with_attributes (Some (<[key := value]> (default ∅ (attributes p1)))) p1 in
  _mark_for_elasticsearch_sync p2.

(** [Product.get_attribute], with its [default] argument. *)
Definition get_attribute (p : Product) (key : string) (dflt : JValue) : JValue :=
  match attributes p with
  | None => dflt
  | Some m => default dflt (m !! key)
  end.

(** [Product.update_stock]: the quantity (a finite [Decimal]; the request
    schemas admit none but those [>= 0]) is stored, the availability is
    derived from it by the chain [<= 0], [<= 10], else, and the product is
    marked for sync. *)
Definition update_stock (p : Product) (new_quantity : Q) : Product :=
  let p1 := with_stock_quantity (Some new_quantity) p in
  let p2 :=
    if Qle_bool new_quantity 0 then with_availability_status OUT_OF_STOCK p1
    else if Qle_bool new_quantity 10 then with_availability_status LIMITED_STOCK p1
    else with_availability_status AVAILABLE p1 in
  _mark_for_elasticsearch_sync p2.

(** Length of a nullable list column ([len(self.tags)] once it is a list). *)
Definition column_length (l : option (list string)) : nat := length (default [] l).

(** The product of the model tests: defaults of [Product.__init__]. *)
Definition test_product : Product :=
  mkProduct (Some {["en" := "Test Product"]}) (Some {["en" := "Test"]})
    (Some []) (Some ∅) (Some []) (Some [])
    AVAILABLE (Some (100 # 1)%Q) None 1.

End ProductModel.

(** ** The search service ([search/product_search.py]) *)

Module Search.
Import Enums Py.

(** A hit of a store response: the keys ["_source"] and ["_score"] of the
    hit dictionary, each of which may be absent. *)
Record Hit := mkHit {
  hit_source : option (gmap string JValue);
  hit_score : option JValue
}.

(** One entry of [response["aggregations"]] and one of its buckets. *)
Record Bucket := mkBucket {
  bucket_key : option JValue;
  bucket_doc_count : option JValue
}.

Record AggData := mkAggData {
  agg_buckets : option (list Bucket);
  agg_min : option JValue;
  agg_max : option JValue;
  agg_avg : option JValue
}.

(** The store response [{"hits": {"total": {"value": n}, "hits": [...]},
    "aggregations": {...}}]; every part is read with [.get] and a default. *)
Record Response := mkResponse {
  resp_hits : option (list Hit);
  resp_total : option Z;
  resp_aggregations : option (list (string * AggData))
}.

(** The arguments of [es_manager.search]. *)
Record SearchCall := mkSearchCall {
  sc_index : string;
  sc_query : JValue;
  sc_size : Z;
  sc_from : Z;
  sc_sort : option (list JValue);
  sc_aggs : option JValue
}.

(** Requests sent to the store manager, in the order they are made. *)
Inductive Call :=
  | CallSearch (c : SearchCall)
  | CallGetDocument (index : string) (document_id : JValue).

(** Store-talking computations: the log of requests made so far is
    threaded, and a computation returns or raises. *)
Definition M (A : Type) : Type := list Call → Result A * list Call.

#[export] Instance M_ret : MRet M := λ A x log, (inr x, log).
#[export] Instance M_bind : MBind M :=
  λ A B f m log,
    match m log with
    | (inl e, log') => (inl e, log')
    | (inr x, log') => f x log'
    end.

Definition lift {A : Type} (r : Result A) : M A := λ log, (r, log).

(** [try: body  except Exception as e: handler e]. *)
Definition try_except {A : Type} (body : M A) (handler : Exn → M A) : M A :=
  λ log,
    match body log with
    | (inl e, log') => handler e log'
    | (inr x, log') => (inr x, log')
    end.

(** A facet produced by [_process_aggregations]. *)
Inductive Facet :=
  | FacetBuckets (items : list (JValue * JValue))
  | FacetStats (min max avg : JValue).

(** The keyword arguments of [search_products]. *)
Record SearchArgs := mkSearchArgs {
  query : string;
  language : LanguageCode;
  filters : option (gmap string JValue);
  location : option (gmap string JValue);
  price_range : option (option Q * option Q);
  quality_grades : option (list QualityGrade);
  availability_statuses : option (list AvailabilityStatus);
  page : Z;
  page_size : Z;
  sort_by : string;
  include_alternatives : bool;
  boost_local : bool
}.

(** The value of the key ["search_metadata"]. *)
Record SearchMetadata := mkSearchMetadata {
  md_query : string;
  md_language : string;
  md_filters_applied : Z;
  md_location_boost : bool;
  md_alternatives_included : bool
}.

(** The dictionary returned by [search_products].  The keys
    ["search_metadata"] and ["error"] are each present in one of the two
    return statements only; ["error"] holds [str(e)], kept here as [e]. *)
Record SearchResult := mkSearchResult {
  sr_products : list (gmap string JValue);
  sr_out_of_stock : list (gmap string JValue);
  sr_alternatives : list (gmap string JValue);
  sr_suggestions : list string;
  sr_facets : gmap string Facet;
  sr_total : Z;
  sr_page : Z;
  sr_page_size : Z;
  sr_total_pages : Z;
  sr_has_next : bool;
  sr_has_prev : bool;
  sr_search_metadata : option SearchMetadata;
  sr_error : option Exn
}.

(** *** Pure helpers of the two classes *)

(** The dictionary [{field: {"order": order}}] of a sort list. *)
Definition sort_on (field order : string) : JValue :=
  JObj [(field, JObj [("order", JStr order)])].

(** [{"term": {field: {"value": value, "boost": boost}}}]. *)
Definition boosted_term (field : string) (value : JValue) (boost : Q) : JValue :=
  JObj [("term", JObj [(field, JObj [("value", value); ("boost", JNum boost)])])].

(** [{"terms": {field: values, "boost": boost}}]. *)
Definition boosted_terms (field : string) (values : JValue) (boost : Q) : JValue :=
  JObj [("terms", JObj [(field, values); ("boost", JNum boost)])].

(** [ProductRecommendationEngine._get_quality_alternatives]. *)
Definition quality_hierarchy : gmap string (list string) :=
  list_to_map
    [ ("economy", ["economy"; "standard"; "premium"; "organic"]);
      ("standard", ["standard"; "premium"; "organic"]);
      ("premium", ["premium"; "organic"]);
      ("organic", ["organic"; "premium"]);
      ("fair_trade", ["fair_trade"; "organic"; "premium"]) ].

Definition _get_quality_alternatives (current_quality : string) : list string :=
  default ["standard"; "premium"] (quality_hierarchy !! current_quality).

(** The same call on the value found in a document: a key that is not a
    string is not in the table, and a list or a dictionary is unhashable. *)
Definition quality_alternatives_of (current_quality : JValue) : Result (list string) :=
  match current_quality with
  | JStr s => mret (_get_quality_alternatives s)
  | JArr _ | JObj _ => raise TypeError
  | _ => mret ["standard"; "premium"]
  end.

(** [ProductRecommendationEngine._build_location_boost]. *)
Definition _build_location_boost
    (location : option (gmap string JValue)) (boost : Q) : option JValue :=
  match location with
  | None => None
  | Some loc =>
      if decide (loc = ∅) then None
      else
        let city := default JNull (loc !! "city") in
        let state := default JNull (loc !! "state") in
        let location_should :=
          (if truthy city then [boosted_term "location.city" city boost] else [])
          ++ (if truthy state
              then [boosted_term "location.state" state (boost * (7 # 10))%Q]
              else []) in
        match location_should with
        | [] => None
        | _ :: _ => Some (JObj [("bool", JObj [("should", JArr location_should)])])
        end
  end.

(** [ProductRecommendationEngine._get_alternative_reason]. *)
Definition _get_alternative_reason
    (source alternative : gmap string JValue) : Result string :=
  let reasons0 :=
    if get_eq source alternative "category_id" then ["same category"] else [] in
  let source_price := default (num 0) (source !! "base_price") in
  let alt_price := default (num 0) (alternative !! "base_price") in
  lower_price ← py_lt alt_price source_price;
  reasons1 ←
    (if lower_price : bool then mret (reasons0 ++ ["lower price"])
     else
       higher_price ← py_lt source_price alt_price;
       mret (reasons0 ++ [if higher_price : bool then "premium option" else "similar price"]));
  let grade := default JNull (alternative !! "quality_grade") in
  let reasons2 :=
    if eq_str grade "premium" || eq_str grade "organic"
    then reasons1 ++ ["higher quality"] else reasons1 in
  mret (match reasons2 with [] => "good alternative" | _ :: _ => join ", " reasons2 end).

(** [hit["_source"]]. *)
Definition source_of (hit : Hit) : Result (gmap string JValue) :=
  match hit_source hit with
  | Some product => mret product
  | None => raise (KeyError "_source")
  end.

(** [hit.get("_score", 0)]. *)
Definition score_of (hit : Hit) : JValue := default (num 0) (hit_score hit).

(** [ProductSearchService._explain_relevance]. *)
Definition _explain_relevance (hit : Hit) (query : string) : Result (list string) :=
  let score := score_of hit in
  product ← source_of hit;
  high ← py_gt_int score 5;
  factors1 ←
    (if high : bool then mret ["High relevance match"]
     else
       good ← py_gt_int score 2;
       mret [if good : bool then "Good relevance match" else "Basic match"]);
  let factors2 :=
    if truthy (default JNull (product !! "is_featured"))
    then factors1 ++ ["Featured product"] else factors1 in
  let grade := default JNull (product !! "quality_grade") in
  let factors3 :=
    if eq_str grade "premium" || eq_str grade "organic"
    then factors2 ++ ["High quality"] else factors2 in
  let factors4 :=
    if eq_str (default JNull (product !! "availability_status")) "available"
    then factors3 ++ ["In stock"] else factors3 in
  mret factors4.

(** The Painless script of the ["quality_desc"] sort (the layout of the
    literal is not kept). *)
Definition quality_script_source : string :=
  "def quality_scores = ['economy': 1, 'standard': 2, 'premium': 3, 'organic': 4, 'fair_trade': 3.5]; return quality_scores.getOrDefault(doc['quality_grade'].value, 2);".

(** [ProductSearchService._build_sort_criteria]. *)
Definition _build_sort_criteria
    (sort_by : string) (location : option (gmap string JValue)) : list JValue :=
  let coordinates :=
    match location with
    | Some loc => if decide (loc = ∅) then JNull else default JNull (loc !! "coordinates")
    | None => JNull
    end in
  let sort_criteria :=
    if String.eqb sort_by "price_asc" then [sort_on "base_price" "asc"]
    else if String.eqb sort_by "price_desc" then [sort_on "base_price" "desc"]
    else if String.eqb sort_by "date_desc" then [sort_on "created_at" "desc"]
    else if String.eqb sort_by "date_asc" then [sort_on "created_at" "asc"]
    else if String.eqb sort_by "updated_desc" then [sort_on "updated_at" "desc"]
    else if String.eqb sort_by "trending" then
      [sort_on "is_featured" "desc"; sort_on "updated_at" "desc"; sort_on "_score" "desc"]
    else if String.eqb sort_by "distance" && truthy coordinates then
      [JObj [("_geo_distance",
              JObj [("location.coordinates", coordinates);
                    ("order", JStr "asc"); ("unit", JStr "km")])]]
    else if String.eqb sort_by "quality_desc" then
      [JObj [("_script",
              JObj [("type", JStr "number");
                    ("script", JObj [("source", JStr quality_script_source)]);
                    ("order", JStr "desc")])]]
    else [] in
  let sort_criteria :=
    if negb (String.eqb sort_by "relevance")
    then sort_criteria ++ [sort_on "_score" "desc"] else sort_criteria in
  sort_criteria ++ [sort_on "created_at" "desc"].

(** ["_score" in str(criteria)]: the text of a dictionary shows its keys and
    its string values verbatim between quotes, and nothing else in it
    contains an underscore, so the test asks whether some key or string
    inside [criteria] contains the needle. *)
Fixpoint is_substring (needle hay : string) : bool :=
  String.prefix needle hay
  || match hay with
     | EmptyString => false
     | String _ rest => is_substring needle rest
     end.

Fixpoint mentions (needle : string) (v : JValue) : bool :=
  match v with
  | JStr s => is_substring needle s
  | JArr xs =>
      (fix go (xs : list JValue) : bool :=
         match xs with
         | [] => false
         | x :: rest => mentions needle x || go rest
         end) xs
  | JObj kvs =>
      (fix go (kvs : list (string * JValue)) : bool :=
         match kvs with
         | [] => false
         | (k, x) :: rest => is_substring needle k || mentions needle x || go rest
         end) kvs
  | _ => false
  end.

(** [ProductSearchService._build_multi_sort_criteria], the sort builder of
    [advanced_search]. *)
Definition multi_sort_step
    (location : option (gmap string JValue)) (sort_pref : string) : list JValue :=
  let coordinates :=
    match location with
    | Some loc => if decide (loc = ∅) then JNull else default JNull (loc !! "coordinates")
    | None => JNull
    end in
  if String.eqb sort_pref "price_asc" then [sort_on "base_price" "asc"]
  else if String.eqb sort_pref "price_desc" then [sort_on "base_price" "desc"]
  else if String.eqb sort_pref "date_desc" then [sort_on "created_at" "desc"]
  else if String.eqb sort_pref "date_asc" then [sort_on "created_at" "asc"]
  else if String.eqb sort_pref "updated_desc" then [sort_on "updated_at" "desc"]
  else if String.eqb sort_pref "distance" && truthy coordinates then
    [JObj [("_geo_distance",
            JObj [("location.coordinates", coordinates);
                  ("order", JStr "asc"); ("unit", JStr "km")])]]
  else if String.eqb sort_pref "trending" then
    [sort_on "is_featured" "desc"; sort_on "updated_at" "desc"; sort_on "_score" "desc"]
  else if String.eqb sort_pref "relevance" then [sort_on "_score" "desc"]
  else [].

Definition _build_multi_sort_criteria
    (sort_preferences : list string) (location : option (gmap string JValue))
    : list JValue :=
  let sort_criteria := concat (map (multi_sort_step location) sort_preferences) in
  let sort_criteria :=
    if negb (existsb (mentions "_score") sort_criteria)
    then sort_criteria ++ [sort_on "_score" "desc"] else sort_criteria in
  sort_criteria ++ [sort_on "created_at" "desc"].

(** [ProductSearchService._build_aggregations]. *)
Definition terms_agg (field : string) (size : Z) : JValue :=
  JObj [("terms", JObj [("field", JStr field); ("size", num size)])].

Definition _build_aggregations : JValue :=
  JObj
    [ ("categories", terms_agg "category_id" 20);
      ("quality_grades", terms_agg "quality_grade" 10);
      ("availability_status", terms_agg "availability_status" 10);
      ("price_ranges",
       JObj [("range",
              JObj [("field", JStr "base_price");
                    ("ranges",
                     JArr [ JObj [("to", num 100)];
                            JObj [("from", num 100); ("to", num 500)];
                            JObj [("from", num 500); ("to", num 1000)];
                            JObj [("from", num 1000); ("to", num 5000)];
                            JObj [("from", num 5000)] ])])]);
      ("locations", terms_agg "location.state" 15) ].

(** [ProductSearchService._process_aggregations]: a bucket that lacks
    ["key"] or ["doc_count"] raises [KeyError]. *)
Definition process_bucket (bucket : Bucket) : Result (JValue * JValue) :=
  match bucket_key bucket with
  | None => raise (KeyError "key")
  | Some k =>
      match bucket_doc_count bucket with
      | None => raise (KeyError "doc_count")
      | Some c => mret (k, c)
      end
  end.

Fixpoint process_buckets (buckets : list Bucket) : Result (list (JValue * JValue)) :=
  match buckets with
  | [] => mret []
  | b :: rest =>
      item ← process_bucket b;
      items ← process_buckets rest;
      mret (item :: items)
  end.

Fixpoint process_aggregation_items
    (items : list (string * AggData)) (facets : gmap string Facet)
    : Result (gmap string Facet) :=
  match items with
  | [] => mret facets
  | (agg_name, agg_data) :: rest =>
      match agg_buckets agg_data with
      | Some buckets =>
          facet ← process_buckets buckets;
          process_aggregation_items rest (<[agg_name := FacetBuckets facet]> facets)
      | None =>
          if String.eqb agg_name "price_stats" then
            process_aggregation_items rest
              (<[agg_name := FacetStats (default JNull (agg_min agg_data))
                                        (default JNull (agg_max agg_data))
                                        (default JNull (agg_avg agg_data))]> facets)
          else process_aggregation_items rest facets
      end
  end.

Definition _process_aggregations (aggregations : list (string * AggData))
    : Result (gmap string Facet) :=
  process_aggregation_items aggregations ∅.

(** *** The service, over a document store

    [es_manager] is a collaborator of the service (the tests substitute
    their own); its two operations used here answer from the request and
    from the requests seen before, and may raise.  The query builder
    [_build_enhanced_search_query] and Python's [str.lower] are taken as
    given. *)

Section Service.

Variable es_search : list Call → SearchCall → Result Response.
Variable es_get_document : list Call → string → JValue → Result (option (gmap string JValue)).
Variable _build_enhanced_search_query : SearchArgs → Result JValue.
Variable lower : string → string.

(** [self.index_name]. *)
Definition index_name : string := "products".

(** [await self.es_manager.search(...)]. *)
Definition do_search (c : SearchCall) : M Response :=
  λ log, (es_search log c, log ++ [CallSearch c]).

(** [await self.es_manager.get_document(index, id)]. *)
Definition do_get_document (index : string) (document_id : JValue)
    : M (option (gmap string JValue)) :=
  λ log, (es_get_document log index document_id,
          log ++ [CallGetDocument index document_id]).

(** [response.get("hits", {}).get("hits", [])]. *)
Definition hits_of (response : Response) : list Hit := default [] (resp_hits response).

(** The query dictionary built in [get_alternative_products]. *)
Definition alternatives_query
    (source_product : gmap string JValue) (out_of_stock_product_id : JValue)
    (user_location : option (gmap string JValue)) : Result JValue :=
  let base_price := default (num 0) (source_product !! "base_price") in
  gte ← py_mul_float base_price (5 # 10);
  lte ← py_mul_float base_price (15 # 10);
  grades ← quality_alternatives_of
              (default (JStr "standard") (source_product !! "quality_grade"));
  mret (JObj [("bool", JObj [
    ("must", JArr [
       JObj [("term", JObj [("is_active", JBool true)])];
       JObj [("terms", JObj [("availability_status",
                              JArr [JStr "available"; JStr "limited_stock"])])] ]);
    ("should", JArr [
       boosted_term "category_id" (default JNull (source_product !! "category_id")) 8;
       JObj [("range", JObj [("base_price",
               JObj [("gte", gte); ("lte", lte); ("boost", JNum 4)])])];
       boosted_terms "quality_grade" (JArr (JStr <$> grades)) 3;
       default JNull (_build_location_boost user_location 2);
       boosted_terms "tags" (default (JArr []) (source_product !! "tags")) (25 # 10);
       boosted_terms "search_keywords"
         (default (JArr []) (source_product !! "search_keywords")) 2 ]);
    ("must_not", JArr [JObj [("term", JObj [("id", out_of_stock_product_id)])]]);
    ("minimum_should_match", num 1) ])]).

(** The loop over the hits in [get_alternative_products]. *)
Fixpoint alternative_hits
    (source_product : gmap string JValue) (hits : list Hit)
    (alternatives : list (gmap string JValue)) : Result (list (gmap string JValue)) :=
  match hits with
  | [] => mret alternatives
  | hit :: rest =>
      product ← source_of hit;
      let product := <["_score" := score_of hit]> product in
      reason ← _get_alternative_reason source_product product;
      let product := <["alternative_reason" := JStr reason]> product in
      alternative_hits source_product rest (alternatives ++ [product])
  end.

(** [ProductRecommendationEngine.get_alternative_products]. *)
Definition get_alternative_products
    (out_of_stock_product_id : JValue)
    (user_location : option (gmap string JValue)) (limit : Z)
    : M (list (gmap string JValue)) :=
  try_except
    (source_product ← do_get_document index_name out_of_stock_product_id;
     match source_product with
     | None => mret []
     | Some source_product =>
         if decide (source_product = ∅) then mret []
         else
           search_query ← lift (alternatives_query source_product
                                   out_of_stock_product_id user_location);
           response ← do_search
             (mkSearchCall index_name search_query limit 0
                (Some [sort_on "_score" "desc"]) None);
           lift (alternative_hits source_product (hits_of response) [])
     end)
    (λ e, mret []).

(** The query dictionary built in [get_search_suggestions]. *)
Definition suggestions_query (query : string) (language : LanguageCode) : JValue :=
  let names_field := "names." +:+ LanguageCode_value language in
  JObj [("bool", JObj [
    ("should", JArr [
       JObj [("prefix", JObj [(names_field,
               JObj [("value", JStr (lower query)); ("boost", JNum 3)])])];
       JObj [("prefix", JObj [("search_keywords",
               JObj [("value", JStr (lower query)); ("boost", JNum 2)])])];
       JObj [("wildcard", JObj [(names_field,
               JObj [("value", JStr ("*" +:+ lower query +:+ "*")); ("boost", JNum 1)])])] ]);
    ("filter", JArr [JObj [("term", JObj [("is_active", JBool true)])]]);
    ("minimum_should_match", num 1) ])].

(** [for keyword in v]: a list yields its elements, a dictionary its keys,
    a string its characters; the other values are not iterable. *)
Definition iterate (v : JValue) : Result (list JValue) :=
  match v with
  | JArr xs => mret xs
  | JObj kvs => mret ((λ kv, JStr kv.1) <$> kvs)
  | JStr s => mret ((λ c, JStr (String c EmptyString)) <$> String.list_ascii_of_string s)
  | _ => raise TypeError
  end.

(** The inner loop of [get_search_suggestions], over the keywords of a hit. *)
Fixpoint suggestion_keywords
    (query : string) (limit : Z) (keywords : list JValue)
    (suggestions : list string) (seen_suggestions : gset string)
    : Result (list string * gset string) :=
  match keywords with
  | [] => mret (suggestions, seen_suggestions)
  | JStr keyword :: rest =>
      if String.prefix (lower query) (lower keyword)
         && bool_decide (lower keyword ∉ seen_suggestions)
         && (Z.of_nat (length suggestions) <? limit)
      then suggestion_keywords query limit rest
             (suggestions ++ [keyword]) ({[lower keyword]} ∪ seen_suggestions)
      else suggestion_keywords query limit rest suggestions seen_suggestions
  | _ :: _ => raise AttributeError
  end.

(** The loop of [get_search_suggestions] over the hits; it stops at the
    [break]. *)
Fixpoint suggestion_hits
    (query : string) (language : LanguageCode) (limit : Z) (hits : list Hit)
    (suggestions : list string) (seen_suggestions : gset string)
    : Result (list string) :=
  match hits with
  | [] => mret suggestions
  | hit :: rest =>
      product ← source_of hit;
      names ← match default (JObj []) (product !! "names") with
              | JObj kvs => mret kvs
              | _ => raise AttributeError
              end;
      let name := default JNull (items_get names (LanguageCode_value language)) in
      '(suggestions, seen_suggestions, stop) ←
        (if truthy name then
           match name with
           | JStr s =>
               if bool_decide (lower s ∈ seen_suggestions)
               then mret (suggestions, seen_suggestions, false)
               else mret (suggestions ++ [s], {[lower s]} ∪ seen_suggestions,
                          limit <=? Z.of_nat (length (suggestions ++ [s])))
           | _ => raise AttributeError
           end
         else mret (suggestions, seen_suggestions, false));
      if stop : bool then mret suggestions
      else
        keywords ← iterate (default (JArr []) (product !! "search_keywords"));
        '(suggestions, seen_suggestions) ←
          suggestion_keywords query limit keywords suggestions seen_suggestions;
        suggestion_hits query language limit rest suggestions seen_suggestions
  end.

(** [ProductSearchService.get_search_suggestions]. *)
Definition get_search_suggestions
    (query : string) (language : LanguageCode) (limit : Z) : M (list string) :=
  try_except
    (response ← do_search
       (mkSearchCall index_name (suggestions_query query language) (limit * 2) 0 None None);
     suggestions ← lift (suggestion_hits query language limit (hits_of response) [] ∅);
     mret (slice_to limit suggestions))
    (λ e, mret []).

(** [product.get("availability_status") == "out_of_stock"]. *)
Definition is_out_of_stock (product : gmap string JValue) : bool :=
  eq_str (default JNull (product !! "availability_status")) "out_of_stock".

(** The loop of [search_products] over the hits of the response. *)
Fixpoint partition_hits
    (query : string) (hits : list Hit)
    (products out_of_stock_products : list (gmap string JValue))
    : Result (list (gmap string JValue) * list (gmap string JValue)) :=
  match hits with
  | [] => mret (products, out_of_stock_products)
  | hit :: rest =>
      product ← source_of hit;
      let product := <["_score" := score_of hit]> product in
      relevance_factors ← _explain_relevance (mkHit (Some product) (hit_score hit)) query;
      let product := <["relevance_factors" := JArr (JStr <$> relevance_factors)]> product in
      if is_out_of_stock product
      then partition_hits query rest products (out_of_stock_products ++ [product])
      else partition_hits query rest (products ++ [product]) out_of_stock_products
  end.

(** The loop of [search_products] over [out_of_stock_products[:3]]. *)
Fixpoint fetch_alternatives
    (location : option (gmap string JValue))
    (out_of_stock_products alternatives : list (gmap string JValue))
    : M (list (gmap string JValue)) :=
  match out_of_stock_products with
  | [] => mret alternatives
  | oos_product :: rest =>
      product_id ← lift (getitem oos_product "id");
      product_alternatives ← get_alternative_products product_id location 2;
      fetch_alternatives location rest
        (match product_alternatives with
         | [] => alternatives
         | _ :: _ => alternatives ++ product_alternatives
         end)
  end.

(** [search_products], from the store response to the returned dictionary. *)
Definition search_results (a : SearchArgs) (response : Response) : M SearchResult :=
  let total := default 0 (resp_total response) in
  '(products, out_of_stock_products) ←
    lift (partition_hits (query a) (hits_of response) [] []);
  alternatives ←
    (if include_alternatives a
        && match out_of_stock_products with [] => false | _ :: _ => true end
     then fetch_alternatives (location a) (take 3 out_of_stock_products) []
     else mret []);
  suggestions ←
    (if (total <? 5) && negb (String.eqb (query a) "")
     then get_search_suggestions (query a) (language a) 3
     else mret []);
  facets ← lift (_process_aggregations (default [] (resp_aggregations response)));
  total_pages ← lift (py_floordiv (total + page_size a - 1) (page_size a));
  mret (mkSearchResult products out_of_stock_products alternatives suggestions facets
          total (page a) (page_size a) total_pages
          (page a * page_size a <? total) (1 <? page a)
          (Some (mkSearchMetadata (query a) (LanguageCode_value (language a))
                   (Z.of_nat (size (default ∅ (filters a))))
                   (boost_local a) (include_alternatives a)))
          None).

(** The dictionary of the [except] branch of [search_products]. *)
Definition error_result (a : SearchArgs) (e : Exn) : SearchResult :=
  mkSearchResult [] [] [] [] ∅ 0 (page a) (page_size a) 0 false false None (Some e).

(** The request of the main query of [search_products]. *)
Definition main_search_call (a : SearchArgs) (search_query : JValue) : SearchCall :=
  mkSearchCall index_name search_query (page_size a) ((page a - 1) * page_size a)
    (Some (_build_sort_criteria (sort_by a) (location a))) (Some _build_aggregations).

(** [ProductSearchService.search_products]. *)
Definition search_products_body (a : SearchArgs) : M SearchResult :=
  search_query ← lift (_build_enhanced_search_query a);
  response ← do_search (main_search_call a search_query);
  search_results a response.

Definition search_products (a : SearchArgs) : M SearchResult :=
  try_except (search_products_body a) (λ e, mret (error_result a e)).

End Service.

(** *** Sample documents and stores, in the style of the property tests

    [tests/test_property_multilingual_search.py] replaces [es_manager] by a
    mock whose [search] answers every request with one canned response. *)

Definition ascii_lower (c : Ascii.ascii) : Ascii.ascii :=
  let n := Ascii.nat_of_ascii c in
  if (65 <=? n)%nat && (n <=? 90)%nat then Ascii.ascii_of_nat (n + 32) else c.

(** [str.lower] on ASCII text. *)
Fixpoint lower_ascii (s : string) : string :=
  match s with
  | EmptyString => EmptyString
  | String c rest => String (ascii_lower c) (lower_ascii rest)
  end.

Definition sample_document
    (id name : string) (price : Z) (grade availability : string)
    : gmap string JValue :=
  list_to_map
    [ ("id", JStr id);
      ("names", JObj [("en", JStr name)]);
      ("category_id", JStr "grains");
      ("base_price", num price);
      ("quality_grade", JStr grade);
      ("availability_status", JStr availability);
      ("is_active", JBool true);
      ("is_featured", JBool false);
      ("tags", JArr [JStr "staple"]);
      ("search_keywords", JArr [JStr "rice"]) ].

Definition doc_rice : gmap string JValue :=
  sample_document "p1" "Basmati Rice" 120 "premium" "available".
Definition doc_wheat : gmap string JValue :=
  sample_document "p2" "Sharbati Wheat" 100 "standard" "out_of_stock".
Definition doc_maize : gmap string JValue :=
  sample_document "p3" "Yellow Maize" 90 "economy" "out_of_stock".

(** The query builder on the sample requests: the sample stores do not
    inspect the query, so its clauses are left out. *)
Definition sample_query_builder (a : SearchArgs) : Result JValue :=
  mret (JObj [("bool", JObj [("must", JArr [JObj [("match_all", JObj [])]])])]).

(** A query builder that fails. *)
Definition failing_query_builder (a : SearchArgs) : Result JValue :=
  raise AttributeError.

(** The mock of the tests: one canned response for every request. *)
Definition canned_search (hits : list Hit) (total : Z)
    : list Call → SearchCall → Result Response :=
  λ _ _, mret (mkResponse (Some hits) (Some total) None).

(** A store whose client is down: every request raises. *)
Definition unreachable_search : list Call → SearchCall → Result Response :=
  λ _ _, raise (Raised "ConnectionError").

Definition no_document
    : list Call → string → JValue → Result (option (gmap string JValue)) :=
  λ _ _ _, mret None.

(** A small catalogue: the main query (the one sent with aggregations)
    matches the two out-of-stock grains, and every alternatives query is
    answered with the one grain in stock; no answer has more hits than the
    requested [size]. *)
Definition catalogue_search : list Call → SearchCall → Result Response :=
  λ _ c,
    match sc_aggs c with
    | Some _ =>
        mret (mkResponse
                (Some (take (Z.to_nat (sc_size c))
                         [mkHit (Some doc_wheat) (Some (num 3));
                          mkHit (Some doc_maize) (Some (num 2))]))
                (Some 6) (Some []))
    | None =>
        mret (mkResponse
                (Some (take (Z.to_nat (sc_size c))
                         [mkHit (Some doc_rice) (Some (num 4))]))
                (Some 1) None)
    end.

Definition catalogue_get_document
    : list Call → string → JValue → Result (option (gmap string JValue)) :=
  λ _ _ document_id,
    if py_eq document_id (JStr "p1") then mret (Some doc_rice)
    else if py_eq document_id (JStr "p2") then mret (Some doc_wheat)
    else if py_eq document_id (JStr "p3") then mret (Some doc_maize)
    else mret None.

(** [ElasticsearchManager.search] of [elasticsearch_client.py], over the
    search of its client ([connect] taken to succeed).  Its parameters are
    [index_type], [query], [size], [from_] and [sort]: a call that passes
    [aggs] raises [TypeError] before the body runs.  In the body, an
    exception of the client is turned into the empty response. *)
Definition ElasticsearchManager_search
    (client_search : list Call → SearchCall → Result Response)
    : list Call → SearchCall → Result Response :=
  λ log c,
    match sc_aggs c with
    | Some _ => raise TypeError
    | None =>
        match client_search log c with
        | inl e => mret (mkResponse (Some []) (Some 0) None)
        | inr response => mret response
        end
    end.

(** Keyword arguments with the defaults of [search_products]. *)
Definition default_args (query : string) : SearchArgs :=
  mkSearchArgs query ENGLISH None None None None None 1 20 "relevance" true true.

Definition with_paging (a : SearchArgs) (page page_size : Z) : SearchArgs :=
  mkSearchArgs (query a) (language a) (filters a) (location a) (price_range a)
    (quality_grades a) (availability_statuses a) page page_size
    (sort_by a) (include_alternatives a) (boost_local a).

(** A hit as the store returns it when the sort list has no score key:
    ["_score"] is present and [None]. *)
Definition unscored_hit : Hit := mkHit (Some doc_rice) (Some JNull).

(** Two hits as the mocks of the tests build them, one of them out of
    stock and without a score. *)
Definition mixed_hits : list Hit :=
  [mkHit (Some doc_rice) (Some (num 1)); mkHit (Some doc_wheat) None].

End Search.

(** ** Statements examined below, as predicates on the embedded code *)

Import Enums Py ProductModel Search.

(** "Adding the same tag twice leaves the length unchanged and the sync
    version goes up by one at each of the two calls." *)
Definition add_tag_twice_counts_each_call (p : Product) (tag : string) : Prop :=
  let p1 := add_tag p tag in
  let p2 := add_tag p1 tag in
  column_length (tags p2) = column_length (tags p1)
  ∧ elasticsearch_sync_version p1 = elasticsearch_sync_version p + 1
  ∧ elasticsearch_sync_version p2 = elasticsearch_sync_version p1 + 1.

(** Every document of the list reads ["out_of_stock"] under
    ["availability_status"]; no document of the list does. *)
Definition all_out_of_stock (l : list (gmap string JValue)) : Prop :=
  Forall (λ p : gmap string JValue,
            p !! "availability_status" = Some (JStr "out_of_stock")) l.

Definition none_out_of_stock (l : list (gmap string JValue)) : Prop :=
  Forall (λ p : gmap string JValue,
            p !! "availability_status" ≠ Some (JStr "out_of_stock")) l.

(** "For every search call and every list of returned hits, [products] and
    [out_of_stock] together have as many elements as the store returned
    hits, and they split them by availability." *)
Definition partition_is_complete
    (es_search : list Call → SearchCall → Result Response)
    (es_get_document : list Call → string → JValue → Result (option (gmap string JValue)))
    (builder : SearchArgs → Result JValue) (lower : string → string)
    (a : SearchArgs) (log : list Call) : Prop :=
  ∀ search_query response res log',
    builder a = inr search_query →
    es_search log (main_search_call a search_query) = inr response →
    search_products es_search es_get_document builder lower a log = (inr res, log') →
    (length (sr_products res) + length (sr_out_of_stock res)
     = length (hits_of response))%nat
    ∧ all_out_of_stock (sr_out_of_stock res)
    ∧ none_out_of_stock (sr_products res).

(** "The page and the page size are normalised to [page >= 1] and
    [1 <= page_size <= 100], and the request sent to the store carries
    that page size and the offset [(page - 1) * page_size] of the
    normalised values." *)
Definition paging_is_normalized
    (es_search : list Call → SearchCall → Result Response)
    (es_get_document : list Call → string → JValue → Result (option (gmap string JValue)))
    (builder : SearchArgs → Result JValue) (lower : string → string)
    (a : SearchArgs) (log : list Call) : Prop :=
  ∀ search_query,
    builder a = inr search_query →
    ∃ page' page_size' c rest,
      1 ≤ page' ∧ 1 ≤ page_size' ≤ 100
      ∧ (search_products es_search es_get_document builder lower a log).2
        = log ++ CallSearch c :: rest
      ∧ sc_size c = page_size'
      ∧ sc_from c = (page' - 1) * page_size'.

(** A computation only adds requests at the end of the log. *)
Definition extends_log {A : Type} (m : M A) : Prop :=
  ∀ log, ∃ rest, (m log).2 = log ++ rest.

(** The store never answers a search with more hits than the requested
    [size]. *)
Definition honours_size (es_search : list Call → SearchCall → Result Response) : Prop :=
  ∀ log c response,
    es_search log c = inr response →
    Z.of_nat (length (hits_of response)) ≤ Z.max 0 (sc_size c).

(** The identifiers of a list of documents. *)
Definition ids_of (l : list (gmap string JValue)) : list (option JValue) :=
  (λ d : gmap string JValue, d !! "id") <$> l.

(** A request of the alternatives loop: the document of one of the given
    out-of-stock products, or a search for two hits. *)
Definition alternatives_request
    (oos : list (gmap string JValue)) (c : Call) : Prop :=
  match c with
  | CallGetDocument _ document_id => Some document_id ∈ ids_of oos
  | CallSearch c => sc_size c = 2
  end.

(** ** The rest of the product model ([models/product.py]) *)

Module ProductDocument.

(** The other enumerations stored in product columns ([models/enums.py]). *)
Inductive MeasurementUnit :=
  | KILOGRAM | GRAM | QUINTAL | TON | LITER | MILLILITER | PIECE | DOZEN
  | BUNDLE | BAG | BOX | MAUND | SER | TOLA | BIGHA | ACRE.


Inductive SeasonalPattern :=
  | YEAR_ROUND | SUMMER | MONSOON | WINTER | SPRING | HARVEST_SEASON | FESTIVAL_SEASON.


Inductive ProductCondition := NEW | LIKE_NEW | GOOD | FAIR | REFURBISHED.


(** [MultilingualText.get_text]:
    [text_dict.get(language.value, text_dict.get(fallback.value, ""))]. *)
Definition get_text
    (text_dict : gmap string string) (language fallback : LanguageCode) : string :=
  default (default "" (text_dict !! LanguageCode_value fallback))
    (text_dict !! LanguageCode_value language).

(** [Product.get_name] and [Product.get_description], with the default
    [language] left to the caller: [MultilingualText.from_dict(self.names
    or {}).get_text(language)], whose fallback is English. *)
Definition get_name (p : Product) (language : LanguageCode) : string :=
  get_text (default ∅ (names p)) language ENGLISH.

Definition get_description (p : Product) (language : LanguageCode) : string :=
  get_text (default ∅ (descriptions p)) language ENGLISH.

(** [list.remove(x)] on a list that contains [x]: the first occurrence
    goes. *)
Fixpoint list_remove (x : string) (l : list string) : list string :=
  match l with
  | [] => []
  | y :: rest => if decide (x = y) then rest else y :: list_remove x rest
  end.

(** [Product.remove_image]. *)
Definition remove_image (p : Product) (image_url : string) : Product :=
  match images p with
  | Some l =>
      if decide (image_url ∈ l)
      then _mark_for_elasticsearch_sync (with_images (Some (list_remove image_url l)) p)
      else p
  | None => p
  end.

(** [Product.remove_tag]. *)
Definition remove_tag (p : Product) (tag : string) : Product :=
  match tags p with
  | Some l =>
      if decide (tag ∈ l)
      then _mark_for_elasticsearch_sync (with_tags (Some (list_remove tag l)) p)
      else p
  | None => p
  end.

(** A product row: the columns of [Product] above, and the other columns
    read by [to_elasticsearch_document] and [is_available].  Identifiers
    are kept as their text ([str(self.id)]), timestamps as instants. *)
Record ProductRow := mkProductRow {
  columns : Product;
  row_id : string;
  row_vendor_id : string;
  row_category_id : string;
  row_sku : option string;
  row_base_price : Q;
  row_currency : string;
  row_unit : MeasurementUnit;
  row_minimum_order_quantity : Q;
  row_maximum_order_quantity : option Q;
  row_quality_grade : QualityGrade;
  row_condition : ProductCondition;
  row_seasonal_pattern : SeasonalPattern;
  row_location : option (list (string * JValue));
  row_videos : option (list string);
  row_is_active : bool;
  row_is_featured : bool;
  row_created_at : option Z;
  row_updated_at : option Z
}.

(** A method of [Product] applied to the row. *)
Definition on_columns (f : Product → Product) (r : ProductRow) : ProductRow :=
  mkProductRow (f (columns r)) (row_id r) (row_vendor_id r) (row_category_id r)
    (row_sku r) (row_base_price r) (row_currency r) (row_unit r)
    (row_minimum_order_quantity r) (row_maximum_order_quantity r)
    (row_quality_grade r) (row_condition r) (row_seasonal_pattern r)
    (row_location r) (row_videos r) (row_is_active r) (row_is_featured r)
    (row_created_at r) (row_updated_at r).

(** [Product.is_available]. *)
Definition is_available (r : ProductRow) : bool :=
  row_is_active r
  && match availability_status (columns r) with
     | AVAILABLE | LIMITED_STOCK => true
     | _ => false
     end.





Section Document.

(** [datetime.isoformat]. *)
Variable isoformat : Z → string.

(** [float(d)] of a [Decimal], as the value the document gets: the double
    nearest to [d], which need not be [d] itself (it is [0.0] for a
    quantity too small for a double, an infinity for one too large). *)
Variable py_float : Q → JValue.



End Document.



End ProductDocument.

(** ** The rest of the recommendation engine and of the search service *)

Module Recommendations.

(** [d.get(outer, {}).get(inner)]: the value under [outer] has to be a
    dictionary. *)
Definition nested_get (d : gmap string JValue) (outer inner : string) : Result JValue :=
  match default (JObj []) (d !! outer) with
  | JObj kvs => mret (default JNull (items_get kvs inner))
  | _ => raise AttributeError
  end.

(** [abs(a - b) < c] on numbers. *)
Definition py_abs_diff_lt (a b c : JValue) : Result bool :=
  match as_number a, as_number b, as_number c with
  | Some x, Some y, Some z => mret (Qlt_bool (Qabs (x - y)) z)
  | _, _, _ => raise TypeError
  end.

(** [ProductRecommendationEngine._get_similarity_reason]. *)
Definition _get_similarity_reason (source similar : gmap string JValue) : Result string :=
  let reasons0 :=
    if get_eq source similar "category_id" then ["same category"] else [] in
  let source_price := default (num 0) (source !! "base_price") in
  let similar_price := default (num 0) (similar !! "base_price") in
  band ← py_mul_float source_price (3 # 10);
  close ← py_abs_diff_lt source_price similar_price band;
  let reasons1 := if close : bool then reasons0 ++ ["similar price"] else reasons0 in
  let reasons2 :=
    if get_eq source similar "quality_grade"
    then reasons1 ++ ["same quality"] else reasons1 in
  source_state ← nested_get source "location" "state";
  similar_state ← nested_get similar "location" "state";
  let reasons3 :=
    if py_eq source_state similar_state
    then reasons2 ++ ["same region"] else reasons2 in
  mret (match reasons3 with [] => "related product" | _ :: _ => join ", " reasons3 end).

(** The quality bonus of [_calculate_trending_score]. *)
Definition quality_bonus : gmap string Q :=
  list_to_map
    [ ("premium", (15 # 10)%Q); ("organic", 2%Q); ("fair_trade", (18 # 10)%Q);
      ("standard", 1%Q); ("economy", (8 # 10)%Q) ].

Definition quality_bonus_of (grade : JValue) : Result Q :=
  match grade with
  | JStr s => mret (default 1%Q (quality_bonus !! s))
  | JArr _ | JObj _ => raise TypeError
  | _ => mret 1%Q
  end.

(** The query dictionary built in [get_similar_products]. *)
Definition similar_query
    (source_product : gmap string JValue) (product_id : JValue)
    (exclude_out_of_stock : bool) : Result JValue :=
  let base_price := default (num 0) (source_product !! "base_price") in
  gte ← py_mul_float base_price (7 # 10);
  lte ← py_mul_float base_price (13 # 10);
  state ← nested_get source_product "location" "state";
  mret (JObj [("bool", JObj [
    ("must", JArr [JObj [("term", JObj [("is_active", JBool true)])]]);
    ("should", JArr [
       boosted_term "category_id" (default JNull (source_product !! "category_id")) 5;
       boosted_terms "tags" (default (JArr []) (source_product !! "tags")) 3;
       JObj [("range", JObj [("base_price",
               JObj [("gte", gte); ("lte", lte); ("boost", JNum 2)])])];
       boosted_term "quality_grade"
         (default JNull (source_product !! "quality_grade")) (25 # 10);
       boosted_term "location.state" state (15 # 10);
       boosted_terms "search_keywords"
         (default (JArr []) (source_product !! "search_keywords")) (18 # 10) ]);
    ("must_not", JArr
       ([JObj [("term", JObj [("id", product_id)])]]
        ++ (if exclude_out_of_stock
            then [JObj [("term", JObj [("availability_status", JStr "out_of_stock")])]]
            else [])));
    ("minimum_should_match", num 1) ])]).

(** The loop over the hits in [get_similar_products]. *)
Fixpoint similar_hits
    (source_product : gmap string JValue) (hits : list Hit)
    (similar_products : list (gmap string JValue))
    : Result (list (gmap string JValue)) :=
  match hits with
  | [] => mret similar_products
  | hit :: rest =>
      product ← source_of hit;
      let product := <["_score" := score_of hit]> product in
      reason ← _get_similarity_reason source_product product;
      let product := <["similarity_reason" := JStr reason]> product in
      similar_hits source_product rest (similar_products ++ [product])
  end.

(** The second loop of [_get_similar_to_results]: identifiers already
    seen are skipped, and the loop stops once [limit] products are kept.
    [seen_ids] is a set: an identifier that is a list or a dictionary
    cannot be looked up in it. *)
Definition hashable (v : JValue) : bool :=
  match v with JArr _ | JObj _ => false | _ => true end.

Fixpoint unique_by_id
    (similar_products : list (gmap string JValue)) (limit : Z)
    (seen_ids : list JValue) (unique_similar : list (gmap string JValue))
    : Result (list (gmap string JValue)) :=
  match similar_products with
  | [] => mret unique_similar
  | product :: rest =>
      product_id ← getitem product "id";
      if negb (hashable product_id) then raise TypeError
      else if existsb (py_eq product_id) seen_ids
      then unique_by_id rest limit seen_ids unique_similar
      else
        let unique_similar := unique_similar ++ [product] in
        if limit <=? Z.of_nat (length unique_similar) then mret unique_similar
        else unique_by_id rest limit (seen_ids ++ [product_id]) unique_similar
  end.

(** No two documents of the list have equal identifiers. *)
Fixpoint distinct_ids (l : list (gmap string JValue)) : Prop :=
  match l with
  | [] => True
  | d :: rest =>
      (∀ d', d' ∈ rest →
         py_eq (default JNull (d !! "id")) (default JNull (d' !! "id")) = false)
      ∧ distinct_ids rest
  end.

Section Engine.

Variable es_search : list Call → SearchCall → Result Response.
Variable es_get_document :
  list Call → string → JValue → Result (option (gmap string JValue)).
Variable builder : SearchArgs → Result JValue.
Variable lower : string → string.

(** The instants [(datetime.now() - timedelta(days=30)).isoformat()] and
    [(datetime.now() - timedelta(days=7)).isoformat()] of a call, and the
    age in whole days that the [try] of [_calculate_trending_score] finds
    for a [created_at] value ([None] when something raises there). *)
Variable created_since : string.
Variable updated_since : string.
Variable days_old : JValue → option Z.

(** [ProductRecommendationEngine.get_similar_products]. *)
Definition get_similar_products
    (product_id : JValue) (limit : Z) (exclude_out_of_stock : bool)
    : M (list (gmap string JValue)) :=
  try_except
    (source_product ← do_get_document es_get_document index_name product_id;
     match source_product with
     | None => mret []
     | Some source_product =>
         if decide (source_product = ∅) then mret []
         else
           search_query ← lift (similar_query source_product product_id
                                   exclude_out_of_stock);
           response ← do_search es_search
             (mkSearchCall index_name search_query limit 0
                (Some [sort_on "_score" "desc"]) None);
           lift (similar_hits source_product (hits_of response) [])
     end)
    (λ e, mret []).

(** The first loop of [_get_similar_to_results]. *)
Fixpoint collect_similar
    (products similar_products : list (gmap string JValue))
    : M (list (gmap string JValue)) :=
  match products with
  | [] => mret similar_products
  | product :: rest =>
      product_id ← lift (getitem product "id");
      similar ← get_similar_products product_id 2 true;
      collect_similar rest (similar_products ++ similar)
  end.

(** [ProductSearchService._get_similar_to_results]. *)
Definition _get_similar_to_results
    (products : list (gmap string JValue)) (limit : Z)
    : M (list (gmap string JValue)) :=
  similar_products ← collect_similar products [];
  lift (unique_by_id similar_products limit [] []).

(** [ProductRecommendationEngine._calculate_trending_score]. *)
Definition _calculate_trending_score (product : gmap string JValue) : Result Q :=
  let availability := default JNull (product !! "availability_status") in
  let created_at := default JNull (product !! "created_at") in
  let score0 := 0%Q in
  let score1 :=
    if truthy (default JNull (product !! "is_active")) then (score0 + 1)%Q else score0 in
  let score2 :=
    if eq_str availability "available" then (score1 + 2)%Q
    else if eq_str availability "limited_stock" then (score1 + (15 # 10))%Q
    else score1 in
  let score3 :=
    if truthy (default JNull (product !! "is_featured")) then (score2 + 3)%Q else score2 in
  let score4 :=
    if truthy created_at then
      match days_old created_at with
      | Some days =>
          if days <? 7 then (score3 + 2)%Q
          else if days <? 30 then (score3 + 1)%Q
          else score3
      | None => score3
      end
    else score3 in
  bonus ← quality_bonus_of (default (JStr "standard") (product !! "quality_grade"));
  mret (score4 + bonus)%Q.

(** The query dictionary built in [get_trending_products]. *)
Definition trending_query
    (category : option string) (location : option (gmap string JValue)) : JValue :=
  let category_filter :=
    match category with
    | Some c =>
        if String.eqb c "" then []
        else [JObj [("term", JObj [("category_id", JStr c)])]]
    | None => []
    end in
  let location_boost :=
    match _build_location_boost location (15 # 10) with
    | Some boost => [boost]
    | None => []
    end in
  JObj [("bool", JObj [
    ("must", JArr
       ([ JObj [("term", JObj [("is_active", JBool true)])];
          JObj [("terms", JObj [("availability_status",
                                 JArr [JStr "available"; JStr "limited_stock"])])] ]
        ++ category_filter));
    ("should", JArr
       ([ boosted_term "is_featured" (JBool true) 3;
          JObj [("range", JObj [("created_at",
                  JObj [("gte", JStr created_since); ("boost", JNum 2)])])];
          JObj [("range", JObj [("updated_at",
                  JObj [("gte", JStr updated_since); ("boost", JNum (15 # 10))])])] ]
        ++ location_boost)) ])].

(** The loop over the hits in [get_trending_products]. *)
Fixpoint trending_hits
    (hits : list Hit) (trending : list (gmap string JValue))
    : Result (list (gmap string JValue)) :=
  match hits with
  | [] => mret trending
  | hit :: rest =>
      product ← source_of hit;
      let product := <["_score" := score_of hit]> product in
      score ← _calculate_trending_score product;
      let product := <["trending_score" := JNum score]> product in
      trending_hits rest (trending ++ [product])
  end.

(** [ProductRecommendationEngine.get_trending_products]. *)
Definition get_trending_products
    (category : option string) (location : option (gmap string JValue)) (limit : Z)
    : M (list (gmap string JValue)) :=
  try_except
    (response ← do_search es_search
       (mkSearchCall index_name (trending_query category location) limit 0
          (Some [sort_on "_score" "desc"; sort_on "updated_at" "desc"]) None);
     lift (trending_hits (hits_of response) []))
    (λ e, mret []).

End Engine.

End Recommendations.

(** ** Callers of [search_products] *)

Module Callers.
Import Recommendations.

(** The dictionary returned by [get_recommendations_for_user]; the key
    ["based_on_preferences"] is set on one path only. *)
Record UserRecommendations := mkUserRecommendations {
  rec_trending : list (gmap string JValue);
  rec_based_on_preferences : option (list (gmap string JValue));
  rec_recently_added : list (gmap string JValue)
}.

(** The dictionary returned by [search_with_autocorrect]: that of
    [search_products], with the keys ["autocorrected"] and
    ["original_query"] when the fuzzy pass replaced the results. *)
Record AutocorrectResult := mkAutocorrectResult {
  ac_results : SearchResult;
  ac_autocorrected : option bool;
  ac_original_query : option string
}.

(** [for category in preferred_categories[:2]]: a list gives its first two
    elements, a string its first two characters; the other values that
    pass the truth test cannot be sliced. *)
Definition preferred_slice (preferred_categories : JValue) : Result (list JValue) :=
  match preferred_categories with
  | JArr xs => mret (take 2 xs)
  | JStr s =>
      mret ((λ c, JStr (String c EmptyString)) <$> take 2 (String.list_ascii_of_string s))
  | _ => raise TypeError
  end.

(** The keyword arguments of the two kinds of call made by
    [get_recommendations_for_user]; the others keep their defaults. *)
Definition category_args
    (user_location : option (gmap string JValue)) (category : JValue) : SearchArgs :=
  mkSearchArgs "" ENGLISH (Some {["category_id" := category]}) user_location
    None None None 1 3 "trending" true true.

Definition recent_args
    (user_location : option (gmap string JValue)) (limit : Z) : SearchArgs :=
  mkSearchArgs "" ENGLISH None user_location None None None 1 (limit / 3)
    "date_desc" true true.

(** [results["products"] = ...; results["total"] = ...]. *)
Definition with_products_total
    (res : SearchResult) (products : list (gmap string JValue)) (total : Z)
    : SearchResult :=
  mkSearchResult products (sr_out_of_stock res) (sr_alternatives res)
    (sr_suggestions res) (sr_facets res) total (sr_page res) (sr_page_size res)
    (sr_total_pages res) (sr_has_next res) (sr_has_prev res)
    (sr_search_metadata res) (sr_error res).

(** The query dictionary of the second pass of [search_with_autocorrect]. *)
Definition fuzzy_query (query : string) (language : LanguageCode) : JValue :=
  let lang := LanguageCode_value language in
  JObj [("bool", JObj [
    ("should", JArr [
       JObj [("multi_match", JObj [
         ("query", JStr query);
         ("fields", JArr [JStr ("names." +:+ lang +:+ "^3");
                          JStr ("descriptions." +:+ lang +:+ "^2");
                          JStr "search_keywords^2"]);
         ("fuzziness", JStr "2");
         ("prefix_length", num 1) ])];
       JObj [("wildcard", JObj [("names." +:+ lang, JStr ("*" +:+ query +:+ "*"))])] ]) ])].

(** What the second pass does with one hit. *)
Definition fuzzy_product (hit : Hit) : Result (gmap string JValue) :=
  product ← source_of hit;
  mret (<["autocorrected" := JBool true]> (<["_score" := score_of hit]> product)).

(** The loop over the hits of the second pass. *)
Fixpoint fuzzy_hits
    (hits : list Hit) (fuzzy_products : list (gmap string JValue))
    : Result (list (gmap string JValue)) :=
  match hits with
  | [] => mret fuzzy_products
  | hit :: rest =>
      product ← fuzzy_product hit;
      fuzzy_hits rest (fuzzy_products ++ [product])
  end.

Section Callers.

Variable es_search : list Call → SearchCall → Result Response.
Variable es_get_document :
  list Call → string → JValue → Result (option (gmap string JValue)).
Variable builder : SearchArgs → Result JValue.
Variable lower : string → string.
Variable created_since : string.
Variable updated_since : string.
Variable days_old : JValue → option Z.

(** The loop of [get_recommendations_for_user] over the preferred
    categories. *)
Fixpoint category_recommendations
    (user_location : option (gmap string JValue)) (categories : list JValue)
    (recommendations : list (gmap string JValue)) : M (list (gmap string JValue)) :=
  match categories with
  | [] => mret recommendations
  | category :: rest =>
      category_products ←
        search_products es_search es_get_document builder lower
          (category_args user_location category);
      category_recommendations user_location rest
        (recommendations ++ sr_products category_products)
  end.

(** [ProductSearchService.get_recommendations_for_user]. *)
Definition get_recommendations_for_user
    (user_location : option (gmap string JValue))
    (user_preferences : option (gmap string JValue)) (limit : Z)
    : M UserRecommendations :=
  try_except
    (trending ← get_trending_products es_search created_since updated_since days_old
                  None user_location (limit / 2);
     based_on_preferences ←
       match user_preferences with
       | None => mret None
       | Some preferences =>
           if decide (preferences = ∅) then mret None
           else
             let preferred_categories :=
               default (JArr []) (preferences !! "categories") in
             if truthy preferred_categories then
               categories ← lift (preferred_slice preferred_categories);
               recommendations ← category_recommendations user_location categories [];
               mret (Some (slice_to (limit / 2) recommendations))
             else mret None
       end;
     recent_products ←
       search_products es_search es_get_document builder lower
         (recent_args user_location limit);
     mret (mkUserRecommendations trending based_on_preferences
             (sr_products recent_products)))
    (λ e, mret (mkUserRecommendations [] (Some []) [])).

(** The request of the second pass of [search_with_autocorrect]: only
    [size] is passed, the offset is the manager's default. *)
Definition fuzzy_search_call (a : SearchArgs) : SearchCall :=
  mkSearchCall index_name (fuzzy_query (query a) (language a)) (page_size a) 0 None None.

(** [ProductSearchService.search_with_autocorrect]. *)
Definition search_with_autocorrect (a : SearchArgs) : M AutocorrectResult :=
  try_except
    (results ← search_products es_search es_get_document builder lower a;
     if sr_total results <? 3 then
       response ← do_search es_search (fuzzy_search_call a);
       let fuzzy_total := default 0 (resp_total response) in
       if sr_total results <? fuzzy_total then
         fuzzy_products ← lift (fuzzy_hits (hits_of response) []);
         mret (mkAutocorrectResult
                 (with_products_total results fuzzy_products fuzzy_total)
                 (Some true) (Some (query a)))
       else mret (mkAutocorrectResult results None None)
     else mret (mkAutocorrectResult results None None))
    (λ e,
       results ← search_products es_search es_get_document builder lower a;
       mret (mkAutocorrectResult results None None)).

End Callers.

(** The response of the product listings of [api/products.py]
    ([list_products], [get_vendor_products]): [total] is the number of
    rows of the page that was fetched. *)
Record ProductListResponse (Response : Type) := mkProductListResponse {
  lp_products : list Response;
  lp_total : Z;
  lp_page : Z;
  lp_page_size : Z;
  lp_total_pages : Z;
  lp_has_next : bool;
  lp_has_prev : bool
}.

Arguments mkProductListResponse {Response}.
Arguments lp_products {Response}.
Arguments lp_total {Response}.
Arguments lp_page {Response}.
Arguments lp_page_size {Response}.
Arguments lp_total_pages {Response}.
Arguments lp_has_next {Response}.
Arguments lp_has_prev {Response}.

Section Listing.

(** The rows of the database, the response schema, and
    [ProductResponse.from_orm]: the conversion is the schema library's,
    and it may raise. *)
Context {Row Response : Type}.
Variable from_orm : Row → Result Response.

(** [[ProductResponse.from_orm(product) for product in products]]. *)
Fixpoint product_responses (products : list Row) : Result (list Response) :=
  match products with
  | [] => mret []
  | product :: rest =>
      response ← from_orm product;
      responses ← product_responses rest;
      mret (response :: responses)
  end.

(** What [list_products] and [get_vendor_products] do with the rows they
    fetched: the rows are converted, then the pagination is computed. *)
Definition list_pagination (products : list Row) (page page_size : Z)
    : Result (ProductListResponse Response) :=
  responses ← product_responses products;
  let total := Z.of_nat (length products) in
  total_pages ← py_floordiv (total + page_size - 1) page_size;
  mret (mkProductListResponse responses total page page_size total_pages
          (page <? total_pages) (1 <? page)).

End Listing.

(** A schema library that refuses the configuration of the response
    schema: the conversion raises on every row. *)
Definition refusing_from_orm : gmap string JValue → Result (gmap string JValue) :=
  λ _, raise (Raised "PydanticUserError").

End Callers.

(** ** The query builder ([ProductSearchService._build_enhanced_search_query]) *)

Module QueryBuilder.

(** [{"term": {field: value}}] and [{"terms": {field: values}}]. *)
Definition term (field : string) (value : JValue) : JValue :=
  JObj [("term", JObj [(field, value)])].

Definition terms (field : string) (values : JValue) : JValue :=
  JObj [("terms", JObj [(field, values)])].

Definition multi_match
    (query : string) (fields : list string) (options : list (string * JValue)) : JValue :=
  JObj [("multi_match",
         JObj ([("query", JStr query); ("fields", JArr (JStr <$> fields))] ++ options))].

(** The clause that matches the text, for a query that is not blank. *)
Definition text_query (stripped : string) (lang : string) : JValue :=
  JObj [("bool", JObj [
    ("should", JArr [
       multi_match stripped
         ["names." +:+ lang +:+ "^5"; "descriptions." +:+ lang +:+ "^3";
          "search_keywords^4"]
         [("type", JStr "phrase"); ("boost", JNum 3)];
       multi_match stripped
         ["names." +:+ lang +:+ "^4"; "descriptions." +:+ lang +:+ "^2.5";
          "search_keywords^3"; "tags^2"; "names.en^2"; "descriptions.en^1.5"]
         [("type", JStr "best_fields"); ("fuzziness", JStr "AUTO");
          ("operator", JStr "or"); ("boost", JNum 2)];
       multi_match stripped
         ["names." +:+ lang; "descriptions." +:+ lang; "search_keywords"; "tags"]
         [("type", JStr "cross_fields"); ("operator", JStr "and");
          ("boost", JNum (15 # 10))] ]);
    ("minimum_should_match", num 1) ])].

Definition match_all : JValue := JObj [("match_all", JObj [])].

Definition active_filter : JValue := term "is_active" (JBool true).

(** The price filter: a range with the bounds that are not [None]. *)
Definition price_filter (price_range : option (option Q * option Q)) : list JValue :=
  match price_range with
  | None => []
  | Some (min_price, max_price) =>
      [JObj [("range", JObj [("base_price",
         JObj ((match min_price with Some q => [("gte", JNum q)] | None => [] end)
               ++ (match max_price with Some q => [("lte", JNum q)] | None => [] end)))])]]
  end.

Definition quality_filter (quality_grades : option (list QualityGrade)) : list JValue :=
  match quality_grades with
  | None | Some [] => []
  | Some grades => [terms "quality_grade" (JArr ((JStr ∘ QualityGrade_value) <$> grades))]
  end.

Definition availability_filter
    (availability_statuses : option (list AvailabilityStatus)) : list JValue :=
  match availability_statuses with
  | None | Some [] => []
  | Some statuses =>
      [terms "availability_status" (JArr ((JStr ∘ AvailabilityStatus_value) <$> statuses))]
  end.

(** One custom filter: a list value asks for one of its elements. *)
Definition custom_filter (kv : string * JValue) : JValue :=
  match kv.2 with
  | JArr _ => terms kv.1 kv.2
  | _ => term kv.1 kv.2
  end.

(** The boosts that every query carries. *)
Definition quality_boosts : list (string * Q) :=
  [ ("premium", (18 # 10)%Q); ("organic", 2%Q); ("fair_trade", (19 # 10)%Q);
    ("standard", 1%Q); ("economy", (9 # 10)%Q) ].

Definition availability_boosts : list (string * Q) :=
  [ ("available", 2%Q); ("limited_stock", (15 # 10)%Q); ("seasonal", (12 # 10)%Q);
    ("pre_order", 1%Q); ("out_of_stock", (1 # 10)%Q) ].

Section Builder.

(** [str.strip], [str] of a value (for the distance text), and the instant
    [(datetime.now() - timedelta(days=30)).isoformat()] of the call. *)
Variable strip : string → string.
Variable py_str : JValue → string.
Variable updated_since : string.

(** The part of the builder that reads [location]: the filters, and the
    boosts (kept only with [boost_local]). *)
Definition location_clauses
    (location : option (gmap string JValue)) (boost_local : bool)
    : list JValue * list JValue :=
  match location with
  | None => ([], [])
  | Some loc =>
      if decide (loc = ∅) then ([], [])
      else
        let at_key (key : string) := default JNull (loc !! key) in
        let keyed (key field : string) (boost : Q) : list JValue * list JValue :=
          if truthy (at_key key)
          then ([term field (at_key key)],
                if boost_local then [boosted_term field (at_key key) boost] else [])
          else ([], []) in
        let geo : list JValue * list JValue :=
          if truthy (at_key "coordinates") && truthy (at_key "radius_km")
          then
            let distance := JStr (py_str (at_key "radius_km") +:+ "km") in
            ([JObj [("geo_distance",
                     JObj [("distance", distance);
                           ("location.coordinates", at_key "coordinates")])]],
             if boost_local
             then [JObj [("geo_distance",
                          JObj [("distance", distance);
                                ("location.coordinates", at_key "coordinates");
                                ("boost", JNum 3)])]]
             else [])
          else ([], []) in
        let city := keyed "city" "location.city" 2%Q in
        let state := keyed "state" "location.state" (15 # 10)%Q in
        let pincode := keyed "pincode" "location.pincode" (25 # 10)%Q in
        (city.1 ++ state.1 ++ pincode.1 ++ geo.1,
         city.2 ++ state.2 ++ pincode.2 ++ geo.2)
  end.

Definition ranking_boosts : list JValue :=
  [boosted_term "is_featured" (JBool true) 2]
  ++ ((λ kv : string * Q, boosted_term "quality_grade" (JStr kv.1) kv.2)
        <$> quality_boosts)
  ++ ((λ kv : string * Q, boosted_term "availability_status" (JStr kv.1) kv.2)
        <$> availability_boosts)
  ++ [JObj [("range", JObj [("updated_at",
              JObj [("gte", JStr updated_since); ("boost", JNum (13 # 10))])])]].

(** The three lists of the query. *)
Definition must_clauses (a : SearchArgs) : list JValue :=
  if negb (String.eqb (query a) "") && negb (String.eqb (strip (query a)) "")
  then [text_query (strip (query a)) (LanguageCode_value (language a))]
  else [match_all].

Definition filter_clauses (a : SearchArgs) : list JValue :=
  [active_filter]
  ++ price_filter (price_range a)
  ++ quality_filter (quality_grades a)
  ++ availability_filter (availability_statuses a)
  ++ (location_clauses (location a) (boost_local a)).1
  ++ (custom_filter <$> map_to_list (default ∅ (filters a))).

Definition should_clauses (a : SearchArgs) : list JValue :=
  (location_clauses (location a) (boost_local a)).2 ++ ranking_boosts.

(** [_build_enhanced_search_query]; the custom filters of the dictionary
    [filters] come in key order. *)
Definition _build_enhanced_search_query (a : SearchArgs) : JValue :=
  JObj [("bool", JObj [
    ("must", JArr (must_clauses a));
    ("filter", JArr (filter_clauses a));
    ("should", JArr (should_clauses a));
    ("minimum_should_match", num 0) ])].

End Builder.

(** The list under [key] of the [bool] clause of a query. *)
Definition bool_list (q : JValue) (key : string) : list JValue :=
  match q with
  | JObj kvs =>
      match items_get kvs "bool" with
      | Some (JObj parts) =>
          match items_get parts key with
          | Some (JArr clauses) => clauses
          | _ => []
          end
      | _ => []
      end
  | _ => []
  end.

End QueryBuilder.

(** ** More sample data *)

Module Samples.

(** A response section with one bucket, and one of a shape that
    [_process_aggregations] does not know. *)
Definition sample_aggregations : list (string * AggData) :=
  [ ("quality_grades",
     mkAggData (Some [mkBucket (Some (JStr "premium")) (Some (num 4))]) None None None);
    ("timing", mkAggData None None None None) ].

(** What a run returned, or [dflt] when it raised. *)
Definition returned {A : Type} (dflt : A) (run : Result A * list Call) : A :=
  match run.1 with
  | inr x => x
  | inl _ => dflt
  end.

(** A store that finds nothing for the main query (the one sent with
    aggregations) and two documents for any other. *)
Definition typo_search : list Call → SearchCall → Result Response :=
  λ _ c,
    match sc_aggs c with
    | Some _ => mret (mkResponse (Some []) (Some 0) (Some []))
    | None => mret (mkResponse (Some mixed_hits) (Some 2) None)
    end.

(** A store that answers the main query only. *)
Definition main_query_only_search : list Call → SearchCall → Result Response :=
  λ _ c,
    match sc_aggs c with
    | Some _ => mret (mkResponse (Some []) (Some 0) (Some []))
    | None => raise (Raised "ConnectionError")
    end.

(** The same keyword arguments with another [boost_local]. *)
Definition with_boost_local (a : SearchArgs) (boost_local : bool) : SearchArgs :=
  mkSearchArgs (query a) (language a) (filters a) (location a) (price_range a)
    (quality_grades a) (availability_statuses a) (page a) (page_size a)
    (sort_by a) (include_alternatives a) boost_local.

End Samples.

Import Samples.

(** Unfolding of the two monads. *)
Ltac unfold_monad :=
  unfold mbind, mret, M_bind, M_ret, Result_bind, Result_ret, lift, raise,
    try_except in *.

(** * Properties of the product model *)

Section ProductProperties.

Implicit Types (p : Product) (tag : string).

Lemma mark_sync_version p :
  elasticsearch_sync_version (_mark_for_elasticsearch_sync p)
  = elasticsearch_sync_version p + 1.
Proof. reflexivity. Qed.

Lemma mark_synced_at p :
  elasticsearch_synced_at (_mark_for_elasticsearch_sync p) = None.
Proof. reflexivity. Qed.

(** A tag that is present is not added again: the product is returned as
    it is. *)
Lemma add_tag_present p tag :
  tag ∈ default [] (tags p) → add_tag p tag = p.
Proof.
  intros Hin. unfold add_tag.
  destruct (tags p) as [l|] eqn:Htags; simpl in *.
  - rewrite Htags. simpl. by rewrite decide_True.
  - by apply not_elem_of_nil in Hin.
Qed.

Lemma add_tag_absent p tag :
  tag ∉ default [] (tags p) →
  tags (add_tag p tag) = Some (default [] (tags p) ++ [tag])
  ∧ elasticsearch_sync_version (add_tag p tag) = elasticsearch_sync_version p + 1.
Proof.
  intros Hnot. unfold add_tag.
  destruct (tags p) as [l|] eqn:Htags; simpl in *; rewrite ?Htags; simpl;
    repeat case_decide; done.
Qed.

(** After [add_tag p tag] the tag is in the list, whatever [p] was. *)
Lemma add_tag_elem p tag : tag ∈ default [] (tags (add_tag p tag)).
Proof.
  destruct (decide (tag ∈ default [] (tags p))) as [Hin|Hnot].
  - by rewrite add_tag_present.
  - destruct (add_tag_absent p tag Hnot) as [-> _]. simpl. set_solver.
Qed.

Lemma add_image_present p (image_url : string) :
  image_url ∈ default [] (images p) → add_image p image_url = p.
Proof.
  intros Hin. unfold add_image.
  destruct (images p) as [l|] eqn:Himg; simpl in *.
  - rewrite Himg. simpl. by rewrite decide_True.
  - by apply not_elem_of_nil in Hin.
Qed.

Lemma add_search_keyword_present p (keyword : string) :
  keyword ∈ default [] (search_keywords p) → add_search_keyword p keyword = p.
Proof.
  intros Hin. unfold add_search_keyword.
  destruct (search_keywords p) as [l|] eqn:Hkw; simpl in *.
  - rewrite Hkw. simpl. by rewrite decide_True.
  - by apply not_elem_of_nil in Hin.
Qed.

(** C2.  For every stock update with new quantity [q], [stock_quantity]
    becomes [q]; [q <= 0] gives OUT_OF_STOCK, [0 < q <= 10] gives
    LIMITED_STOCK and [q > 10] gives AVAILABLE. *)
Theorem update_stock_derives_availability p (q : Q) :
  stock_quantity (update_stock p q) = Some q
  ∧ ((q <= 0)%Q → availability_status (update_stock p q) = OUT_OF_STOCK)
  ∧ ((0 < q)%Q ∧ (q <= 10)%Q → availability_status (update_stock p q) = LIMITED_STOCK)
  ∧ ((10 < q)%Q → availability_status (update_stock p q) = AVAILABLE).
Proof.
  unfold update_stock.
  destruct (Qle_bool q 0) eqn:H0; [|destruct (Qle_bool q 10) eqn:H10]; simpl.
  - apply Qle_bool_iff in H0.
    repeat split; try done.
    + intros [Hpos _]. by apply Qlt_not_le in Hpos.
    + intros Hbig. exfalso. apply (Qlt_not_le _ _ Hbig).
      apply Qle_trans with 0%Q; [done|]. by compute.
  - apply Qle_bool_iff in H10.
    repeat split; try done.
    + intros Hle. apply Qle_bool_iff in Hle. congruence.
    + intros Hbig. by apply Qlt_not_le in Hbig.
  - repeat split; try done.
    + intros Hle. apply Qle_bool_iff in Hle. congruence.
    + intros [_ Hle]. apply Qle_bool_iff in Hle. congruence.
Qed.

(** The three stock levels of the model test: 0, 5 and 50. *)
Lemma update_stock_derives_availability_witness :
  availability_status (update_stock test_product 0) = OUT_OF_STOCK
  ∧ availability_status (update_stock test_product 5) = LIMITED_STOCK
  ∧ availability_status (update_stock test_product 50) = AVAILABLE.
Proof.
  split; [|split].
  - apply (update_stock_derives_availability test_product 0). by compute.
  - apply (update_stock_derives_availability test_product 5). split; by compute.
  - apply (update_stock_derives_availability test_product 50). by compute.
Defined.

(** C8, as stated, fails on the test product: the second, duplicate add
    does not touch the sync version. *)
Lemma add_tag_twice_counts_each_call_fails :
  ¬ add_tag_twice_counts_each_call test_product "organic".
Proof.
  unfold add_tag_twice_counts_each_call. intros (_ & _ & H).
  vm_compute in H. discriminate H.
Qed.

(** C8, amended.  Adding the same tag twice leaves the tag list length
    unchanged after the second add; the sync version is incremented exactly
    once by an add that inserts the tag, and is left as it is by the
    duplicate add, which changes nothing. *)
Theorem add_tag_twice p tag :
  let p1 := add_tag p tag in
  let p2 := add_tag p1 tag in
  column_length (tags p2) = column_length (tags p1)
  ∧ elasticsearch_sync_version p2 = elasticsearch_sync_version p1
  ∧ elasticsearch_sync_version p1
    = elasticsearch_sync_version p
      + (if bool_decide (tag ∈ default [] (tags p)) then 0 else 1).
Proof.
  intros p1 p2. subst p2.
  rewrite (add_tag_present p1 tag) by apply add_tag_elem.
  split; [done|]. split; [done|]. subst p1.
  case_bool_decide as Hin.
  - rewrite add_tag_present by done. lia.
  - by destruct (add_tag_absent p tag Hin) as [_ ->].
Qed.

(** A write of the value already stored keeps the content and still bumps
    the version. *)
Lemma set_name_same_value p (language : LanguageCode) (name : string) m :
  names p = Some m →
  m !! LanguageCode_value language = Some name →
  names (set_name p language name) = names p
  ∧ elasticsearch_sync_version (set_name p language name)
    = elasticsearch_sync_version p + 1.
Proof.
  intros Hn Hm. unfold set_name. rewrite Hn. simpl. rewrite Hn. simpl.
  by rewrite insert_id.
Qed.

(** C10.  [set_name], [set_description], [set_attribute] and
    [update_stock] add exactly one to [elasticsearch_sync_version] and
    reset [elasticsearch_synced_at] to [None] on every call, whatever the
    value written; a duplicate [add_tag], [add_image] or
    [add_search_keyword] leaves both fields unchanged. *)
Theorem setters_mark_for_sync p :
  (∀ (language : LanguageCode) (name : string),
     elasticsearch_sync_version (set_name p language name)
       = elasticsearch_sync_version p + 1
     ∧ elasticsearch_synced_at (set_name p language name) = None)
  ∧ (∀ (language : LanguageCode) (description : string),
     elasticsearch_sync_version (set_description p language description)
       = elasticsearch_sync_version p + 1
     ∧ elasticsearch_synced_at (set_description p language description) = None)
  ∧ (∀ (key : string) (value : JValue),
     elasticsearch_sync_version (set_attribute p key value)
       = elasticsearch_sync_version p + 1
     ∧ elasticsearch_synced_at (set_attribute p key value) = None)
  ∧ (∀ q : Q,
     elasticsearch_sync_version (update_stock p q)
       = elasticsearch_sync_version p + 1
     ∧ elasticsearch_synced_at (update_stock p q) = None)
  ∧ (∀ tag, tag ∈ default [] (tags p) →
     elasticsearch_sync_version (add_tag p tag) = elasticsearch_sync_version p
     ∧ elasticsearch_synced_at (add_tag p tag) = elasticsearch_synced_at p)
  ∧ (∀ image_url : string, image_url ∈ default [] (images p) →
     elasticsearch_sync_version (add_image p image_url) = elasticsearch_sync_version p
     ∧ elasticsearch_synced_at (add_image p image_url) = elasticsearch_synced_at p)
  ∧ (∀ keyword : string, keyword ∈ default [] (search_keywords p) →
     elasticsearch_sync_version (add_search_keyword p keyword)
       = elasticsearch_sync_version p
     ∧ elasticsearch_synced_at (add_search_keyword p keyword)
       = elasticsearch_synced_at p).
Proof.
  repeat split.
  - unfold set_name. by destruct (names p).
  - unfold set_description. by destruct (descriptions p).
  - unfold set_attribute. by destruct (attributes p).
  - unfold update_stock. by destruct (Qle_bool q 0), (Qle_bool q 10).
  - by rewrite add_tag_present.
  - by rewrite add_tag_present.
  - by rewrite add_image_present.
  - by rewrite add_image_present.
  - by rewrite add_search_keyword_present.
  - by rewrite add_search_keyword_present.
Qed.

(** A product that already carries the tag, the image and the keyword. *)
Lemma setters_mark_for_sync_witness :
  let p := add_search_keyword
             (add_image (add_tag test_product "organic") "rice.png") "rice" in
  (elasticsearch_sync_version (add_tag p "organic") = elasticsearch_sync_version p
   ∧ elasticsearch_synced_at (add_tag p "organic") = elasticsearch_synced_at p)
  ∧ (elasticsearch_sync_version (add_image p "rice.png") = elasticsearch_sync_version p
     ∧ elasticsearch_synced_at (add_image p "rice.png") = elasticsearch_synced_at p)
  ∧ (elasticsearch_sync_version (add_search_keyword p "rice")
       = elasticsearch_sync_version p
     ∧ elasticsearch_synced_at (add_search_keyword p "rice")
       = elasticsearch_synced_at p).
Proof.
  intros p.
  destruct (setters_mark_for_sync p) as (_ & _ & _ & _ & Htag & Himage & Hkeyword).
  split; [|split].
  - apply Htag. vm_compute. left.
  - apply Himage. vm_compute. left.
  - apply Hkeyword. vm_compute. left.
Defined.

End ProductProperties.

(** * Properties of the pure helpers of the search service *)

Section HelperProperties.

(** C9.  For each of the five source grades the alternative-eligible
    grades are those of the declared hierarchy, as a set, and nothing
    outside the declared row is returned. *)
Theorem quality_alternatives_table :
  list_to_set (_get_quality_alternatives "economy")
    = ({["economy"; "standard"; "premium"; "organic"]} : gset string)
  ∧ list_to_set (_get_quality_alternatives "standard")
    = ({["standard"; "premium"; "organic"]} : gset string)
  ∧ list_to_set (_get_quality_alternatives "premium")
    = ({["premium"; "organic"]} : gset string)
  ∧ list_to_set (_get_quality_alternatives "organic")
    = ({["organic"; "premium"]} : gset string)
  ∧ list_to_set (_get_quality_alternatives "fair_trade")
    = ({["fair_trade"; "organic"; "premium"]} : gset string)
  ∧ ∀ source : QualityGrade,
      _get_quality_alternatives (QualityGrade_value source)
      = match source with
        | ECONOMY => ["economy"; "standard"; "premium"; "organic"]
        | STANDARD => ["standard"; "premium"; "organic"]
        | PREMIUM => ["premium"; "organic"]
        | ORGANIC => ["organic"; "premium"]
        | FAIR_TRADE => ["fair_trade"; "organic"; "premium"]
        end.
Proof.
  split_and!; try (apply set_eq; intros grade; set_solver).
  intros []; reflexivity.
Qed.

(** A string that is not a key of the table gets the default row. *)
Lemma quality_alternatives_default (current_quality : string) :
  quality_hierarchy !! current_quality = None →
  _get_quality_alternatives current_quality = ["standard"; "premium"].
Proof. intros H. unfold _get_quality_alternatives. by rewrite H. Qed.

(** Every sort list ends with [created_at] descending. *)
Lemma sort_criteria_last (sort_by : string) (location : option (gmap string JValue)) :
  last (_build_sort_criteria sort_by location) = Some (sort_on "created_at" "desc").
Proof. unfold _build_sort_criteria. by rewrite last_snoc. Qed.

(** For a sort other than ["relevance"], the score key comes just before
    that final key. *)
Lemma sort_criteria_score_before_last
    (sort_by : string) (location : option (gmap string JValue)) :
  sort_by ≠ "relevance" →
  ∃ primary,
    _build_sort_criteria sort_by location
    = primary ++ [sort_on "_score" "desc"; sort_on "created_at" "desc"].
Proof.
  intros Hne. apply String.eqb_neq in Hne.
  unfold _build_sort_criteria. rewrite Hne. simpl.
  eexists. by rewrite <- app_assoc.
Qed.

(** The sibling builder, used by [advanced_search], does sort by score
    first when asked for relevance. *)
Lemma multi_sort_criteria_relevance (location : option (gmap string JValue)) :
  _build_multi_sort_criteria ["relevance"] location
  = [sort_on "_score" "desc"; sort_on "created_at" "desc"].
Proof. reflexivity. Qed.

(** C3, on the code.  For [sort_by = "relevance"] the sort list is the
    creation-date key alone: no key of it mentions the score, so the store
    is asked to order by creation date, not by score. *)
Theorem relevance_sort_criteria (location : option (gmap string JValue)) :
  _build_sort_criteria "relevance" location = [sort_on "created_at" "desc"]
  ∧ existsb (mentions "_score") (_build_sort_criteria "relevance" location) = false
  ∧ _build_sort_criteria "relevance" location
    ≠ [sort_on "_score" "desc"; sort_on "created_at" "desc"].
Proof.
  assert (H : _build_sort_criteria "relevance" location = [sort_on "created_at" "desc"])
    by reflexivity.
  rewrite H. by repeat split.
Qed.

End HelperProperties.

(** * Properties of the search orchestrator *)

Section PartitionProperties.

Lemma is_out_of_stock_lookup (product : gmap string JValue) :
  is_out_of_stock product = true
  ↔ product !! "availability_status" = Some (JStr "out_of_stock").
Proof.
  unfold is_out_of_stock, eq_str.
  destruct (product !! "availability_status") as [[| | |s| |]|]; simpl;
    try (split; [discriminate|congruence]).
  rewrite String.eqb_eq. split; congruence.
Qed.

(** The loop appends each processed hit to exactly one of the two lists,
    and to [out_of_stock_products] exactly when it reads out of stock. *)
Lemma partition_hits_inv (query : string) (hits : list Hit) :
  ∀ products oos products' oos',
    partition_hits query hits products oos = inr (products', oos') →
    (length products' + length oos' = length products + length oos + length hits)%nat
    ∧ (all_out_of_stock oos → all_out_of_stock oos')
    ∧ (none_out_of_stock products → none_out_of_stock products').
Proof.
  induction hits as [|hit rest IH]; intros products oos products' oos' H; simpl in H.
  - unfold_monad. injection H as <- <-. split; [simpl; lia|done].
  - unfold_monad.
    destruct (source_of hit) as [e|product]; [discriminate|].
    destruct (_explain_relevance _ _) as [e|factors]; [discriminate|].
    destruct (is_out_of_stock _) eqn:Hoos; apply IH in H as (Hlen & Hall & Hnone).
    + rewrite length_app in Hlen. simpl in *. split; [lia|]. split; [|done].
      intros Ho. apply Hall. apply Forall_app. split; [done|].
      apply Forall_singleton. by apply is_out_of_stock_lookup.
    + rewrite length_app in Hlen. simpl in *. split; [lia|]. split; [done|].
      intros Hp. apply Hnone. apply Forall_app. split; [done|].
      apply Forall_singleton. intros Hc. apply is_out_of_stock_lookup in Hc. congruence.
Qed.

(** A hit without ["_source"] stops the loop with [KeyError]. *)
Lemma partition_hits_missing_source (query : string) (score : option JValue)
    (rest : list Hit) products oos :
  partition_hits query (mkHit None score :: rest) products oos
  = inl (KeyError "_source").
Proof. reflexivity. Qed.

(** A hit whose ["_score"] is [None] stops it with [TypeError], raised by
    the comparison [score > 5] of [_explain_relevance]. *)
Lemma partition_hits_null_score (query : string) (product : gmap string JValue)
    (rest : list Hit) products oos :
  partition_hits query (mkHit (Some product) (Some JNull) :: rest) products oos
  = inl TypeError.
Proof. reflexivity. Qed.

Lemma ceil_div_neg (t d : Z) : 0 < d → (t + d - 1) / d = - ((- t) / d).
Proof.
  intros Hd.
  pose proof (Z.div_mod (t + d - 1) d ltac:(lia)) as H1.
  pose proof (Z.mod_pos_bound (t + d - 1) d Hd) as B1.
  pose proof (Z.div_mod (- t) d ltac:(lia)) as H2.
  pose proof (Z.mod_pos_bound (- t) d Hd) as B2.
  nia.
Qed.

(** [(total + page_size - 1) // page_size] is the ceiling of the quotient. *)
Lemma floordiv_is_ceiling (t s : Z) :
  1 ≤ s → (t + s - 1) / s = Qceiling (inject_Z t / inject_Z s).
Proof.
  intros Hs. rewrite ceil_div_neg by lia.
  destruct s as [|p|p]; try lia.
  unfold Qceiling, Qfloor, Qdiv, Qmult, Qinv, Qopp, inject_Z. simpl.
  by rewrite Z.mul_1_r.
Qed.

End PartitionProperties.

Section SearchProperties.

Context (es_search : list Call → SearchCall → Result Response)
        (es_get_document : list Call → string → JValue
                           → Result (option (gmap string JValue)))
        (builder : SearchArgs → Result JValue)
        (lower : string → string).

Local Abbreviation search := (search_products es_search es_get_document builder lower).
Local Abbreviation search_body :=
  (search_products_body es_search es_get_document builder lower).
Local Abbreviation results := (search_results es_search es_get_document lower).

(** What a returned dictionary of [search_results] is made of. *)
Lemma search_results_inv a response log res log' :
  results a response log = (inr res, log') →
  ∃ products oos alternatives suggestions facets total_pages,
    partition_hits (query a) (hits_of response) [] [] = inr (products, oos)
    ∧ py_floordiv (default 0 (resp_total response) + page_size a - 1) (page_size a)
      = inr total_pages
    ∧ res = mkSearchResult products oos alternatives suggestions facets
              (default 0 (resp_total response)) (page a) (page_size a) total_pages
              (page a * page_size a <? default 0 (resp_total response)) (1 <? page a)
              (Some (mkSearchMetadata (query a) (LanguageCode_value (language a))
                       (Z.of_nat (size (default ∅ (filters a))))
                       (boost_local a) (include_alternatives a)))
              None.
Proof.
  unfold search_results. unfold_monad. intros H.
  destruct (partition_hits _ _ _ _) as [e|[products oos]]; [discriminate|].
  match type of H with context [(if ?c then ?x else ?y) log] =>
    destruct ((if c then x else y) log) as [[e|alternatives] log1] end; [discriminate|].
  match type of H with context [(if ?c then ?x else ?y) log1] =>
    destruct ((if c then x else y) log1) as [[e|suggestions] log2] end; [discriminate|].
  destruct (_process_aggregations _) as [e|facets]; [discriminate|].
  destruct (py_floordiv _ _) as [e|total_pages] eqn:Hdiv; [discriminate|].
  injection H as <- <-. by eexists _, _, _, _, _, _.
Qed.

(** The body of the [try]: the builder, then the store, then the results. *)
Lemma search_body_unfold a log :
  search_body a log
  = match builder a with
    | inl e => (inl e, log)
    | inr search_query =>
        match es_search log (main_search_call a search_query) with
        | inl e => (inl e, log ++ [CallSearch (main_search_call a search_query)])
        | inr response =>
            results a response (log ++ [CallSearch (main_search_call a search_query)])
        end
    end.
Proof.
  unfold search_products_body, do_search. unfold_monad.
  destruct (builder a) as [e|search_query]; [done|].
  by destruct (es_search log _) as [e|response].
Qed.

(** [search_products] is the body, with a raised exception turned into the
    error dictionary. *)
Lemma search_unfold a log :
  search a log
  = match search_body a log with
    | (inl e, log') => (inr (error_result a e), log')
    | (inr res, log') => (inr res, log')
    end.
Proof. unfold search_products. unfold_monad. by destruct (search_body a log) as [[e|res] log']. Qed.

Lemma search_body_no_error a log res log' :
  search_body a log = (inr res, log') → sr_error res = None.
Proof.
  rewrite search_body_unfold.
  destruct (builder a) as [e|search_query]; [discriminate|].
  destruct (es_search log _) as [e|response]; [discriminate|].
  intros H. apply search_results_inv in H as (? & ? & ? & ? & ? & ? & _ & _ & ->).
  reflexivity.
Qed.

(** A result without ["error"] comes from the body having returned. *)
Lemma search_success_inv a log res log' :
  search a log = (inr res, log') → sr_error res = None →
  ∃ search_query response,
    builder a = inr search_query
    ∧ es_search log (main_search_call a search_query) = inr response
    ∧ results a response (log ++ [CallSearch (main_search_call a search_query)])
      = (inr res, log').
Proof.
  rewrite search_unfold, search_body_unfold. intros H Herr.
  destruct (builder a) as [e|search_query].
  { injection H as <- <-. discriminate Herr. }
  destruct (es_search log _) as [e|response] eqn:Hresp.
  { injection H as <- <-. discriminate Herr. }
  destruct (results a response _) as [[e|res'] log''] eqn:Hres.
  { injection H as <- <-. discriminate Herr. }
  injection H as <- <-. by exists search_query, response.
Qed.

(** What holds of the two lists whenever the loop over the hits runs
    through: in every call, every element of [out_of_stock] reads
    ["out_of_stock"] under ["availability_status"] and no element of
    [products] does; and when the call returns without ["error"], the two
    lists together have as many elements as the store returned hits. *)
Theorem partition_complete_on_success a log res log' :
  search_products es_search es_get_document builder lower a log = (inr res, log') →
  all_out_of_stock (sr_out_of_stock res)
  ∧ none_out_of_stock (sr_products res)
  ∧ (sr_error res = None →
     ∀ search_query response,
       builder a = inr search_query →
       es_search log (main_search_call a search_query) = inr response →
       (length (sr_products res) + length (sr_out_of_stock res)
        = length (hits_of response))%nat).
Proof.
  intros Hrun.
  destruct (sr_error res) as [e|] eqn:Herr.
  - (* the error dictionary: both lists are empty *)
    assert (res = error_result a e) as ->.
    { rewrite search_unfold in Hrun.
      destruct (search_body a log) as [[e'|res'] log''] eqn:Hbody.
      - injection Hrun as <- <-. simpl in Herr. congruence.
      - injection Hrun as <- <-. apply search_body_no_error in Hbody. congruence. }
    simpl. split; [constructor|]. split; [constructor|]. discriminate.
  - destruct (search_success_inv a log res log' Hrun Herr)
      as (search_query & response & Hq & Hresp & Hres).
    apply search_results_inv in Hres
      as (products & oos & ? & ? & ? & ? & Hpart & _ & ->).
    apply partition_hits_inv in Hpart as (Hlen & Hall & Hnone). simpl.
    split; [apply Hall; constructor|]. split; [apply Hnone; constructor|].
    intros _ search_query' response' Hq' Hresp'.
    rewrite Hq in Hq'. injection Hq' as <-.
    rewrite Hresp in Hresp'. injection Hresp' as <-.
    simpl in Hlen. lia.
Qed.

(** C4.  For a search that returns without ["error"], with [total >= 0] and
    [page_size >= 1]: [total_pages] is the ceiling of [total / page_size],
    [has_next] is [page * page_size < total], [has_prev] is [page > 1];
    the page and the page size are those of the call. *)
Theorem pagination_metadata a log res log' :
  search_products es_search es_get_document builder lower a log = (inr res, log') →
  sr_error res = None →
  0 ≤ sr_total res →
  1 ≤ sr_page_size res →
  sr_total_pages res = Qceiling (inject_Z (sr_total res) / inject_Z (sr_page_size res))
  ∧ sr_has_next res = bool_decide (sr_page res * sr_page_size res < sr_total res)
  ∧ sr_has_prev res = bool_decide (sr_page res > 1)
  ∧ sr_page res = page a
  ∧ sr_page_size res = page_size a.
Proof.
  intros Hrun Herr Htotal Hsize.
  destruct (search_success_inv a log res log' Hrun Herr)
    as (search_query & response & _ & _ & Hres).
  apply search_results_inv in Hres as (? & ? & ? & ? & ? & total_pages & _ & Hdiv & ->).
  simpl in *. unfold py_floordiv in Hdiv. unfold_monad.
  destruct (page_size a =? 0) eqn:Hzero; [discriminate|].
  injection Hdiv as <-.
  split; [by apply floordiv_is_ceiling|].
  split; [|split; [|done]].
  - case_bool_decide; [by apply Z.ltb_lt|by apply Z.ltb_ge; lia].
  - case_bool_decide; [apply Z.ltb_lt; lia|apply Z.ltb_ge; lia].
Qed.

(** [search_products] returns a dictionary on every input: nothing raised
    inside passes the [except]. *)
Lemma search_products_returns a log : ∃ res, (search a log).1 = inr res.
Proof.
  rewrite search_unfold. destruct (search_body a log) as [[e|res] log']; by eexists.
Qed.

(** Two failures of result processing, as the body sees them. *)
Lemma results_missing_source a response score rest log :
  hits_of response = mkHit None score :: rest →
  (results a response log).1 = inl (KeyError "_source").
Proof. intros H. unfold search_results. rewrite H. reflexivity. Qed.

Lemma results_null_score a response product rest log :
  hits_of response = mkHit (Some product) (Some JNull) :: rest →
  (results a response log).1 = inl TypeError.
Proof. intros H. unfold search_results. rewrite H. reflexivity. Qed.

(** C6.  Whatever is raised while the query is built, by the store search,
    or while the results are processed, [search_products] returns, and
    what it returns has all lists empty, [total = 0], [total_pages = 0],
    [has_next] and [has_prev] false, and the exception under ["error"]. *)
Theorem search_failure_envelope a log e :
  builder a = inl e
  ∨ (∃ search_query,
       builder a = inr search_query
       ∧ es_search log (main_search_call a search_query) = inl e)
  ∨ (∃ search_query response,
       builder a = inr search_query
       ∧ es_search log (main_search_call a search_query) = inr response
       ∧ (results a response
            (log ++ [CallSearch (main_search_call a search_query)])).1 = inl e) →
  ∃ res,
    (search_products es_search es_get_document builder lower a log).1 = inr res
    ∧ sr_products res = [] ∧ sr_out_of_stock res = []
    ∧ sr_alternatives res = [] ∧ sr_suggestions res = [] ∧ sr_facets res = ∅
    ∧ sr_total res = 0 ∧ sr_total_pages res = 0
    ∧ sr_has_next res = false ∧ sr_has_prev res = false
    ∧ sr_error res = Some e
    ∧ sr_page res = page a ∧ sr_page_size res = page_size a.
Proof.
  intros Hfail. exists (error_result a e). split; [|by repeat split].
  rewrite search_unfold, search_body_unfold.
  destruct Hfail as [Hb|[(q & Hb & Hs)|(q & response & Hb & Hs & Hr)]]; rewrite Hb.
  - done.
  - by rewrite Hs.
  - rewrite Hs. destruct (results a response _) as [[e'|res] log'].
    + simpl in Hr. by injection Hr as ->.
    + discriminate Hr.
Qed.

(** X9.  With the manager of [elasticsearch_client.py] itself, whose
    [search] takes no [aggs], the main request raises and every call in
    which the query is built ends in the error dictionary. *)
Lemma bundled_manager_search_fails client_search a log search_query :
  builder a = inr search_query →
  (search_products (ElasticsearchManager_search client_search)
     es_get_document builder lower a log).1
  = inr (error_result a TypeError).
Proof.
  intros Hq. unfold search_products, search_products_body, do_search.
  unfold_monad. by rewrite Hq.
Qed.

(** *** The requests sent to the store *)

Lemma extends_ret {A : Type} (x : A) : extends_log (mret x : M A).
Proof. intros log. exists []. by rewrite app_nil_r. Qed.

Lemma extends_lift {A : Type} (r : Result A) : extends_log (lift r).
Proof. intros log. exists []. by rewrite app_nil_r. Qed.

Lemma extends_bind {A B : Type} (m : M A) (f : A → M B) :
  extends_log m → (∀ x, extends_log (f x)) → extends_log (m ≫= f).
Proof.
  intros Hm Hf log. unfold_monad.
  destruct (Hm log) as [rest Hrest].
  destruct (m log) as [[e|x] log1]; simpl in *; subst log1.
  - by exists rest.
  - destruct (Hf x (log ++ rest)) as [rest' Hrest'].
    exists (rest ++ rest'). by rewrite Hrest', app_assoc.
Qed.

Lemma extends_try {A : Type} (body : M A) (handler : Exn → M A) :
  extends_log body → (∀ e, extends_log (handler e)) →
  extends_log (try_except body handler).
Proof.
  intros Hm Hh log. unfold_monad.
  destruct (Hm log) as [rest Hrest].
  destruct (body log) as [[e|x] log1]; simpl in *; subst log1.
  - destruct (Hh e (log ++ rest)) as [rest' Hrest'].
    exists (rest ++ rest'). by rewrite Hrest', app_assoc.
  - by exists rest.
Qed.

Lemma extends_do_search c : extends_log (do_search es_search c).
Proof. intros log. by exists [CallSearch c]. Qed.

Lemma extends_do_get_document index document_id :
  extends_log (do_get_document es_get_document index document_id).
Proof. intros log. by exists [CallGetDocument index document_id]. Qed.

Lemma extends_get_alternative_products document_id user_location limit :
  extends_log (get_alternative_products es_search es_get_document
                 document_id user_location limit).
Proof.
  apply extends_try; [|intros e; apply extends_ret].
  apply extends_bind; [apply extends_do_get_document|].
  intros [source|]; [|apply extends_ret].
  case_decide; [apply extends_ret|].
  apply extends_bind; [apply extends_lift|]. intros search_query.
  apply extends_bind; [apply extends_do_search|]. intros response.
  apply extends_lift.
Qed.

Lemma extends_fetch_alternatives location oos :
  ∀ alternatives,
    extends_log (fetch_alternatives es_search es_get_document location oos alternatives).
Proof.
  induction oos as [|oos_product rest IH]; intros alternatives; simpl.
  - apply extends_ret.
  - apply extends_bind; [apply extends_lift|]. intros product_id.
    apply extends_bind; [apply extends_get_alternative_products|].
    intros product_alternatives. apply IH.
Qed.

Lemma extends_get_search_suggestions query language limit :
  extends_log (get_search_suggestions es_search lower query language limit).
Proof.
  apply extends_try; [|intros e; apply extends_ret].
  apply extends_bind; [apply extends_do_search|]. intros response.
  apply extends_bind; [apply extends_lift|]. intros suggestions.
  apply extends_ret.
Qed.

Lemma extends_results a response : extends_log (results a response).
Proof.
  unfold search_results.
  apply extends_bind; [apply extends_lift|]. intros [products oos].
  apply extends_bind.
  { destruct (_ && _); [apply extends_fetch_alternatives|apply extends_ret]. }
  intros alternatives. apply extends_bind.
  { destruct (_ && _); [apply extends_get_search_suggestions|apply extends_ret]. }
  intros suggestions. apply extends_bind; [apply extends_lift|]. intros facets.
  apply extends_bind; [apply extends_lift|]. intros total_pages.
  apply extends_ret.
Qed.

(** C5, amended.  [search_products] uses the page and the page size as
    they are given: when the query is built, the first request it sends
    to the store asks for [page_size] hits from offset
    [(page - 1) * page_size], and the returned dictionary repeats [page]
    and [page_size] unchanged. *)
Theorem paging_passed_as_given a log search_query :
  builder a = inr search_query →
  (∃ rest,
     (search_products es_search es_get_document builder lower a log).2
     = log ++ CallSearch (main_search_call a search_query) :: rest)
  ∧ sc_size (main_search_call a search_query) = page_size a
  ∧ sc_from (main_search_call a search_query) = (page a - 1) * page_size a
  ∧ ∀ res, (search_products es_search es_get_document builder lower a log).1 = inr res →
           sr_page res = page a ∧ sr_page_size res = page_size a.
Proof.
  intros Hq. split; [|split; [done|split; [done|]]].
  - rewrite search_unfold, search_body_unfold, Hq.
    destruct (es_search log _) as [e|response].
    { by exists []. }
    destruct (extends_results a response
                (log ++ [CallSearch (main_search_call a search_query)]))
      as [rest Hrest].
    destruct (results a response _) as [[e|res] log']; simpl in *; subst log';
      exists rest; by rewrite <- app_assoc.
  - intros res. rewrite search_unfold.
    destruct (search_body a log) as [[e|res'] log'] eqn:Hbody; simpl.
    + by intros [= <-].
    + intros [= <-]. rewrite search_body_unfold, Hq in Hbody.
      destruct (es_search log _) as [e|response]; [discriminate|].
      by apply search_results_inv in Hbody as (? & ? & ? & ? & ? & ? & _ & _ & ->).
Qed.

(** *** The alternatives of the out-of-stock hits *)

Local Abbreviation alternatives_of :=
  (get_alternative_products es_search es_get_document).
Local Abbreviation fetch := (fetch_alternatives es_search es_get_document).

Lemma alternative_hits_length source hits :
  ∀ alternatives l,
    alternative_hits source hits alternatives = inr l →
    length l = (length alternatives + length hits)%nat.
Proof.
  induction hits as [|hit rest IH]; intros alternatives l H; simpl in H; unfold_monad.
  - injection H as <-. simpl. lia.
  - destruct (source_of hit) as [e|product]; [discriminate|].
    destruct (_get_alternative_reason _ _) as [e|reason]; [discriminate|].
    apply IH in H. rewrite length_app in H. simpl in *. lia.
Qed.

(** What one call of [get_alternative_products] sends to the store, and
    what it returns: it never raises, it asks for the document of the
    given identifier and then at most once for [limit] hits, and it
    returns no more documents than the store returned hits. *)
Lemma get_alternative_products_inv document_id user_location limit log :
  ∃ l rest,
    alternatives_of document_id user_location limit log = (inr l, log ++ rest)
    ∧ ((l = [] ∧ rest = [CallGetDocument index_name document_id])
       ∨ ∃ search_query,
           rest = [CallGetDocument index_name document_id;
                   CallSearch (mkSearchCall index_name search_query limit 0
                                 (Some [sort_on "_score" "desc"]) None)]
           ∧ (l = []
              ∨ ∃ response,
                  es_search (log ++ [CallGetDocument index_name document_id])
                    (mkSearchCall index_name search_query limit 0
                       (Some [sort_on "_score" "desc"]) None) = inr response
                  ∧ length l = length (hits_of response))).
Proof.
  unfold get_alternative_products, do_get_document, do_search. unfold_monad.
  destruct (es_get_document log index_name document_id) as [e|[source|]].
  - eexists [], _. split; [done|]. by left.
  - case_decide.
    + eexists [], _. split; [done|]. by left.
    + destruct (alternatives_query source document_id user_location)
        as [e|search_query].
      { eexists [], _. split; [done|]. by left. }
      destruct (es_search _ _) as [e|response] eqn:Hresp.
      { eexists [], _. split; [by rewrite <- app_assoc|].
        right. exists search_query. split; [done|]. by left. }
      destruct (alternative_hits source (hits_of response) []) as [e|l] eqn:Hhits.
      { eexists [], _. split; [by rewrite <- app_assoc|].
        right. exists search_query. split; [done|]. by left. }
      exists l. eexists. split; [by rewrite <- app_assoc|].
      right. exists search_query. split; [done|]. right. exists response.
      split; [done|]. by apply alternative_hits_length in Hhits.
  - eexists [], _. split; [done|]. by left.
Qed.

Lemma alternatives_request_mono oos oos' c :
  ids_of oos ⊆ ids_of oos' → alternatives_request oos c → alternatives_request oos' c.
Proof. intros Hsub. destruct c; simpl; [done|]. apply Hsub. Qed.

(** The loop sends only such requests, and, when the store honours
    [size], collects at most two alternatives per out-of-stock product. *)
Lemma fetch_alternatives_inv location oos :
  ∀ alternatives log r log',
    fetch location oos alternatives log = (r, log') →
    ∃ rest,
      log' = log ++ rest
      ∧ Forall (alternatives_request oos) rest
      ∧ (honours_size es_search →
         ∀ l, r = inr l → (length l ≤ length alternatives + 2 * length oos)%nat).
Proof.
  induction oos as [|oos_product oos_rest IH]; intros alternatives log r log' H;
    simpl in H; unfold_monad.
  - injection H as <- <-. exists []. rewrite app_nil_r. split; [done|].
    split; [constructor|]. intros _ l [= <-]. lia.
  - unfold getitem in H. unfold_monad.
    destruct (oos_product !! "id") as [product_id|] eqn:Hid.
    2:{ injection H as <- <-. exists []. rewrite app_nil_r. split; [done|].
        split; [constructor|]. intros _ l. discriminate. }
    destruct (get_alternative_products_inv product_id location 2 log)
      as (l1 & rest1 & Hcall & Hshape).
    rewrite Hcall in H. apply IH in H as (rest2 & -> & Hreqs & Hbound).
    exists (rest1 ++ rest2). split; [by rewrite app_assoc|]. split.
    + apply Forall_app. split.
      * assert (Hfirst : alternatives_request (oos_product :: oos_rest)
                           (CallGetDocument index_name product_id)).
        { simpl. rewrite Hid. by left. }
        destruct Hshape as [[_ ->]|(q & -> & _)].
        -- by apply Forall_singleton.
        -- apply Forall_cons. split; [done|]. by apply Forall_singleton.
      * eapply Forall_impl; [exact Hreqs|]. intros c.
        apply alternatives_request_mono. intros x Hx. unfold ids_of. simpl. by right.
    + intros Hsize l Hl. specialize (Hbound Hsize l Hl).
      assert (length l1 ≤ 2)%nat as Hl1.
      { destruct Hshape as [[-> _]|(q & _ & [->|(response & Hresp & Hlen)])];
          simpl; try lia.
        apply Hsize in Hresp. simpl in Hresp. lia. }
      destruct l1; simpl in *; [lia|]. rewrite length_app in Hbound. simpl in *. lia.
Qed.

Lemma get_search_suggestions_requests query language limit log :
  ∃ r c,
    get_search_suggestions es_search lower query language limit log
    = (r, log ++ [CallSearch c]).
Proof.
  unfold get_search_suggestions, do_search. unfold_monad.
  destruct (es_search log _) as [e|response]; [by eexists _, _|].
  destruct (suggestion_hits _ _ _ _ _ _ _); by eexists _, _.
Qed.

(** The requests made while the results are assembled, and the number of
    alternatives collected. *)
Lemma results_alternatives a response log res log' :
  results a response log = (inr res, log') →
  ∃ rest,
    log' = log ++ rest
    ∧ (∀ index document_id,
         CallGetDocument index document_id ∈ rest →
         Some document_id ∈ ids_of (take 3 (sr_out_of_stock res)))
    ∧ (honours_size es_search → (length (sr_alternatives res) ≤ 6)%nat).
Proof.
  unfold search_results. unfold_monad. intros H.
  destruct (partition_hits _ _ _ _) as [e|[products oos]]; [discriminate|].
  match type of H with context [(if ?c then ?x else ?y) log] =>
    assert (∃ r1 rest1,
              (if c then x else y) log = (r1, log ++ rest1)
              ∧ Forall (alternatives_request (take 3 oos)) rest1
              ∧ (honours_size es_search →
                 ∀ l, r1 = inr l → (length l ≤ 6)%nat))
      as (r1 & rest1 & Hfetch & Hreqs & Hbound)
  end.
  { destruct (_ && _).
    - destruct (fetch (location a) (take 3 oos) [] log) as [r1 log1] eqn:Hf.
      apply fetch_alternatives_inv in Hf as (rest1 & -> & Hreqs & Hbound).
      exists r1, rest1. split; [done|]. split; [done|].
      intros Hsize l Hl. specialize (Hbound Hsize l Hl).
      rewrite length_take in Hbound. cbn [length] in Hbound. lia.
    - exists (inr []), []. rewrite app_nil_r. split; [done|].
      split; [constructor|]. intros _ l [= <-]. simpl. lia. }
  rewrite Hfetch in H. destruct r1 as [e|alternatives]; [discriminate|].
  match type of H with context [(if ?c then ?x else ?y) (log ++ rest1)] =>
    assert (∃ r2 rest2,
              (if c then x else y) (log ++ rest1) = (r2, (log ++ rest1) ++ rest2)
              ∧ ∀ index document_id, CallGetDocument index document_id ∉ rest2)
      as (r2 & rest2 & Hsugg & Hnone)
  end.
  { destruct (_ && _).
    - destruct (get_search_suggestions_requests (query a) (language a) 3 (log ++ rest1))
        as (r2 & c & Hs).
      exists r2, [CallSearch c]. split; [done|].
      intros index document_id Hin. apply list_elem_of_singleton in Hin. discriminate.
    - exists (inr []), []. rewrite app_nil_r. split; [done|].
      intros index document_id Hin. by apply not_elem_of_nil in Hin. }
  rewrite Hsugg in H. destruct r2 as [e|suggestions]; [discriminate|].
  destruct (_process_aggregations _) as [e|facets]; [discriminate|].
  destruct (py_floordiv _ _) as [e|total_pages]; [discriminate|].
  injection H as <- <-. simpl.
  exists (rest1 ++ rest2). split; [by rewrite app_assoc|]. split.
  - intros index document_id Hin. apply elem_of_app in Hin as [Hin|Hin].
    + rewrite Forall_forall in Hreqs. exact (Hreqs _ Hin).
    + by apply Hnone in Hin.
  - intros Hsize. by apply Hbound.
Qed.

(** X8.  In a search that returns without ["error"], documents are
    requested from the store only for the first three out-of-stock hits;
    and when the store returns no more hits than the [size] asked for,
    which is 2 for each of them, at most six alternatives are collected. *)
Lemma alternatives_limits a log res log' :
  search a log = (inr res, log') →
  sr_error res = None →
  ∃ rest,
    log' = log ++ rest
    ∧ (∀ index document_id,
         CallGetDocument index document_id ∈ rest →
         Some document_id ∈ ids_of (take 3 (sr_out_of_stock res)))
    ∧ (honours_size es_search → (length (sr_alternatives res) ≤ 6)%nat).
Proof.
  intros Hrun Herr.
  destruct (search_success_inv a log res log' Hrun Herr)
    as (search_query & response & _ & _ & Hres).
  apply results_alternatives in Hres as (rest & -> & Hdocs & Hbound).
  exists (CallSearch (main_search_call a search_query) :: rest).
  split; [by rewrite <- app_assoc|]. split; [|done].
  intros index document_id Hin. apply elem_of_cons in Hin as [Hin|Hin]; [discriminate|].
  by apply (Hdocs index).
Qed.

End SearchProperties.

(** * The properties on sample runs *)

Section SampleRuns.

(** C1, on the code.  With the default [sort_by] the request sorts on the
    creation date alone, and the store answers such a request with hits
    whose ["_score"] is [None].  On one such hit, in stock,
    [_explain_relevance] raises on [score > 5]: the default of
    [hit.get("_score", 0)] covers an absent score, not one that is [None].
    The [except] branch returns the error dictionary, so [products] and
    [out_of_stock] are empty while one hit was returned, and the partition
    of the hits is not complete. *)
Theorem unscored_hit_empties_partition :
  let a := default_args "rice" in
  let es_search := canned_search [unscored_hit] 1 in
  ∃ search_query response res log',
    sample_query_builder a = inr search_query
    ∧ sc_sort (main_search_call a search_query) = Some [sort_on "created_at" "desc"]
    ∧ es_search [] (main_search_call a search_query) = inr response
    ∧ hits_of response = [unscored_hit]
    ∧ is_out_of_stock doc_rice = false
    ∧ search_products es_search no_document sample_query_builder lower_ascii a []
      = (inr res, log')
    ∧ sr_error res = Some TypeError
    ∧ sr_products res = []
    ∧ sr_out_of_stock res = []
    ∧ ¬ partition_is_complete es_search no_document sample_query_builder
          lower_ascii a [].
Proof.
  intros a es_search.
  assert (Hrun :
    search_products es_search no_document sample_query_builder lower_ascii a []
    = (inr (error_result a TypeError),
       [CallSearch (main_search_call a
                      (JObj [("bool", JObj [("must", JArr [JObj [("match_all", JObj [])]])])]))]))
    by reflexivity.
  eexists _, _, _, _.
  split; [reflexivity|]. split; [reflexivity|]. split; [reflexivity|].
  split; [reflexivity|]. split; [reflexivity|]. split; [exact Hrun|].
  split; [reflexivity|]. split; [reflexivity|]. split; [reflexivity|].
  intros H.
  destruct (H _ _ _ _ eq_refl eq_refl Hrun) as (Hlen & _).
  simpl in Hlen. discriminate Hlen.
Qed.

Lemma partition_complete_on_success_witness :
  ∃ res log',
    search_products (canned_search mixed_hits 2) no_document
      sample_query_builder lower_ascii (default_args "rice") [] = (inr res, log')
    ∧ sr_error res = None
    ∧ all_out_of_stock (sr_out_of_stock res)
    ∧ none_out_of_stock (sr_products res)
    ∧ (length (sr_products res) + length (sr_out_of_stock res) = 2)%nat.
Proof.
  destruct (search_products (canned_search mixed_hits 2) no_document
              sample_query_builder lower_ascii (default_args "rice") [])
    as [[e|res] log'] eqn:Hrun; [vm_compute in Hrun; discriminate Hrun|].
  assert (Herr : sr_error res = None)
    by (vm_compute in Hrun; by injection Hrun as <- <-).
  exists res, log'. split; [reflexivity|]. split; [exact Herr|].
  destruct (partition_complete_on_success _ _ _ _ _ _ _ _ Hrun) as (Hall & Hnone & Hlen).
  split; [exact Hall|]. split; [exact Hnone|].
  exact (Hlen Herr _ _ eq_refl eq_refl).
Defined.

(** The example of the pagination tests: 45 results in pages of 20. *)
Lemma pagination_metadata_witness :
  ∃ res log',
    search_products (canned_search [] 45) no_document
      sample_query_builder lower_ascii (with_paging (default_args "rice") 1 20) []
    = (inr res, log')
    ∧ sr_total_pages res = 3 ∧ sr_has_next res = true ∧ sr_has_prev res = false.
Proof.
  destruct (search_products (canned_search [] 45) no_document
              sample_query_builder lower_ascii
              (with_paging (default_args "rice") 1 20) [])
    as [[e|res] log'] eqn:Hrun; [vm_compute in Hrun; discriminate Hrun|].
  assert (Hfields : sr_error res = None ∧ sr_total res = 45
                    ∧ sr_page_size res = 20 ∧ sr_page res = 1)
    by (vm_compute in Hrun; by injection Hrun as <- <-).
  destruct Hfields as (Herr & Htotal & Hsize & Hpage).
  exists res, log'. split; [reflexivity|].
  destruct (pagination_metadata _ _ _ _ _ _ _ _ Hrun Herr
              ltac:(rewrite Htotal; lia) ltac:(rewrite Hsize; lia))
    as (Hpages & Hnext & Hprev & _).
  rewrite Hpages, Hnext, Hprev, Htotal, Hsize, Hpage. by vm_compute.
Defined.

(** C5, as stated, fails: with [page = 0] the store is asked for offset
    [-20], which is the offset of no page [>= 1]. *)
Lemma paging_is_normalized_fails :
  ¬ paging_is_normalized (canned_search [] 45) no_document
      sample_query_builder lower_ascii (with_paging (default_args "rice") 0 20) [].
Proof.
  intros H.
  destruct (H _ eq_refl) as (page' & page_size' & c & rest & Hpage & Hsize & Hlog & Hc & Hfrom).
  vm_compute in Hlog. injection Hlog as <- <-.
  simpl in Hc, Hfrom. subst page_size'. nia.
Qed.

Lemma paging_passed_as_given_witness :
  ∃ search_query rest,
    (search_products (canned_search [] 45) no_document sample_query_builder
       lower_ascii (with_paging (default_args "rice") 0 20) []).2
    = [] ++ CallSearch (main_search_call (with_paging (default_args "rice") 0 20)
                          search_query) :: rest
    ∧ sc_size (main_search_call (with_paging (default_args "rice") 0 20) search_query) = 20
    ∧ sc_from (main_search_call (with_paging (default_args "rice") 0 20) search_query) = -20.
Proof.
  eexists.
  destruct (paging_passed_as_given (canned_search [] 45) no_document
              sample_query_builder lower_ascii
              (with_paging (default_args "rice") 0 20) [] _ eq_refl)
    as ([rest Hlog] & Hsize & Hfrom & _).
  exists rest. split; [exact Hlog|]. split; [exact Hsize|exact Hfrom].
Defined.

(** The three kinds of failure: the query builder raises, the store
    raises, a returned hit cannot be processed. *)
Lemma search_failure_envelope_witness :
  (∃ res,
     (search_products (canned_search mixed_hits 2) no_document failing_query_builder
        lower_ascii (default_args "rice") []).1 = inr res
     ∧ sr_products res = [] ∧ sr_total res = 0 ∧ sr_error res = Some AttributeError)
  ∧ (∃ res,
     (search_products unreachable_search no_document sample_query_builder
        lower_ascii (default_args "rice") []).1 = inr res
     ∧ sr_products res = [] ∧ sr_total res = 0
     ∧ sr_error res = Some (Raised "ConnectionError"))
  ∧ (∃ res,
     (search_products (canned_search [unscored_hit] 1) no_document sample_query_builder
        lower_ascii (default_args "rice") []).1 = inr res
     ∧ sr_products res = [] ∧ sr_total res = 0 ∧ sr_error res = Some TypeError).
Proof.
  split; [|split].
  - destruct (search_failure_envelope (canned_search mixed_hits 2) no_document
                failing_query_builder lower_ascii (default_args "rice") []
                AttributeError)
      as (res & Hres & Hproducts & _ & _ & _ & _ & Htotal & _ & _ & _ & Herror & _).
    { left. reflexivity. }
    by exists res.
  - destruct (search_failure_envelope unreachable_search no_document
                sample_query_builder lower_ascii (default_args "rice") []
                (Raised "ConnectionError"))
      as (res & Hres & Hproducts & _ & _ & _ & _ & Htotal & _ & _ & _ & Herror & _).
    { right. left. eexists. split; reflexivity. }
    by exists res.
  - destruct (search_failure_envelope (canned_search [unscored_hit] 1) no_document
                sample_query_builder lower_ascii (default_args "rice") []
                TypeError)
      as (res & Hres & Hproducts & _ & _ & _ & _ & Htotal & _ & _ & _ & Herror & _).
    { right. right. eexists _, _. split; [reflexivity|]. split; reflexivity. }
    by exists res.
Defined.

(** C7, on the code.  Two out-of-stock grains are returned; the in-stock
    alternative of both is the same product, and it is listed twice: the
    alternatives are concatenated, not deduplicated by id. *)
Theorem alternatives_not_deduplicated :
  ∃ res log',
    search_products catalogue_search catalogue_get_document sample_query_builder
      lower_ascii (default_args "rice") [] = (inr res, log')
    ∧ sr_error res = None
    ∧ ids_of (sr_out_of_stock res) = [Some (JStr "p2"); Some (JStr "p3")]
    ∧ ids_of (sr_alternatives res) = [Some (JStr "p1"); Some (JStr "p1")]
    ∧ ¬ NoDup (ids_of (sr_alternatives res)).
Proof.
  eexists _, _. split; [vm_compute; reflexivity|].
  split; [reflexivity|]. split; [by vm_compute|].
  assert (Hids : ∀ x : option JValue, ¬ NoDup [x; x]).
  { intros x Hnd. apply NoDup_cons in Hnd as [Hnot _]. apply Hnot. by left. }
  split; [by vm_compute|]. apply Hids.
Qed.

(** The store of this run returns no more hits than asked for, so the
    repetition is not an effect of an oversized answer. *)
Lemma catalogue_honours_size : honours_size catalogue_search.
Proof.
  intros log c response. unfold catalogue_search. unfold_monad.
  destruct (sc_aggs c); intros [= <-]; unfold hits_of; simpl;
    rewrite length_take; simpl; lia.
Qed.

End SampleRuns.

(** * Further properties of the product model *)

Section ProductDocumentProperties.
Import ProductDocument.

Implicit Types (p : Product) (r : ProductRow) (tag : string).

Lemma LanguageCode_value_inj (l l' : LanguageCode) :
  LanguageCode_value l = LanguageCode_value l' → l = l'.
Proof. by destruct l, l'. Qed.

Lemma names_after_set_name p (language : LanguageCode) (name : string) :
  names (set_name p language name)
  = Some (<[LanguageCode_value language := name]> (default ∅ (names p))).
Proof. unfold set_name. destruct (names p) eqn:H; simpl; by rewrite ?H. Qed.

(** X1.  A name written with [set_name] is read back by [get_name] in the
    same language.  Writing a language other than English leaves what
    [get_name] returns for every other language as it was; writing the
    English name makes it the text returned for every language that has
    no text of its own. *)
Theorem set_name_get_name p (language : LanguageCode) (name : string) :
  get_name (set_name p language name) language = name
  ∧ (∀ other, other ≠ language → language ≠ ENGLISH →
       get_name (set_name p language name) other = get_name p other)
  ∧ (∀ other, default ∅ (names p) !! LanguageCode_value other = None →
       get_name (set_name p ENGLISH name) other = name).
Proof.
  unfold get_name, get_text. rewrite !names_after_set_name.
  cbn [default from_option id]. split; [|split].
  - by rewrite lookup_insert_eq.
  - intros other Hother Henglish.
    rewrite !lookup_insert_ne; [done| |].
    + intros H. by apply LanguageCode_value_inj in H.
    + intros H. apply LanguageCode_value_inj in H. congruence.
  - intros other Hnone.
    destruct (decide (LanguageCode_value ENGLISH = LanguageCode_value other))
      as [Heq|Hne].
    + rewrite <- Heq. by rewrite lookup_insert_eq.
    + rewrite (lookup_insert_ne _ _ _ _ Hne), Hnone.
      cbn [default from_option id]. by rewrite lookup_insert_eq.
Qed.

(** The fallback of the model test: Bengali has no name, English does. *)
Lemma set_name_get_name_witness :
  get_name (set_name test_product HINDI "Chawal") TAMIL = get_name test_product TAMIL
  ∧ get_name (set_name test_product ENGLISH "Rice") BENGALI = "Rice".
Proof.
  destruct (set_name_get_name test_product HINDI "Chawal") as (_ & Hother & _).
  destruct (set_name_get_name test_product ENGLISH "Rice") as (_ & _ & Hfallback).
  split.
  - apply Hother; discriminate.
  - apply Hfallback. reflexivity.
Defined.

(** X2.  An attribute written with [set_attribute] is read back by
    [get_attribute] whatever the default, and the other keys read as
    before. *)
Theorem set_attribute_get_attribute p (key : string) (value dflt : JValue) :
  get_attribute (set_attribute p key value) key dflt = value
  ∧ ∀ other, other ≠ key →
      get_attribute (set_attribute p key value) other dflt
      = get_attribute p other dflt.
Proof.
  unfold get_attribute, set_attribute. split.
  - destruct (attributes p) eqn:H; simpl; rewrite ?H; simpl; by rewrite lookup_insert_eq.
  - intros other Hne.
    destruct (attributes p) eqn:H; simpl; rewrite ?H; simpl; by rewrite lookup_insert_ne.
Qed.

Lemma set_attribute_get_attribute_witness :
  get_attribute (set_attribute (set_attribute test_product "color" (JStr "red"))
                   "weight" (JStr "1kg")) "color" JNull
  = get_attribute (set_attribute test_product "color" (JStr "red")) "color" JNull.
Proof.
  apply (set_attribute_get_attribute
           (set_attribute test_product "color" (JStr "red")) "weight" (JStr "1kg") JNull).
  discriminate.
Defined.

Lemma list_remove_snoc (x : string) (l : list string) :
  x ∉ l → list_remove x (l ++ [x]) = l.
Proof.
  induction l as [|y l IH]; intros Hnot; simpl.
  - by rewrite decide_True.
  - apply not_elem_of_cons in Hnot as [Hne Hnot].
    rewrite decide_False by done. by rewrite IH.
Qed.

Lemma list_remove_subseteq (x : string) (l : list string) :
  list_remove x l ⊆ l.
Proof.
  induction l as [|y l IH]; simpl; [done|].
  case_decide.
  - intros z Hz. by right.
  - intros z Hz. apply elem_of_cons in Hz as [->|Hz]; [by left|right; by apply IH].
Qed.

Lemma list_remove_NoDup (x : string) (l : list string) :
  NoDup l → NoDup (list_remove x l) ∧ x ∉ list_remove x l.
Proof.
  induction l as [|y l IH]; intros Hnd; simpl.
  - split; [constructor|apply not_elem_of_nil].
  - apply NoDup_cons in Hnd as [Hy Hnd]. case_decide as Heq.
    + subst y. by split.
    + destruct (IH Hnd) as [Hnd' Hx]. split.
      * apply NoDup_cons. split; [|done].
        intros Hin. apply Hy. by apply (list_remove_subseteq x l).
      * apply not_elem_of_cons. by split.
Qed.

(** X3.  Removing a tag that is not there changes nothing, the sync fields
    included.  Adding a tag that is not there and removing it again gives
    back the tag list, two sync versions later. *)
Theorem add_then_remove_tag p tag :
  tag ∉ default [] (tags p) →
  remove_tag p tag = p
  ∧ tags (remove_tag (add_tag p tag) tag) = Some (default [] (tags p))
  ∧ elasticsearch_sync_version (remove_tag (add_tag p tag) tag)
    = elasticsearch_sync_version p + 2.
Proof.
  intros Hnot. split; [|].
  - unfold remove_tag. destruct (tags p) as [l|]; [|done].
    simpl in Hnot. by rewrite decide_False.
  - destruct (add_tag_absent p tag Hnot) as [Htags Hversion].
    unfold remove_tag. rewrite Htags.
    rewrite decide_True by set_solver. simpl.
    rewrite list_remove_snoc by done. split; [done|]. rewrite Hversion. lia.
Qed.

Lemma add_then_remove_tag_witness :
  tags (remove_tag (add_tag test_product "premium") "premium") = Some []
  ∧ elasticsearch_sync_version (remove_tag (add_tag test_product "premium") "premium") = 3.
Proof.
  destruct (add_then_remove_tag test_product "premium") as (_ & Htags & Hversion).
  { simpl. apply not_elem_of_nil. }
  split; [exact Htags|exact Hversion].
Defined.

(** X4.  The tag list stays free of duplicates under [add_tag] and
    [remove_tag], and on such a list [remove_tag] leaves no occurrence of
    the tag behind. *)
Theorem tags_stay_distinct p tag :
  NoDup (default [] (tags p)) →
  NoDup (default [] (tags (add_tag p tag)))
  ∧ NoDup (default [] (tags (remove_tag p tag)))
  ∧ tag ∉ default [] (tags (remove_tag p tag)).
Proof.
  intros Hnd. split; [|].
  - destruct (decide (tag ∈ default [] (tags p))) as [Hin|Hnot].
    + by rewrite add_tag_present.
    + destruct (add_tag_absent p tag Hnot) as [-> _]. simpl.
      apply NoDup_app. split; [done|]. split; [|apply NoDup_singleton].
      intros x Hx Hx'. apply list_elem_of_singleton in Hx'. by subst x.
  - unfold remove_tag. destruct (tags p) as [l|] eqn:Htags; simpl in *.
    + case_decide as Hin.
      * simpl. by apply list_remove_NoDup.
      * rewrite Htags. by split.
    + rewrite Htags. simpl. split; [constructor|apply not_elem_of_nil].
Qed.

Lemma tags_stay_distinct_witness :
  NoDup (default [] (tags (add_tag (add_tag test_product "organic") "organic")))
  ∧ "organic" ∉ default [] (tags (remove_tag (add_tag test_product "organic") "organic")).
Proof.
  destruct (tags_stay_distinct (add_tag test_product "organic") "organic")
    as (Hadd & _ & Hremove).
  { vm_compute. apply NoDup_singleton. }
  split; [exact Hadd|exact Hremove].
Defined.

Lemma update_stock_status p (q : Q) :
  availability_status (update_stock p q)
  = if Qle_bool q 0 then OUT_OF_STOCK
    else if Qle_bool q 10 then LIMITED_STOCK else AVAILABLE.
Proof. unfold update_stock. by destruct (Qle_bool q 0), (Qle_bool q 10). Qed.






(** X6.  After a stock update the product is available for purchase
    exactly when it is active and the new quantity is positive. *)
Theorem stock_update_availability r (q : Q) :
  is_available (on_columns (λ p, update_stock p q) r)
  = row_is_active r && Qlt_bool 0 q.
Proof.
  unfold is_available. cbn [on_columns columns row_is_active].
  rewrite update_stock_status. unfold Qlt_bool.
  by destruct (Qle_bool q 0), (Qle_bool q 10).
Qed.

End ProductDocumentProperties.

(** * Further properties of the search service *)

Section HitLoopProperties.

(** A hit that the loop of [search_products] can process: it has a
    ["_source"], and its ["_score"], when present, is a number. *)
Local Abbreviation processable :=
  (λ hit : Hit, is_Some (hit_source hit) ∧ is_Some (as_number (score_of hit))).

(** What the loop makes of a hit: the source with ["_score"] and
    ["relevance_factors"] set, its other keys untouched. *)
Local Abbreviation processed :=
  (λ (hit : Hit) (d : gmap string JValue),
     ∃ source, hit_source hit = Some source
       ∧ d !! "_score" = Some (score_of hit)
       ∧ ∀ key, key ≠ "_score" → key ≠ "relevance_factors" → d !! key = source !! key).

Lemma explain_relevance_returns (product : gmap string JValue) (score : option JValue)
    (query : string) :
  is_Some (as_number (default (num 0) score)) →
  ∃ factors, _explain_relevance (mkHit (Some product) score) query = inr factors.
Proof.
  intros [q Hq]. unfold _explain_relevance, score_of, py_gt_int. simpl.
  rewrite Hq. unfold_monad.
  destruct (Qlt_bool (inject_Z 5) q); by eexists.
Qed.

Lemma explain_relevance_raises (product : gmap string JValue) (score : option JValue)
    (query : string) :
  as_number (default (num 0) score) = None →
  _explain_relevance (mkHit (Some product) score) query = inl TypeError.
Proof.
  intros Hq. unfold _explain_relevance, score_of, py_gt_int. simpl. by rewrite Hq.
Qed.

Lemma partition_hits_order (query : string) (hits : list Hit) :
  ∀ products oos products' oos',
    partition_hits query hits products oos = inr (products', oos') →
    ∃ docs,
      Forall2 processed hits docs
      ∧ products' = products ++ filter (λ d, is_out_of_stock d = false) docs
      ∧ oos' = oos ++ filter (λ d, is_out_of_stock d = true) docs.
Proof.
  induction hits as [|hit rest IH]; intros products oos products' oos' H; simpl in H.
  - unfold_monad. injection H as <- <-. exists []. rewrite !app_nil_r.
    split; [constructor|done].
  - unfold_monad. unfold source_of in H. unfold_monad.
    destruct (hit_source hit) as [source|] eqn:Hsource; [|discriminate].
    destruct (_explain_relevance _ _) as [e|factors]; [discriminate|].
    set (d := <["relevance_factors" := JArr (JStr <$> factors)]>
                (<["_score" := score_of hit]> source)) in *.
    assert (Hd : processed hit d).
    { exists source. split; [done|]. split.
      - subst d. rewrite lookup_insert_ne by done. by rewrite lookup_insert_eq.
      - intros key H1 H2. subst d. by rewrite !lookup_insert_ne. }
    destruct (is_out_of_stock d) eqn:Hoos;
      apply IH in H as (docs & Hdocs & -> & ->); exists (d :: docs);
      (split; [by constructor|]).
    + rewrite filter_cons_False by (rewrite Hoos; discriminate).
      rewrite filter_cons_True by done. by rewrite <- app_assoc.
    + rewrite filter_cons_True by done.
      rewrite filter_cons_False by (rewrite Hoos; discriminate).
      by rewrite <- app_assoc.
Qed.

Lemma partition_hits_returns (query : string) (hits : list Hit) :
  ∀ products oos,
    (∃ r, partition_hits query hits products oos = inr r) ↔ Forall processable hits.
Proof.
  induction hits as [|hit rest IH]; intros products oos; simpl.
  - split; [constructor|]. intros _. by eexists.
  - unfold_monad. unfold source_of. unfold_monad. destruct hit as [[source|] score]; simpl.
    + destruct (as_number (default (num 0) score)) as [q|] eqn:Hscore.
      * destruct (explain_relevance_returns
                    (<["_score" := default (num 0) score]> source) score query)
          as [factors Hfactors]; [by rewrite Hscore|].
        unfold score_of. simpl. rewrite Hfactors.
        destruct (is_out_of_stock _); rewrite IH; (split; [intros Hrest|]).
        all: try (apply Forall_cons; split; [split; [done|]|done];
                  unfold score_of; simpl; by rewrite Hscore).
        all: intros Hall; by apply Forall_cons in Hall as [_ Hall].
      * unfold score_of. simpl.
        rewrite (explain_relevance_raises _ _ _ Hscore).
        split; [intros [r Hr]; discriminate|].
        intros Hall. apply Forall_cons in Hall as [[_ [q Hq]] _].
        unfold score_of in Hq. simpl in Hq. congruence.
    + split; [intros [r Hr]; discriminate|].
      intros Hall. apply Forall_cons in Hall as [[[s Hs] _] _]. discriminate.
Qed.

(** X7.  The loop of [search_products] over the hits returns exactly when
    every hit has a ["_source"] and a ["_score"] that is a number or is
    absent.  It then puts the processed documents that read
    ["out_of_stock"] in [out_of_stock] and the others in [products], each
    list in the order of the hits, and changes no key of a document but
    ["_score"] and ["relevance_factors"]. *)
Theorem partition_hits_keeps_order (query : string) (hits : list Hit) :
  ((∃ r, partition_hits query hits [] [] = inr r) ↔ Forall processable hits)
  ∧ ∀ products oos,
      partition_hits query hits [] [] = inr (products, oos) →
      ∃ docs,
        Forall2 processed hits docs
        ∧ products = filter (λ d, is_out_of_stock d = false) docs
        ∧ oos = filter (λ d, is_out_of_stock d = true) docs.
Proof.
  split; [apply partition_hits_returns|].
  intros products oos H. by apply partition_hits_order in H.
Qed.

Lemma partition_hits_keeps_order_witness :
  ∃ products oos docs,
    partition_hits "rice" mixed_hits [] [] = inr (products, oos)
    ∧ length docs = 2%nat
    ∧ products = filter (λ d, is_out_of_stock d = false) docs
    ∧ oos = filter (λ d, is_out_of_stock d = true) docs.
Proof.
  destruct (partition_hits_keeps_order "rice" mixed_hits) as [Hreturns Horder].
  destruct (proj2 Hreturns) as [[products oos] Hrun].
  { repeat constructor; by eexists. }
  destruct (Horder products oos Hrun) as (docs & Hdocs & Hp & Ho).
  exists products, oos, docs. split; [exact Hrun|].
  split; [|by split]. apply Forall2_length in Hdocs. by rewrite <- Hdocs.
Defined.

End HitLoopProperties.

Section SortProperties.

(** X13.  Whatever the list of preferences and the location, the sort list
    of [_build_multi_sort_criteria] has a key that mentions the score and
    ends with the creation date, descending; preferences that are not
    recognised add nothing. *)
Theorem multi_sort_always_scored
    (sort_preferences : list string) (location : option (gmap string JValue)) :
  existsb (mentions "_score") (_build_multi_sort_criteria sort_preferences location) = true
  ∧ last (_build_multi_sort_criteria sort_preferences location)
    = Some (sort_on "created_at" "desc")
  ∧ (Forall (λ sort_pref, multi_sort_step location sort_pref = []) sort_preferences →
     _build_multi_sort_criteria sort_preferences location
     = [sort_on "_score" "desc"; sort_on "created_at" "desc"]).
Proof.
  unfold _build_multi_sort_criteria. split; [|split].
  - rewrite existsb_app.
    destruct (existsb (mentions "_score")
                (concat (map (multi_sort_step location) sort_preferences))) eqn:Hany;
      simpl.
    + by rewrite Hany.
    + rewrite existsb_app, Hany. reflexivity.
  - by rewrite last_snoc.
  - intros Hnone.
    assert (concat (map (multi_sort_step location) sort_preferences) = []) as ->.
    { induction Hnone as [|x l Hx _ IH]; simpl; [done|]. by rewrite Hx, IH. }
    reflexivity.
Qed.

Lemma multi_sort_always_scored_witness :
  _build_multi_sort_criteria ["newest"; "cheapest"] None
  = [sort_on "_score" "desc"; sort_on "created_at" "desc"].
Proof.
  apply (multi_sort_always_scored ["newest"; "cheapest"] None).
  repeat constructor.
Defined.

(** X14.  For every [sort_by] other than ["relevance"], the sort list of
    [_build_sort_criteria] ends with the score and then the creation date,
    both descending.  A [sort_by] that is none of the names the function
    knows, and ["distance"] without a location, give exactly these two
    keys. *)
Theorem sort_criteria_fallback
    (sort_by : string) (location : option (gmap string JValue)) :
  sort_by ≠ "relevance" →
  (∃ primary,
     _build_sort_criteria sort_by location
     = primary ++ [sort_on "_score" "desc"; sort_on "created_at" "desc"])
  ∧ (sort_by ∉ ["price_asc"; "price_desc"; "date_desc"; "date_asc"; "updated_desc";
                "trending"; "distance"; "quality_desc"] →
     _build_sort_criteria sort_by location
     = [sort_on "_score" "desc"; sort_on "created_at" "desc"])
  ∧ (sort_by = "distance" → location = None →
     _build_sort_criteria sort_by location
     = [sort_on "_score" "desc"; sort_on "created_at" "desc"]).
Proof.
  intros Hne. split; [by apply sort_criteria_score_before_last|]. split.
  - intros Hunknown. unfold _build_sort_criteria.
    repeat match goal with
    | |- context [String.eqb sort_by ?s] =>
        let H := fresh in
        destruct (String.eqb sort_by s) eqn:H;
        [apply String.eqb_eq in H; subst sort_by; exfalso;
         first [by apply Hne | apply Hunknown; set_solver]|]
    end.
    reflexivity.
  - intros -> ->. reflexivity.
Qed.

Lemma sort_criteria_fallback_witness :
  _build_sort_criteria "popularity" None
  = [sort_on "_score" "desc"; sort_on "created_at" "desc"]
  ∧ _build_sort_criteria "distance" None
    = [sort_on "_score" "desc"; sort_on "created_at" "desc"].
Proof.
  destruct (sort_criteria_fallback "popularity" None) as (_ & Hunknown & _);
    [discriminate|].
  destruct (sort_criteria_fallback "distance" None) as (_ & _ & Hdistance);
    [discriminate|].
  split.
  - apply Hunknown. intros Hin.
    repeat (apply elem_of_cons in Hin as [Hin|Hin]; [discriminate Hin|]).
    by apply not_elem_of_nil in Hin.
  - by apply Hdistance.
Defined.

End SortProperties.

Section AggregationProperties.

Local Abbreviation complete_bucket :=
  (λ b : Bucket, is_Some (bucket_key b) ∧ is_Some (bucket_doc_count b)).

Local Abbreviation complete_buckets :=
  (λ item : string * AggData,
     ∀ buckets, agg_buckets item.2 = Some buckets → Forall complete_bucket buckets).

(** Where a facet of the result comes from. *)
Local Abbreviation facet_of :=
  (λ (aggregations : list (string * AggData)) (name : string) (facet : Facet),
     ∃ data, (name, data) ∈ aggregations
       ∧ match facet with
         | FacetBuckets items =>
             ∃ buckets, agg_buckets data = Some buckets ∧ length items = length buckets
         | FacetStats _ _ _ => agg_buckets data = None ∧ name = "price_stats"
         end).

Lemma process_buckets_returns (buckets : list Bucket) :
  (∃ items, process_buckets buckets = inr items) ↔ Forall complete_bucket buckets.
Proof.
  induction buckets as [|b rest IH]; simpl.
  - split; [constructor|]. intros _. by eexists.
  - unfold_monad. unfold process_bucket. unfold_monad.
    destruct (bucket_key b) as [k|] eqn:Hk.
    2:{ split; [intros [? ?]; discriminate|].
        intros H. apply Forall_cons in H as [[[? ?] _] _]. congruence. }
    destruct (bucket_doc_count b) as [c|] eqn:Hc.
    2:{ split; [intros [? ?]; discriminate|].
        intros H. apply Forall_cons in H as [[_ [? ?]] _]. congruence. }
    destruct (process_buckets rest) as [e|items].
    + split; [intros [? ?]; discriminate|].
      intros H. apply Forall_cons in H as [_ H]. apply IH in H as [? ?]. discriminate.
    + split; [|intros _; by eexists]. intros _. apply Forall_cons.
      split; [split; by rewrite ?Hk, ?Hc|]. apply IH. by eexists.
Qed.

Lemma process_buckets_length (buckets : list Bucket) items :
  process_buckets buckets = inr items → length items = length buckets.
Proof.
  revert items. induction buckets as [|b rest IH]; intros items H; simpl in H;
    unfold_monad.
  - by injection H as <-.
  - destruct (process_bucket b) as [e|item]; [discriminate|].
    destruct (process_buckets rest) as [e|items']; [discriminate|].
    injection H as <-. simpl. by rewrite (IH items').
Qed.

Lemma process_aggregation_items_inv (items : list (string * AggData)) :
  ∀ facets0 facets,
    process_aggregation_items items facets0 = inr facets →
    ∀ name facet, facets !! name = Some facet →
      facets0 !! name = Some facet ∨ facet_of items name facet.
Proof.
  induction items as [|[agg_name agg_data] rest IH]; intros facets0 facets H name facet Hf;
    simpl in H.
  - unfold_monad. injection H as <-. by left.
  - assert (Hweaken : ∀ n f, facet_of rest n f → facet_of ((agg_name, agg_data) :: rest) n f).
    { intros n f (data & Hin & Hshape). exists data. split; [by right|done]. }
    destruct (agg_buckets agg_data) as [buckets|] eqn:Hb.
    + unfold_monad.
      destruct (process_buckets buckets) as [e|its] eqn:Hits; [discriminate|].
      destruct (IH _ _ H name facet Hf) as [Hold|Hnew]; [|right; by apply Hweaken].
      destruct (decide (agg_name = name)) as [->|Hne].
      * rewrite lookup_insert_eq in Hold. injection Hold as <-. right.
        exists agg_data. split; [by left|]. exists buckets. split; [done|].
        by apply process_buckets_length.
      * rewrite lookup_insert_ne in Hold by done. by left.
    + destruct (String.eqb agg_name "price_stats") eqn:Hname.
      * apply String.eqb_eq in Hname.
        destruct (IH _ _ H name facet Hf) as [Hold|Hnew]; [|right; by apply Hweaken].
        destruct (decide (agg_name = name)) as [<-|Hne].
        -- rewrite lookup_insert_eq in Hold. injection Hold as <-. right.
           exists agg_data. split; [by left|done].
        -- rewrite lookup_insert_ne in Hold by done. by left.
      * destruct (IH _ _ H name facet Hf) as [Hold|Hnew]; [by left|right; by apply Hweaken].
Qed.

Lemma process_aggregation_items_returns (items : list (string * AggData)) :
  ∀ facets0,
    (∃ facets, process_aggregation_items items facets0 = inr facets)
    ↔ Forall complete_buckets items.
Proof.
  induction items as [|[agg_name agg_data] rest IH]; intros facets0; simpl.
  - split; [constructor|]. intros _. by eexists.
  - destruct (agg_buckets agg_data) as [buckets|] eqn:Hb.
    + unfold_monad. destruct (process_buckets buckets) as [e|its] eqn:Hits.
      * split; [intros [? ?]; discriminate|].
        intros H. apply Forall_cons in H as [H _]. specialize (H buckets Hb).
        apply process_buckets_returns in H as [? ?]. congruence.
      * rewrite IH. split.
        -- intros Hrest. apply Forall_cons. split; [|done].
           intros buckets' Hb'. simpl in Hb'. rewrite Hb in Hb'. injection Hb' as <-.
           apply process_buckets_returns. by eexists.
        -- intros H. by apply Forall_cons in H as [_ H].
    + assert (Hhead : complete_buckets (agg_name, agg_data)).
      { intros buckets Hb'. simpl in Hb'. congruence. }
      destruct (String.eqb agg_name "price_stats"); rewrite IH;
        (split; [intros Hrest; by apply Forall_cons|
                 intros H; by apply Forall_cons in H as [_ H]]).
Qed.

(** X12.  [_process_aggregations] returns exactly when every bucket of
    every section that has buckets carries both ["key"] and
    ["doc_count"].  Every facet of the result then comes from a section
    of that name: a bucket facet has one item per bucket, and the only
    facet made from a section without buckets is ["price_stats"]; the
    other sections without buckets are left out. *)
Theorem process_aggregations_facets (aggregations : list (string * AggData)) :
  ((∃ facets, _process_aggregations aggregations = inr facets)
   ↔ Forall complete_buckets aggregations)
  ∧ ∀ facets name facet,
      _process_aggregations aggregations = inr facets →
      facets !! name = Some facet →
      facet_of aggregations name facet.
Proof.
  split; [apply process_aggregation_items_returns|].
  intros facets name facet H Hf.
  destruct (process_aggregation_items_inv _ _ _ H name facet Hf) as [Hold|Hnew];
    [|done].
  by rewrite lookup_empty in Hold.
Qed.

Lemma process_aggregations_facets_witness :
  ∃ facets facet,
    _process_aggregations sample_aggregations = inr facets
    ∧ facets !! "timing" = None
    ∧ facets !! "quality_grades" = Some facet
    ∧ facet_of sample_aggregations "quality_grades" facet.
Proof.
  eexists _, _. split; [reflexivity|]. split; [reflexivity|]. split; [reflexivity|].
  apply (proj2 (process_aggregations_facets sample_aggregations)
           _ "quality_grades" _ eq_refl eq_refl).
Defined.

End AggregationProperties.

Section SuggestionProperties.

Context (es_search : list Call → SearchCall → Result Response)
        (lower : string → string).

(** The loops of [get_search_suggestions] keep [seen_suggestions] equal to
    the lower-cased suggestions, which are distinct. *)
Local Abbreviation seen_invariant :=
  (λ (suggestions : list string) (seen : gset string),
     NoDup (lower <$> suggestions)
     ∧ ∀ x, x ∈ seen ↔ x ∈ lower <$> suggestions).

Lemma seen_invariant_add (suggestions : list string) (seen : gset string) (s : string) :
  seen_invariant suggestions seen → lower s ∉ seen →
  seen_invariant (suggestions ++ [s]) ({[lower s]} ∪ seen).
Proof.
  intros [Hnd Hseen] Hnew. rewrite fmap_app. simpl. split.
  - apply NoDup_app. split; [done|]. split; [|apply NoDup_singleton].
    intros x Hx Hx'. apply list_elem_of_singleton in Hx'. subst x.
    apply Hnew. by apply Hseen.
  - intros x. rewrite elem_of_union, elem_of_singleton, elem_of_app,
      list_elem_of_singleton, Hseen. tauto.
Qed.

Lemma suggestion_keywords_invariant query limit (keywords : list JValue) :
  ∀ suggestions seen suggestions' seen',
    suggestion_keywords lower query limit keywords suggestions seen
    = inr (suggestions', seen') →
    seen_invariant suggestions seen → seen_invariant suggestions' seen'.
Proof.
  induction keywords as [|keyword rest IH]; intros suggestions seen suggestions' seen' H Hinv;
    simpl in H.
  - unfold_monad. by injection H as <- <-.
  - destruct keyword as [| | |k| |]; try discriminate.
    destruct (String.prefix _ _ && bool_decide (lower k ∉ seen) && _) eqn:Hcond.
    + apply andb_prop in Hcond as [Hcond _]. apply andb_prop in Hcond as [_ Hnew].
      apply bool_decide_eq_true in Hnew.
      eapply IH; [exact H|]. by apply seen_invariant_add.
    + by eapply IH.
Qed.

Lemma suggestion_hits_invariant query language limit (hits : list Hit) :
  ∀ suggestions seen suggestions',
    suggestion_hits lower query language limit hits suggestions seen = inr suggestions' →
    seen_invariant suggestions seen → NoDup (lower <$> suggestions').
Proof.
  induction hits as [|hit rest IH]; intros suggestions seen suggestions' H Hinv;
    simpl in H.
  - unfold_monad. injection H as <-. by destruct Hinv.
  - unfold_monad.
    destruct (source_of hit) as [e|product]; [discriminate|].
    destruct (default (JObj []) (product !! "names")) as [| | | | |kvs]; try discriminate.
    set (name := default JNull (items_get kvs (LanguageCode_value language))) in *.
    assert (Hstep : ∀ suggestions1 seen1 stop,
      (if truthy name
       then match name with
            | JStr s =>
                if bool_decide (lower s ∈ seen)
                then inr (suggestions, seen, false)
                else inr (suggestions ++ [s], {[lower s]} ∪ seen,
                          limit <=? Z.of_nat (length (suggestions ++ [s])))
            | _ => inl AttributeError
            end
       else inr (suggestions, seen, false))
      = (inr (suggestions1, seen1, stop) : Result (list string * gset string * bool)) →
      seen_invariant suggestions1 seen1).
    { intros suggestions1 seen1 stop Hs.
      destruct (truthy name); [|by injection Hs as <- <- <-].
      destruct name as [| | |s| |]; try discriminate.
      case_bool_decide as Hseen; injection Hs as <- <- <-; [done|].
      by apply seen_invariant_add. }
    match type of H with
    | match ?step with _ => _ end = _ =>
        destruct step as [e|[[suggestions1 seen1] stop]] eqn:Hs; [discriminate|]
    end.
    specialize (Hstep _ _ _ Hs).
    destruct stop.
    + injection H as <-. by destruct Hstep.
    + destruct (iterate _) as [e|keywords]; [discriminate|].
      destruct (suggestion_keywords _ _ _ _ _ _) as [e|[suggestions2 seen2]] eqn:Hk;
        [discriminate|].
      eapply IH; [exact H|]. by eapply suggestion_keywords_invariant.
Qed.

(** X11.  For a limit that is not negative, [get_search_suggestions]
    returns at most [limit] suggestions, and no two of them are equal
    once lower-cased. *)
Theorem suggestions_bounded_and_distinct query language limit log l log' :
  0 ≤ limit →
  get_search_suggestions es_search lower query language limit log = (inr l, log') →
  Z.of_nat (length l) ≤ limit ∧ NoDup (lower <$> l).
Proof.
  intros Hlimit. unfold get_search_suggestions, do_search. unfold_monad.
  destruct (es_search log _) as [e|response].
  { intros [= <- <-]. simpl. split; [lia|constructor]. }
  destruct (suggestion_hits _ _ _ _ _ _ _) as [e|suggestions] eqn:Hhits.
  { intros [= <- <-]. simpl. split; [lia|constructor]. }
  intros [= <- <-]. unfold slice_to.
  destruct (Z.leb_spec 0 limit); [|lia]. split.
  - rewrite length_take. lia.
  - rewrite fmap_take. eapply sublist_NoDup; [|apply sublist_take].
    eapply suggestion_hits_invariant; [exact Hhits|].
    split; [constructor|]. intros x. simpl.
    split; intros Hx; [by apply not_elem_of_empty in Hx|by apply not_elem_of_nil in Hx].
Qed.

End SuggestionProperties.

Section SuggestionRuns.

Lemma suggestions_bounded_and_distinct_witness :
  let run := get_search_suggestions (canned_search mixed_hits 2) lower_ascii
               "RI" ENGLISH 2 [] in
  run = (inr (returned [] run), run.2)
  ∧ Z.of_nat (length (returned [] run)) ≤ 2
  ∧ NoDup (lower_ascii <$> returned [] run).
Proof.
  intros run.
  assert (Hrun : run = (inr (returned [] run), run.2)).
  { vm_cast_no_check (eq_refl (inr (returned [] run) : Result _, run.2)). }
  split; [exact Hrun|].
  apply (suggestions_bounded_and_distinct (canned_search mixed_hits 2) lower_ascii
           "RI" ENGLISH 2 [] _ _ ltac:(lia) Hrun).
Defined.

End SuggestionRuns.

Section PaginationProperties.
Import Callers.

Context (es_search : list Call → SearchCall → Result Response)
        (es_get_document : list Call → string → JValue
                           → Result (option (gmap string JValue)))
        (builder : SearchArgs → Result JValue)
        (lower : string → string).

Lemma more_pages_iff (p t s : Z) : 1 ≤ s → (p * s < t ↔ p < (t + s - 1) / s).
Proof.
  intros Hs.
  pose proof (Z.div_mod (t + s - 1) s ltac:(lia)) as Hdiv.
  pose proof (Z.mod_pos_bound (t + s - 1) s ltac:(lia)) as Hmod.
  split; intros H; nia.
Qed.

(** X10.  In a search that returns without ["error"], with
    [page_size >= 1], [has_next] holds exactly when the page comes before
    the last one, [page < total_pages]: the test [page * page_size <
    total] of [search_products] and the test [page < total_pages] of the
    product listings agree. *)
Theorem has_next_iff_before_last_page a log res log' :
  search_products es_search es_get_document builder lower a log = (inr res, log') →
  sr_error res = None →
  1 ≤ sr_page_size res →
  sr_has_next res = bool_decide (sr_page res < sr_total_pages res).
Proof.
  intros Hrun Herr Hsize.
  destruct (search_success_inv _ _ _ _ a log res log' Hrun Herr)
    as (search_query & response & _ & _ & Hres).
  apply search_results_inv in Hres as (? & ? & ? & ? & ? & total_pages & _ & Hdiv & ->).
  simpl in *. unfold py_floordiv in Hdiv. unfold_monad.
  destruct (page_size a =? 0); [discriminate|]. injection Hdiv as <-.
  case_bool_decide as Hlt.
  - apply Z.ltb_lt. by apply more_pages_iff.
  - apply Z.ltb_ge. apply Z.nlt_ge. intros H. apply Hlt. by apply more_pages_iff.
Qed.

End PaginationProperties.

Section PaginationRuns.
Import Callers.

Lemma has_next_iff_before_last_page_witness :
  let a := with_paging (default_args "rice") 2 20 in
  let run := search_products (canned_search [] 45) no_document sample_query_builder
               lower_ascii a [] in
  let res := returned (error_result a TypeError) run in
  run = (inr res, run.2)
  ∧ sr_has_next res = bool_decide (sr_page res < sr_total_pages res)
  ∧ sr_has_next res = true.
Proof.
  intros a run res.
  assert (Hrun : run = (inr res, run.2)).
  { vm_cast_no_check (eq_refl (inr res : Result _, run.2)). }
  assert (Herr : sr_error res = None).
  { vm_cast_no_check (eq_refl (@None Exn)). }
  assert (Hsize : sr_page_size res = 20).
  { vm_cast_no_check (eq_refl 20). }
  split; [exact Hrun|]. split.
  - apply (has_next_iff_before_last_page _ _ _ _ _ _ _ _ Hrun Herr).
    rewrite Hsize. lia.
  - vm_cast_no_check (eq_refl true).
Defined.

Lemma product_responses_returns {Row Response : Type}
    (from_orm : Row → Result Response) (products : list Row) :
  (∃ responses, product_responses from_orm products = inr responses)
  ↔ Forall (λ product, ∃ response, from_orm product = inr response) products.
Proof.
  induction products as [|product rest IH]; simpl; unfold_monad.
  - split; [constructor|by eexists].
  - rewrite Forall_cons. split.
    + intros [responses H].
      destruct (from_orm product) as [e|response]; [discriminate|].
      split; [by eexists|]. apply IH.
      destruct (product_responses from_orm rest) as [e|responses']; [discriminate|].
      by eexists.
    + intros [[response Hfirst] Hrest]. apply IH in Hrest as [responses Hrest].
      rewrite Hfirst, Hrest. by eexists.
Qed.

Lemma product_responses_length {Row Response : Type}
    (from_orm : Row → Result Response) (products : list Row) :
  ∀ responses,
    product_responses from_orm products = inr responses →
    length responses = length products.
Proof.
  induction products as [|product rest IH]; intros responses H; simpl in H;
    unfold_monad.
  - by injection H as <-.
  - destruct (from_orm product) as [e|response]; [discriminate|].
    destruct (product_responses from_orm rest) as [e|responses']; [discriminate|].
    injection H as <-. simpl. by rewrite (IH responses').
Qed.

(** X17.  A product listing converts the rows of the page it fetched with
    [ProductResponse.from_orm] and computes its pagination from their
    number.  With a valid page and page size, and a fetch that returns no
    more rows than the page size: it returns exactly when the conversion
    returns for every row, and whenever it returns it reports no next
    page, with a [total_pages] of 1, or of 0 when the page is empty. *)
Theorem listing_never_has_next {Row Response : Type}
    (from_orm : Row → Result Response) (products : list Row) (page page_size : Z) :
  1 ≤ page → 1 ≤ page_size →
  Z.of_nat (length products) ≤ page_size →
  ((∃ lp, list_pagination from_orm products page page_size = inr lp)
   ↔ Forall (λ product, ∃ response, from_orm product = inr response) products)
  ∧ ∀ lp,
      list_pagination from_orm products page page_size = inr lp →
      lp_has_next lp = false
      ∧ length (lp_products lp) = length products
      ∧ lp_total lp = Z.of_nat (length products)
      ∧ lp_total_pages lp = (if decide (products = []) then 0 else 1).
Proof.
  intros Hpage Hsize Hrows.
  assert (Hpages : (Z.of_nat (length products) + page_size - 1) / page_size
                   = if decide (products = []) then 0 else 1).
  { case_decide as Hempty.
    - subst products. simpl. apply Z.div_small. lia.
    - assert (1 ≤ Z.of_nat (length products)) by (destruct products; simpl; [done|lia]).
      symmetry. apply (Z.div_unique _ _ 1 (Z.of_nat (length products) - 1)); lia. }
  split.
  - rewrite <- product_responses_returns.
    unfold list_pagination, py_floordiv. unfold_monad.
    destruct (product_responses from_orm products) as [e|responses].
    + split; intros [? H]; discriminate H.
    + destruct (Z.eqb_spec page_size 0) as [|_]; [lia|]. split; intros _; by eexists.
  - intros lp. unfold list_pagination, py_floordiv. unfold_monad.
    destruct (product_responses from_orm products) as [e|responses] eqn:Hresponses;
      [discriminate|].
    destruct (Z.eqb_spec page_size 0) as [|_]; [lia|].
    intros [= <-]. simpl. rewrite Hpages.
    split; [apply Z.ltb_ge; case_decide; lia|].
    split; [by apply product_responses_length in Hresponses|done].
Qed.

Lemma listing_never_has_next_witness :
  (∃ lp, list_pagination refusing_from_orm [] 1 20 = inr lp
         ∧ lp_has_next lp = false ∧ lp_total_pages lp = 0)
  ∧ ¬ (∃ lp, list_pagination refusing_from_orm [doc_rice] 1 20 = inr lp).
Proof.
  split.
  - destruct (listing_never_has_next refusing_from_orm [] 1 20) as [Hreturns Hfields];
      [lia|lia|simpl; lia|].
    destruct (proj2 Hreturns (Forall_nil_2 _)) as [lp Hlp].
    exists lp. split; [exact Hlp|].
    destruct (Hfields lp Hlp) as (Hnext & _ & _ & Hpages).
    split; [exact Hnext|exact Hpages].
  - destruct (listing_never_has_next refusing_from_orm [doc_rice] 1 20)
      as [Hreturns _]; [lia|lia|simpl; lia|].
    intros Hlp. apply Hreturns in Hlp.
    apply Forall_cons in Hlp as [[response Hfirst] _]. discriminate Hfirst.
Defined.

Lemma alternatives_limits_witness :
  let a := default_args "rice" in
  let run := search_products catalogue_search catalogue_get_document
               sample_query_builder lower_ascii a [] in
  let res := returned (error_result a TypeError) run in
  run = (inr res, run.2) ∧ (length (sr_alternatives res) ≤ 6)%nat.
Proof.
  intros a run res.
  assert (Hrun : run = (inr res, run.2)).
  { vm_cast_no_check (eq_refl (inr res : Result _, run.2)). }
  assert (Herr : sr_error res = None).
  { vm_cast_no_check (eq_refl (@None Exn)). }
  split; [exact Hrun|].
  destruct (alternatives_limits _ _ _ _ _ _ _ _ Hrun Herr) as (rest & _ & _ & Hbound).
  exact (Hbound catalogue_honours_size).
Defined.

Lemma bundled_manager_search_fails_witness :
  (search_products (ElasticsearchManager_search (canned_search mixed_hits 2))
     no_document sample_query_builder lower_ascii (default_args "rice") []).1
  = inr (error_result (default_args "rice") TypeError).
Proof.
  exact (bundled_manager_search_fails no_document sample_query_builder lower_ascii
           (canned_search mixed_hits 2) (default_args "rice") [] _ eq_refl).
Defined.

End PaginationRuns.

Section SimilarProperties.
Import Recommendations.

Lemma py_eq_sym_hashable (a b : JValue) :
  hashable a = true → hashable b = true → py_eq a b = py_eq b a.
Proof.
  destruct a as [|x|x|x|?|?], b as [|y|y|y|?|?]; try done; simpl; intros _ _.
  - destruct x, y; reflexivity.
  - destruct x; unfold Qeq_bool; apply Z.eqb_sym.
  - destruct y; unfold Qeq_bool; apply Z.eqb_sym.
  - unfold Qeq_bool. apply Z.eqb_sym.
  - apply String.eqb_sym.
Qed.

(** The identifier of a document of the result. *)
Local Abbreviation id_of := (λ d : gmap string JValue, default JNull (d !! "id")).

Lemma distinct_ids_snoc (l : list (gmap string JValue)) (d : gmap string JValue) :
  distinct_ids l →
  (∀ d', d' ∈ l → py_eq (id_of d') (id_of d) = false) →
  distinct_ids (l ++ [d]).
Proof.
  induction l as [|x l IH]; intros Hl Hnew; simpl.
  - split; [|done]. intros d' Hd'. by apply not_elem_of_nil in Hd'.
  - destruct Hl as [Hx Hl]. split.
    + intros d' Hd'. apply elem_of_app in Hd' as [Hd'|Hd'].
      * by apply Hx.
      * apply list_elem_of_singleton in Hd'. subst d'. apply Hnew. by left.
    + apply IH; [done|]. intros d' Hd'. apply Hnew. by right.
Qed.

Lemma unique_by_id_inv (similar_products : list (gmap string JValue)) (limit : Z) :
  ∀ seen_ids unique_similar l,
    unique_by_id similar_products limit seen_ids unique_similar = inr l →
    seen_ids = id_of <$> unique_similar →
    Forall (λ v, hashable v = true) seen_ids →
    distinct_ids unique_similar →
    distinct_ids l
    ∧ Z.of_nat (length l) ≤ Z.max (Z.of_nat (length unique_similar) + 1) limit
    ∧ ∃ kept, l = unique_similar ++ kept ∧ kept `sublist_of` similar_products.
Proof.
  induction similar_products as [|product rest IH];
    intros seen_ids unique_similar l H Hseen Hhash Hdistinct; simpl in H.
  - unfold_monad. injection H as <-. split; [done|]. split; [lia|].
    exists []. by rewrite app_nil_r.
  - unfold_monad. unfold getitem in H. unfold_monad.
    destruct (product !! "id") as [product_id|] eqn:Hid; [|discriminate].
    destruct (hashable product_id) eqn:Hh; simpl in H; [|discriminate].
    destruct (existsb (py_eq product_id) seen_ids) eqn:Hdup.
    + destruct (IH _ _ _ H Hseen Hhash Hdistinct) as (Hd & Hlen & kept & -> & Hsub).
      split; [done|]. split; [done|]. exists kept. split; [done|].
      by apply sublist_cons.
    + assert (Hnew : distinct_ids (unique_similar ++ [product])).
      { apply distinct_ids_snoc; [done|]. intros d' Hd'.
        assert (Hin : id_of d' ∈ seen_ids).
        { subst seen_ids. apply list_elem_of_fmap. by exists d'. }
        rewrite py_eq_sym_hashable.
        - simpl. rewrite Hid. simpl.
          destruct (py_eq product_id (id_of d')) eqn:Heq; [|done].
          assert (existsb (py_eq product_id) seen_ids = true); [|congruence].
          apply existsb_exists. exists (id_of d'). split; [|done].
          by apply list_elem_of_In.
        - rewrite Forall_forall in Hhash. by apply Hhash.
        - simpl. by rewrite Hid. }
      destruct (limit <=? Z.of_nat (length (unique_similar ++ [product]))) eqn:Hfull.
      * injection H as <-. split; [done|]. split.
        { rewrite length_app. simpl. lia. }
        exists [product]. split; [done|]. apply sublist_skip, sublist_nil_l.
      * apply Z.leb_gt in Hfull. rewrite length_app in Hfull. simpl in Hfull.
        destruct (IH _ _ _ H) as (Hd & Hlen & kept & -> & Hsub).
        { rewrite fmap_app. simpl. rewrite Hid. simpl. by rewrite Hseen. }
        { apply Forall_app. split; [done|]. by apply Forall_singleton. }
        { done. }
        split; [done|]. split.
        { rewrite !length_app in *. simpl in *. lia. }
        exists (product :: kept). split; [by rewrite <- app_assoc|].
        by apply sublist_skip.
Qed.

Context (es_search : list Call → SearchCall → Result Response)
        (es_get_document : list Call → string → JValue
                           → Result (option (gmap string JValue))).

(** X15.  The products returned by [_get_similar_to_results] have
    different identifiers, two by two, and there are at most [limit] of
    them, or one when [limit] is below 1. *)
Theorem similar_results_are_distinct
    (products : list (gmap string JValue)) (limit : Z) log l log' :
  _get_similar_to_results es_search es_get_document products limit log = (inr l, log') →
  distinct_ids l ∧ Z.of_nat (length l) ≤ Z.max 1 limit.
Proof.
  unfold _get_similar_to_results. unfold_monad.
  destruct (collect_similar _ _ _ _ _) as [[e|similar] log1]; [discriminate|].
  destruct (unique_by_id similar limit [] []) as [e|l'] eqn:Hunique; [discriminate|].
  intros [= <- <-].
  destruct (unique_by_id_inv _ _ _ _ _ Hunique eq_refl) as (Hd & Hlen & _);
    [constructor|done|]. by split.
Qed.

End SimilarProperties.

Section SimilarRuns.
Import Recommendations.

Lemma similar_results_are_distinct_witness :
  let run := _get_similar_to_results catalogue_search catalogue_get_document
               [doc_wheat; doc_maize] 5 [] in
  run = (inr (returned [] run), run.2)
  ∧ ids_of (returned [] run) = [Some (JStr "p1")]
  ∧ distinct_ids (returned [] run).
Proof.
  intros run.
  assert (Hrun : run = (inr (returned [] run), run.2)).
  { vm_cast_no_check (eq_refl (inr (returned [] run) : Result _, run.2)). }
  split; [exact Hrun|]. split.
  - vm_cast_no_check (eq_refl [Some (JStr "p1")]).
  - apply (similar_results_are_distinct _ _ _ _ _ _ _ Hrun).
Defined.

End SimilarRuns.

Section TrendingProperties.
Import Recommendations.

Context (es_search : list Call → SearchCall → Result Response)
        (created_since updated_since : string)
        (days_old : JValue → option Z).

Lemma quality_bonus_bounds (grade : JValue) (bonus : Q) :
  quality_bonus_of grade = inr bonus → (8 # 10 <= bonus)%Q ∧ (bonus <= 2)%Q.
Proof.
  destruct grade as [| | |s| |]; simpl; unfold_monad; try discriminate;
    try (intros [= <-]; split; by compute).
  intros [= <-].
  destruct (quality_bonus !! s) as [q|] eqn:Hq; simpl; [|split; by compute].
  apply elem_of_list_to_map_2 in Hq.
  repeat (apply elem_of_cons in Hq as [Hq|Hq];
          [injection Hq as _ ->; split; by compute|]).
  by apply not_elem_of_nil in Hq.
Qed.

Lemma trending_score_bounds (product : gmap string JValue) (score : Q) :
  _calculate_trending_score days_old product = inr score →
  (8 # 10 <= score)%Q ∧ (score <= 10)%Q.
Proof.
  unfold _calculate_trending_score. unfold_monad.
  destruct (quality_bonus_of _) as [e|bonus] eqn:Hbonus; [discriminate|].
  apply quality_bonus_bounds in Hbonus as [Hlow Hhigh].
  intros [= <-].
  match goal with
  | |- (_ <= ?base + bonus)%Q ∧ _ =>
      assert (Hbase : (0 <= base)%Q ∧ (base <= 8)%Q)
  end.
  { destruct (truthy (default JNull (product !! "is_active")));
      destruct (eq_str (default JNull (product !! "availability_status")) "available");
      destruct (eq_str (default JNull (product !! "availability_status")) "limited_stock");
      destruct (truthy (default JNull (product !! "is_featured")));
      destruct (truthy (default JNull (product !! "created_at")));
      try destruct (days_old (default JNull (product !! "created_at"))) as [days|];
      try destruct (days <? 7); try destruct (days <? 30);
      split; by compute. }
  destruct Hbase as [Hbase0 Hbase8]. split.
  - apply Qle_trans with (0 + (8 # 10))%Q; [by compute|].
    by apply Qplus_le_compat.
  - apply Qle_trans with (8 + 2)%Q; [|by compute].
    by apply Qplus_le_compat.
Qed.

Lemma trending_hits_scores (hits : list Hit) :
  ∀ trending l,
    trending_hits days_old hits trending = inr l →
    ∃ added,
      l = trending ++ added
      ∧ length added = length hits
      ∧ Forall (λ d : gmap string JValue,
                  ∃ score, d !! "trending_score" = Some (JNum score)
                           ∧ (8 # 10 <= score)%Q ∧ (score <= 10)%Q) added.
Proof.
  induction hits as [|hit rest IH]; intros trending l H; simpl in H; unfold_monad.
  - injection H as <-. exists []. rewrite app_nil_r. by repeat split.
  - destruct (source_of hit) as [e|product]; [discriminate|].
    destruct (_calculate_trending_score _ _) as [e|score] eqn:Hscore; [discriminate|].
    apply IH in H as (added & -> & Hlen & Hall).
    exists (<["trending_score" := JNum score]> (<["_score" := score_of hit]> product)
            :: added).
    split; [by rewrite <- app_assoc|]. split; [simpl; by rewrite Hlen|].
    apply Forall_cons. split; [|done].
    exists score. split; [by rewrite lookup_insert_eq|].
    by apply trending_score_bounds in Hscore.
Qed.

(** X16.  Every product returned by [get_trending_products] carries a
    ["trending_score"] between 0.8 and 10, and there are as many of them
    as the store returned hits, or none when something raised. *)
Theorem trending_scores_bounded
    (category : option string) (location : option (gmap string JValue)) (limit : Z)
    log l log' :
  get_trending_products es_search created_since updated_since days_old
    category location limit log = (inr l, log') →
  Forall (λ d : gmap string JValue,
            ∃ score, d !! "trending_score" = Some (JNum score)
                     ∧ (8 # 10 <= score)%Q ∧ (score <= 10)%Q) l
  ∧ (l = []
     ∨ ∃ response,
         es_search log
           (mkSearchCall index_name
              (trending_query created_since updated_since category location)
              limit 0 (Some [sort_on "_score" "desc"; sort_on "updated_at" "desc"]) None)
         = inr response
         ∧ length l = length (hits_of response)).
Proof.
  unfold get_trending_products, do_search. unfold_monad.
  destruct (es_search log _) as [e|response] eqn:Hresp.
  { intros [= <- <-]. split; [constructor|by left]. }
  destruct (trending_hits _ _ _) as [e|l'] eqn:Hhits.
  { intros [= <- <-]. split; [constructor|by left]. }
  intros [= <- <-].
  apply trending_hits_scores in Hhits as (added & -> & Hlen & Hall).
  split; [done|]. right. by exists response.
Qed.

End TrendingProperties.

Section TrendingRuns.
Import Recommendations.

Lemma trending_scores_bounded_witness :
  let run := get_trending_products (canned_search mixed_hits 2) "2024-05-01T00:00:00"
               "2024-05-24T00:00:00" (λ _, Some 3) None None 10 [] in
  run = (inr (returned [] run), run.2)
  ∧ length (returned [] run) = 2%nat
  ∧ Forall (λ d : gmap string JValue,
              ∃ score, d !! "trending_score" = Some (JNum score)
                       ∧ (8 # 10 <= score)%Q ∧ (score <= 10)%Q) (returned [] run).
Proof.
  intros run.
  assert (Hrun : run = (inr (returned [] run), run.2)).
  { vm_cast_no_check (eq_refl (inr (returned [] run) : Result _, run.2)). }
  split; [exact Hrun|]. split.
  - vm_cast_no_check (eq_refl 2%nat).
  - apply (trending_scores_bounded _ _ _ _ _ _ _ _ _ _ Hrun).
Defined.

End TrendingRuns.

Section MonadInversion.

Lemma bind_returns {A B : Type} (m : M A) (f : A → M B) log r log' :
  (m ≫= f) log = (inr r, log') →
  ∃ x log1, m log = (inr x, log1) ∧ f x log1 = (inr r, log').
Proof.
  unfold_monad. destruct (m log) as [[e|x] log1]; [discriminate|].
  intros H. by exists x, log1.
Qed.

Lemma try_returns {A : Type} (body : M A) (handler : Exn → M A) log r log' :
  try_except body handler log = (inr r, log') →
  body log = (inr r, log')
  ∨ ∃ e log1, body log = (inl e, log1) ∧ handler e log1 = (inr r, log').
Proof.
  unfold try_except. destruct (body log) as [[e|x] log1]; intros H.
  - right. by exists e, log1.
  - left. done.
Qed.

End MonadInversion.

Section RecommendationProperties.
Import Recommendations Callers.

Context (es_search : list Call → SearchCall → Result Response)
        (es_get_document : list Call → string → JValue
                           → Result (option (gmap string JValue)))
        (builder : SearchArgs → Result JValue)
        (lower : string → string)
        (created_since updated_since : string)
        (days_old : JValue → option Z).

Local Abbreviation search := (search_products es_search es_get_document builder lower).

(** The products of a search never read out of stock. *)
Lemma search_products_in_stock a log res log' :
  search a log = (inr res, log') → none_out_of_stock (sr_products res).
Proof.
  rewrite search_unfold, search_body_unfold.
  destruct (builder a) as [e|search_query]; [intros [= <- <-]; constructor|].
  destruct (es_search log _) as [e|response]; [intros [= <- <-]; constructor|].
  destruct (search_results _ _ _ _ _ _) as [[e|res'] log''] eqn:Hres;
    [intros [= <- <-]; constructor|].
  intros [= <- <-].
  apply search_results_inv in Hres as (products & oos & ? & ? & ? & ? & Hpart & _ & ->).
  apply partition_hits_inv in Hpart as (_ & _ & Hnone). simpl. apply Hnone. constructor.
Qed.

(** With a page size of 0 the search ends in the error dictionary: the
    division of [total_pages] raises when nothing raised before. *)
Lemma search_products_zero_page_size a log res log' :
  page_size a = 0 →
  search a log = (inr res, log') → ∃ e, res = error_result a e.
Proof.
  intros Hzero. rewrite search_unfold, search_body_unfold.
  destruct (builder a) as [e|search_query]; [intros [= <- <-]; by eexists|].
  destruct (es_search log _) as [e|response]; [intros [= <- <-]; by eexists|].
  destruct (search_results _ _ _ _ _ _) as [[e|res'] log''] eqn:Hres;
    [intros [= <- <-]; by eexists|].
  apply search_results_inv in Hres as (? & ? & ? & ? & ? & ? & _ & Hdiv & _).
  rewrite Hzero in Hdiv. discriminate Hdiv.
Qed.

Lemma category_recommendations_in_stock user_location categories :
  ∀ recommendations log l log',
    category_recommendations es_search es_get_document builder lower
      user_location categories recommendations log = (inr l, log') →
    none_out_of_stock recommendations → none_out_of_stock l.
Proof.
  induction categories as [|category rest IH]; intros recommendations log l log' H Hin;
    simpl in H.
  - unfold_monad. by injection H as <- <-.
  - apply bind_returns in H as (res & log1 & Hsearch & H).
    apply IH in H; [done|]. apply Forall_app. split; [done|].
    by apply search_products_in_stock in Hsearch.
Qed.

Lemma slice_to_in_stock (n : Z) l : none_out_of_stock l → none_out_of_stock (slice_to n l).
Proof. unfold slice_to. destruct (0 <=? n); apply Forall_take. Qed.

(** What a returned dictionary of [get_recommendations_for_user] is made
    of: that of the [except] branch, or three lists computed in turn. *)
Lemma get_recommendations_inv user_location user_preferences limit log r log' :
  get_recommendations_for_user es_search es_get_document builder lower
    created_since updated_since days_old user_location user_preferences limit log
  = (inr r, log') →
  r = mkUserRecommendations [] (Some []) []
  ∨ ∃ recent log2,
      search (recent_args user_location limit) log2 = (inr recent, log')
      ∧ rec_recently_added r = sr_products recent
      ∧ (∀ l, rec_based_on_preferences r = Some l → none_out_of_stock l).
Proof.
  unfold get_recommendations_for_user. intros H.
  apply try_returns in H as [H|(e & log1 & _ & H)].
  2:{ left. unfold_monad. by injection H as <- _. }
  right.
  apply bind_returns in H as (trending & log1 & _ & H).
  apply bind_returns in H as (based & log2 & Hbased & H).
  apply bind_returns in H as (recent & log3 & Hrecent & H).
  unfold_monad. injection H as <- <-.
  exists recent, log2. split; [done|]. split; [done|]. simpl.
  intros l ->.
  destruct user_preferences as [preferences|]; [|discriminate].
  case_decide; [discriminate|].
  destruct (truthy _); [|discriminate].
  destruct (preferred_slice _) as [e|categories]; [discriminate|].
  destruct (category_recommendations _ _ _ _ _ _ _ _) as [[e|recs] log4] eqn:Hrecs;
    [discriminate|].
  injection Hbased as <- _.
  apply slice_to_in_stock.
  apply category_recommendations_in_stock in Hrecs; [done|constructor].
Qed.

(** X18.  With a [limit] below 3, [get_recommendations_for_user] asks for
    the recent products with a page size of 0, and its ["recently_added"]
    is empty whatever the store holds. *)
Theorem few_recommendations_no_recent user_location user_preferences limit log r log' :
  0 ≤ limit < 3 →
  get_recommendations_for_user es_search es_get_document builder lower
    created_since updated_since days_old user_location user_preferences limit log
  = (inr r, log') →
  page_size (recent_args user_location limit) = 0
  ∧ rec_recently_added r = [].
Proof.
  intros Hlimit H.
  assert (Hzero : page_size (recent_args user_location limit) = 0).
  { simpl. apply Z.div_small. lia. }
  split; [done|].
  apply get_recommendations_inv in H as [->|(recent & log2 & Hrecent & -> & _)]; [done|].
  apply search_products_zero_page_size in Hrecent as [e ->]; done.
Qed.

(** X19.  No document under ["recently_added"] or ["based_on_preferences"]
    of [get_recommendations_for_user] reads out of stock. *)
Theorem recommendations_in_stock user_location user_preferences limit log r log' :
  get_recommendations_for_user es_search es_get_document builder lower
    created_since updated_since days_old user_location user_preferences limit log
  = (inr r, log') →
  none_out_of_stock (rec_recently_added r)
  ∧ ∀ l, rec_based_on_preferences r = Some l → none_out_of_stock l.
Proof.
  intros H.
  apply get_recommendations_inv in H as [->|(recent & log2 & Hrecent & -> & Hbased)].
  - split; [constructor|]. intros l [= <-]. constructor.
  - split; [|done]. by apply search_products_in_stock in Hrecent.
Qed.

End RecommendationProperties.

Section RecommendationRuns.
Import Recommendations Callers.

Lemma few_recommendations_no_recent_witness :
  let run := get_recommendations_for_user catalogue_search catalogue_get_document
               sample_query_builder lower_ascii "2024-05-01T00:00:00"
               "2024-05-24T00:00:00" (λ _, Some 3) None None 2 [] in
  let r := returned (mkUserRecommendations [] None []) run in
  run = (inr r, run.2)
  ∧ length (rec_trending r) = 1%nat
  ∧ rec_recently_added r = [].
Proof.
  intros run r.
  assert (Hrun : run = (inr r, run.2)).
  { vm_cast_no_check (eq_refl (inr r : Result _, run.2)). }
  split; [exact Hrun|]. split.
  - vm_cast_no_check (eq_refl 1%nat).
  - pose proof Hrun as Hrun'. unfold run at 1 in Hrun'.
    exact (proj2 (few_recommendations_no_recent _ _ _ _ _ _ _ _ _ 2 _ _ _
                    ltac:(lia) Hrun')).
Defined.

Lemma recommendations_in_stock_witness :
  let run := get_recommendations_for_user catalogue_search catalogue_get_document
               sample_query_builder lower_ascii "2024-05-01T00:00:00"
               "2024-05-24T00:00:00" (λ _, Some 3) None
               (Some {["categories" := JArr [JStr "grains"]]}) 10 [] in
  let r := returned (mkUserRecommendations [] None []) run in
  run = (inr r, run.2)
  ∧ none_out_of_stock (rec_recently_added r).
Proof.
  intros run r.
  assert (Hrun : run = (inr r, run.2)).
  { vm_cast_no_check (eq_refl (inr r : Result _, run.2)). }
  split; [exact Hrun|].
  pose proof Hrun as Hrun'. unfold run at 1 in Hrun'.
  exact (proj1 (recommendations_in_stock _ _ _ _ _ _ _ _ _ _ _ _ _ Hrun')).
Defined.

End RecommendationRuns.

Section AutocorrectProperties.
Import Recommendations Callers.

Context (es_search : list Call → SearchCall → Result Response)
        (es_get_document : list Call → string → JValue
                           → Result (option (gmap string JValue)))
        (builder : SearchArgs → Result JValue)
        (lower : string → string).

Local Abbreviation search := (search_products es_search es_get_document builder lower).
Local Abbreviation autocorrect :=
  (search_with_autocorrect es_search es_get_document builder lower).

Lemma fuzzy_hits_inv (hits : list Hit) :
  ∀ fuzzy_products l,
    fuzzy_hits hits fuzzy_products = inr l →
    ∃ added,
      l = fuzzy_products ++ added
      ∧ length added = length hits
      ∧ Forall (λ d : gmap string JValue, d !! "autocorrected" = Some (JBool true)) added.
Proof.
  induction hits as [|hit rest IH]; intros fuzzy_products l H; simpl in H.
  - unfold_monad. injection H as <-. exists []. rewrite app_nil_r. by repeat split.
  - unfold fuzzy_product in H. unfold_monad.
    destruct (source_of hit) as [e|product]; [discriminate|].
    apply IH in H as (added & -> & Hlen & Hall).
    eexists (_ :: added). split; [by rewrite <- app_assoc|].
    split; [simpl; by rewrite Hlen|].
    apply Forall_cons. split; [|done]. by rewrite lookup_insert_eq.
Qed.

(** X20.  When [search_with_autocorrect] marks its result as
    autocorrected, the first pass found fewer than 3 documents and the
    fuzzy pass more than the first: ["products"] holds one document for
    each hit of the fuzzy pass, each marked ["autocorrected"], and
    ["total"] is the total of the fuzzy pass; ["total_pages"],
    ["has_next"] and ["out_of_stock"] stay those of the first pass. *)
Theorem autocorrected_results a log r log' :
  search_with_autocorrect es_search es_get_document builder lower a log = (inr r, log') →
  ac_autocorrected r = Some true →
  ∃ res log1 response,
    search_products es_search es_get_document builder lower a log = (inr res, log1)
    ∧ es_search log1 (fuzzy_search_call a) = inr response
    ∧ log' = log1 ++ [CallSearch (fuzzy_search_call a)]
    ∧ sr_total res < 3
    ∧ sr_total res < sr_total (ac_results r)
    ∧ sr_total (ac_results r) = default 0 (resp_total response)
    ∧ length (sr_products (ac_results r)) = length (hits_of response)
    ∧ Forall (λ d : gmap string JValue, d !! "autocorrected" = Some (JBool true))
        (sr_products (ac_results r))
    ∧ sr_total_pages (ac_results r) = sr_total_pages res
    ∧ sr_has_next (ac_results r) = sr_has_next res
    ∧ sr_out_of_stock (ac_results r) = sr_out_of_stock res
    ∧ ac_original_query r = Some (query a).
Proof.
  unfold search_with_autocorrect. intros H Hflag.
  apply try_returns in H as [H|(e & log1 & _ & H)].
  2:{ apply bind_returns in H as (res & log2 & _ & H).
      unfold_monad. injection H as <- _. discriminate Hflag. }
  apply bind_returns in H as (res & log1 & Hsearch & H).
  destruct (sr_total res <? 3) eqn:Hfew;
    [|unfold_monad; injection H as <- _; discriminate Hflag].
  apply bind_returns in H as (response & log2 & Hresp & H).
  unfold do_search in Hresp. injection Hresp as Hresp <-.
  destruct (sr_total res <? default 0 (resp_total response)) eqn:Hmore;
    [|unfold_monad; injection H as <- _; discriminate Hflag].
  apply bind_returns in H as (fuzzy_products & log3 & Hfuzzy & H).
  unfold lift in Hfuzzy. injection Hfuzzy as Hfuzzy <-.
  unfold_monad. injection H as <- <-. simpl.
  apply fuzzy_hits_inv in Hfuzzy as (added & -> & Hlen & Hall).
  exists res, log1, response.
  apply Z.ltb_lt in Hfew, Hmore. by repeat split.
Qed.

(** X21.  When the first pass of [search_with_autocorrect] finds 3
    documents or more, its dictionary is returned as it is, and the store
    receives no further request. *)
Theorem enough_results_no_autocorrect a log res log1 :
  search_products es_search es_get_document builder lower a log = (inr res, log1) →
  3 ≤ sr_total res →
  search_with_autocorrect es_search es_get_document builder lower a log
  = (inr (mkAutocorrectResult res None None), log1).
Proof.
  intros Hsearch Htotal. unfold search_with_autocorrect. unfold_monad.
  rewrite Hsearch. by destruct (Z.ltb_spec (sr_total res) 3); [lia|].
Qed.

(** X22.  When the first pass finds fewer than 3 documents and the
    request of the fuzzy pass raises, [search_with_autocorrect] runs
    [search_products] once more and returns its dictionary: the requests
    of the first pass are sent a second time. *)
Theorem failed_fuzzy_pass_repeats_search a log res log1 e :
  search_products es_search es_get_document builder lower a log = (inr res, log1) →
  sr_total res < 3 →
  es_search log1 (fuzzy_search_call a) = inl e →
  ∃ res2 log2,
    search_products es_search es_get_document builder lower a
      (log1 ++ [CallSearch (fuzzy_search_call a)]) = (inr res2, log2)
    ∧ search_with_autocorrect es_search es_get_document builder lower a log
      = (inr (mkAutocorrectResult res2 None None), log2).
Proof.
  intros Hsearch Htotal Hfuzzy.
  destruct (search_products_returns es_search es_get_document builder lower a
              (log1 ++ [CallSearch (fuzzy_search_call a)])) as [res2 Hres2].
  destruct (search a (log1 ++ _)) as [r2 log2] eqn:Hrun2. simpl in Hres2. subst r2.
  exists res2, log2. split; [done|].
  unfold search_with_autocorrect, do_search. unfold_monad.
  rewrite Hsearch. destruct (Z.ltb_spec (sr_total res) 3); [|lia].
  by rewrite Hfuzzy, Hrun2.
Qed.

End AutocorrectProperties.

Section AutocorrectRuns.
Import Recommendations Callers.

Lemma autocorrected_results_witness :
  let a := default_args "rcie" in
  let run := search_with_autocorrect typo_search no_document sample_query_builder
               lower_ascii a [] in
  let r := returned (mkAutocorrectResult (error_result a TypeError) None None) run in
  run = (inr r, run.2)
  ∧ ac_autocorrected r = Some true
  ∧ sr_total (ac_results r) = 2
  ∧ sr_total_pages (ac_results r) = 0
  ∧ ¬ none_out_of_stock (sr_products (ac_results r))
  ∧ Forall (λ d : gmap string JValue, d !! "autocorrected" = Some (JBool true))
      (sr_products (ac_results r)).
Proof.
  intros a run r.
  assert (Hrun : run = (inr r, run.2)).
  { vm_cast_no_check (eq_refl (inr r : Result _, run.2)). }
  assert (Hflag : ac_autocorrected r = Some true).
  { vm_cast_no_check (eq_refl (Some true)). }
  split; [exact Hrun|]. split; [exact Hflag|].
  split; [vm_cast_no_check (eq_refl 2)|].
  split; [vm_cast_no_check (eq_refl 0)|].
  split.
  - intros Hnone.
    assert (Hwheat : sr_products (ac_results r) !! 1%nat
                     = Some (<["autocorrected" := JBool true]>
                               (<["_score" := num 0]> doc_wheat))).
    { vm_cast_no_check (eq_refl (Some (<["autocorrected" := JBool true]>
                                         (<["_score" := num 0]> doc_wheat)))). }
    apply (Forall_lookup_1 _ _ _ _ Hnone) in Hwheat. apply Hwheat.
    vm_cast_no_check (eq_refl (Some (JStr "out_of_stock"))).
  - pose proof Hrun as Hrun'. unfold run at 1 in Hrun'.
    destruct (autocorrected_results _ _ _ _ _ _ _ _ Hrun' Hflag)
      as (res & log1 & response & _ & _ & _ & _ & _ & _ & _ & Hall & _).
    exact Hall.
Defined.

Lemma enough_results_no_autocorrect_witness :
  let a := default_args "rice" in
  let first := search_products (canned_search mixed_hits 3) no_document
                 sample_query_builder lower_ascii a [] in
  let res := returned (error_result a TypeError) first in
  search_with_autocorrect (canned_search mixed_hits 3) no_document
    sample_query_builder lower_ascii a []
  = (inr (mkAutocorrectResult res None None), first.2).
Proof.
  intros a first res.
  assert (Hfirst : first = (inr res, first.2)).
  { vm_cast_no_check (eq_refl (inr res : Result _, first.2)). }
  unfold first at 1 in Hfirst.
  assert (Htotal : 3 ≤ sr_total res).
  { vm_cast_no_check (Z.le_refl 3). }
  exact (enough_results_no_autocorrect _ _ _ _ _ _ _ _ Hfirst Htotal).
Defined.

Lemma failed_fuzzy_pass_repeats_search_witness :
  let a := default_args "rcie" in
  let first := search_products main_query_only_search no_document
                 sample_query_builder lower_ascii a [] in
  let res := returned (error_result a TypeError) first in
  ∃ res2 log2,
    search_products main_query_only_search no_document sample_query_builder lower_ascii a
      (first.2 ++ [CallSearch (fuzzy_search_call a)]) = (inr res2, log2)
    ∧ search_with_autocorrect main_query_only_search no_document sample_query_builder
        lower_ascii a []
      = (inr (mkAutocorrectResult res2 None None), log2).
Proof.
  intros a first res.
  assert (Hfirst : first = (inr res, first.2)).
  { vm_cast_no_check (eq_refl (inr res : Result _, first.2)). }
  unfold first at 1 in Hfirst.
  assert (Htotal : sr_total res < 3).
  { vm_cast_no_check (eq_refl Lt). }
  assert (Hfuzzy : main_query_only_search first.2 (fuzzy_search_call a)
                   = inl (Raised "ConnectionError")).
  { reflexivity. }
  exact (failed_fuzzy_pass_repeats_search _ _ _ _ _ _ _ _ _ Hfirst Htotal Hfuzzy).
Defined.


End AutocorrectRuns.

Section QueryBuilderProperties.
Import QueryBuilder.

Context (strip : string → string) (py_str : JValue → string) (updated_since : string).

(** The location filters do not depend on [boost_local]; the boosts are
    one for each filter, or none. *)
Lemma location_clauses_boosts (location : option (gmap string JValue)) :
  (location_clauses py_str location true).1 = (location_clauses py_str location false).1
  ∧ (location_clauses py_str location false).2 = []
  ∧ length (location_clauses py_str location true).2
    = length (location_clauses py_str location true).1.
Proof.
  unfold location_clauses. destruct location as [loc|]; [|done].
  case_decide; [done|].
  destruct (truthy (default JNull (loc !! "city")));
    destruct (truthy (default JNull (loc !! "state")));
    destruct (truthy (default JNull (loc !! "pincode")));
    destruct (truthy (default JNull (loc !! "coordinates")));
    destruct (truthy (default JNull (loc !! "radius_km"))); done.
Qed.

(** X23.  In the query of [_build_enhanced_search_query], [boost_local]
    changes the ["should"] list only: without it the list is the twelve
    ranking boosts; with it they come after one boost for each location
    filter.  The ["must"] and ["filter"] lists are the same. *)
Theorem boost_local_only_adds_boosts (a : SearchArgs) :
  let without := _build_enhanced_search_query strip py_str updated_since
                   (with_boost_local a false) in
  let with_boosts := _build_enhanced_search_query strip py_str updated_since
                       (with_boost_local a true) in
  bool_list with_boosts "must" = bool_list without "must"
  ∧ bool_list with_boosts "filter" = bool_list without "filter"
  ∧ bool_list without "should" = ranking_boosts updated_since
  ∧ length (ranking_boosts updated_since) = 12%nat
  ∧ ∃ location_boosts,
      bool_list with_boosts "should" = location_boosts ++ ranking_boosts updated_since
      ∧ length location_boosts = length (location_clauses py_str (location a) true).1.
Proof.
  destruct (location_clauses_boosts (location a)) as (Hfilters & Hnone & Hlen).
  cbn zeta. unfold _build_enhanced_search_query, bool_list. cbn [items_get].
  simpl.
  split; [done|].
  split; [unfold filter_clauses; simpl; by rewrite Hfilters|].
  split; [unfold should_clauses; simpl; by rewrite Hnone|].
  split; [done|].
  exists (location_clauses py_str (location a) true).2. by split.
Qed.

End QueryBuilderProperties.

Section SimilarProductProperties.
Import Recommendations Callers.

Context (es_search : list Call → SearchCall → Result Response)
        (es_get_document : list Call → string → JValue
                           → Result (option (gmap string JValue))).

Lemma similar_hits_inv source (hits : list Hit) :
  ∀ similar_products l,
    similar_hits source hits similar_products = inr l →
    ∃ added,
      l = similar_products ++ added
      ∧ length added = length hits
      ∧ Forall (λ d : gmap string JValue,
                  ∃ reason, d !! "similarity_reason" = Some (JStr reason)) added.
Proof.
  induction hits as [|hit rest IH]; intros similar_products l H; simpl in H.
  - unfold_monad. injection H as <-. exists []. rewrite app_nil_r. by repeat split.
  - unfold_monad.
    destruct (source_of hit) as [e|product]; [discriminate|].
    destruct (_get_similarity_reason _ _) as [e|reason]; [discriminate|].
    apply IH in H as (added & -> & Hlen & Hall).
    eexists (_ :: added). split; [by rewrite <- app_assoc|].
    split; [simpl; by rewrite Hlen|].
    apply Forall_cons. split; [|done]. exists reason. by rewrite lookup_insert_eq.
Qed.

(** X24.  [get_similar_products] never raises, and returns all or
    nothing: either the empty list, or one document for each hit of its
    one search request, each with a ["similarity_reason"]; the request
    asks for [limit] hits and is sent after the source document was
    found. *)
Theorem similar_products_all_or_nothing
    (product_id : JValue) (limit : Z) (exclude_out_of_stock : bool) log :
  ∃ l log',
    get_similar_products es_search es_get_document product_id limit
      exclude_out_of_stock log = (inr l, log')
    ∧ (l = []
       ∨ ∃ source search_query response,
           es_get_document log index_name product_id = inr (Some source)
           ∧ similar_query source product_id exclude_out_of_stock = inr search_query
           ∧ es_search (log ++ [CallGetDocument index_name product_id])
               (mkSearchCall index_name search_query limit 0
                  (Some [sort_on "_score" "desc"]) None) = inr response
           ∧ length l = length (hits_of response)
           ∧ Forall (λ d : gmap string JValue,
                       ∃ reason, d !! "similarity_reason" = Some (JStr reason)) l).
Proof.
  unfold get_similar_products, do_get_document, do_search. unfold_monad.
  destruct (es_get_document log _ _) as [e|[source|]] eqn:Hsource;
    [by eexists _, _; split; [|left]| |by eexists _, _; split; [|left]].
  case_decide; [by eexists _, _; split; [|left]|].
  destruct (similar_query _ _ _) as [e|search_query] eqn:Hquery;
    [by eexists _, _; split; [|left]|].
  destruct (es_search _ _) as [e|response] eqn:Hresp;
    [by eexists _, _; split; [|left]|].
  destruct (similar_hits _ _ _) as [e|l] eqn:Hhits;
    [by eexists _, _; split; [|left]|].
  eexists _, _. split; [done|]. right.
  apply similar_hits_inv in Hhits as (added & -> & Hlen & Hall).
  by exists source, search_query, response.
Qed.

End SimilarProductProperties.
